(** * simple_task_manager: route handlers, gatekeeper, schema and components

    A shallow embedding of the request-handling logic of the task manager:

    - [src/app/api/tasks/[id]/route.ts]        (module [TaskRoute])
    - [src/app/api/tasks/route.ts]             (modules [TasksRoute], [TasksListRoute])
    - [src/app/api/tasks/[id]/share/route.ts]  (modules [ShareRoute], [UnshareRoute])
    - [src/app/api/users/search/route.ts]      (module [SearchRoute])
    - [src/middleware.ts]                      (module [Middleware]; the
      same file holds the database schema with its row-level policies,
      which module [Supabase] follows)
    - [src/lib/supabase/server.ts]             ([createClient])
    - [src/components/tasks/TaskList.tsx]      (modules [TaskList],
      [TaskItem], [TaskListView], [TaskPage])
    - [src/components/tasks/TaskForm.tsx]      (module [TaskForm])
    - [src/components/tasks/ShareModal.tsx]    (module [ShareModal])

    The handlers are written in a small state-and-early-return monad so
    that each definition can be read next to its TypeScript source.  The
    hosted database the handlers talk to is modelled by an in-memory
    relational store (module [Supabase]) that keeps the constraints and
    the policies of the schema. *)

From Stdlib Require Import String Ascii List ZArith NArith Bool Lia DecimalString.
From Stdlib Require Import Sorted Permutation.
Import ListNotations.
Set Warnings "-register-all".
Local Open Scope string_scope.
Local Open Scope list_scope.

(* ================================================================== *)
(** ** JavaScript values as the handlers see them *)
(* ================================================================== *)

Module JS.

(** The result of [request.json()]: a JSON document.  [undefined]
    (an absent property) is [None] at type [option value].  Numbers are
    restricted to integers; the handlers only test them for zero. *)
Inductive value : Type :=
| Null
| Bool (b : bool)
| Num (n : Z)
| Str (s : string)
| Arr (items : list value)
| Obj (props : list (string * value)).

(** ToBoolean: [undefined], [null], [false], [0] and [""] are falsy. *)
Definition truthy (v : option value) : bool :=
  match v with
  | None => false
  | Some Null => false
  | Some (Bool b) => b
  | Some (Num n) => negb (Z.eqb n 0)
  | Some (Str s) => negb (String.eqb s "")
  | Some (Arr _) => true
  | Some (Obj _) => true
  end.

(** [a || b] on values: the left operand when truthy, else the right. *)
Definition or_else (a : option value) (b : value) : value :=
  match a with
  | Some v => if truthy a then v else b
  | None => b
  end.

(** White space and line terminators stripped by
    [String.prototype.trim].  A character of a Rocq string stands for
    one code unit below 256: TAB, LF, VT, FF, CR, SP and NBSP. *)
Definition is_white (c : ascii) : bool :=
  existsb (N.eqb (N_of_ascii c)) [9; 10; 11; 12; 13; 32; 160]%N.

Fixpoint trim_start (s : string) : string :=
  match s with
  | EmptyString => EmptyString
  | String c rest => if is_white c then trim_start rest else s
  end.

Fixpoint trim_end (s : string) : string :=
  match s with
  | EmptyString => EmptyString
  | String c rest =>
      match trim_end rest with
      | EmptyString => if is_white c then EmptyString else String c EmptyString
      | kept => String c kept
      end
  end.

(** [s.trim()] *)
Definition trim (s : string) : string := trim_end (trim_start s).

(** Own property lookup on a parsed object, whose property names are
    distinct. *)
Fixpoint lookup (name : string) (props : list (string * value)) : option value :=
  match props with
  | [] => None
  | (k, v) :: rest => if String.eqb k name then Some v else lookup name rest
  end.

(** One name of a destructuring pattern [const { name } = body].
    Destructuring [null] raises a TypeError ([None] here); a body that
    is not an object has none of the names the handlers ask for. *)
Definition destructure (body : value) (name : string) : option (option value) :=
  match body with
  | Null => None
  | Obj props => Some (lookup name props)
  | _ => Some None
  end.

(** [v.trim()] for a value that is neither [undefined] nor [null]:
    only strings have the method, everything else raises a TypeError. *)
Definition call_trim (v : value) : option string :=
  match v with
  | Str s => Some (trim s)
  | _ => None
  end.

(** [String(v)], which is also what a template literal makes of [v]:
    an array is its elements joined by commas, a null element giving
    nothing.  (An integer of 22 digits or more is printed by
    JavaScript in exponent form; the decimal form here is the one of
    the integers below that.) *)
Fixpoint to_string (v : value) : string :=
  match v with
  | Null => "null"
  | Bool true => "true"
  | Bool false => "false"
  | Num n => NilZero.string_of_int (Z.to_int n)
  | Str s => s
  | Arr items =>
      (fix join (l : list value) : string :=
         match l with
         | [] => ""
         | x :: rest =>
             ((match x with Null => "" | _ => to_string x end)
              ++ match rest with [] => "" | _ :: _ => "," ++ join rest end)%string
         end) items
  | Obj _ => "[object Object]"
  end.

End JS.

(* ================================================================== *)
(** ** Rows of the database ([src/types/database.ts]) *)
(* ================================================================== *)

(** Record fields carry a one-letter prefix of their table because the
    column names [id], [user_id] and [task_id] occur in several tables.
    The bookkeeping columns [created_at] and [updated_at], which the
    backend fills in by itself, are left out.  The columns are those of
    the [CREATE TABLE] statements kept in [src/middleware.ts]: a [UUID]
    column holds the text the database prints the identifier as; a
    column without [NOT NULL] is an [option].  That includes [status],
    [priority] and [permission], whose [CHECK] lists the values a text
    may take and lets NULL through. *)

Record Profile := {
  p_id : string;
  p_full_name : option string;
  p_email : string;
  p_avatar_url : option string
}.

Inductive TaskStatus := todo | in_progress | completed.
Inductive TaskPriority := low | medium | high | urgent.

Record Task := {
  t_id : string;
  t_user_id : string;
  t_title : string;
  t_description : option string;
  t_status : option TaskStatus;
  t_priority : option TaskPriority;
  t_category : option string;
  t_due_date : option string;
  t_completed_at : option string
}.

Inductive TaskSharePermission := view | edit.

Record TaskShare := {
  s_id : string;
  s_task_id : string;
  s_shared_with_user_id : string;
  s_shared_by_user_id : string;
  s_permission : option TaskSharePermission
}.

Record Comment := {
  c_id : string;
  c_task_id : string;
  c_user_id : string;
  c_content : string
}.

Record Attachment := {
  a_id : string;
  a_task_id : string;
  a_user_id : string;
  a_file_name : string;
  a_file_path : string;
  a_file_size : option Z;
  a_file_type : option string
}.

(** The payload types of the two task mutations.  [title] and
    [description] are produced by [trim] in the handlers and so are
    strings (or null); the other fields are forwarded as received, hence
    arbitrary JSON.  A field that is [None] is absent from the payload. *)
Record TaskInsert := {
  i_user_id : string;
  i_title : string;
  i_description : option string;
  i_status : JS.value;
  i_priority : JS.value;
  i_due_date : JS.value;
  i_category : JS.value
}.

Record TaskUpdate := {
  u_title : option string;
  u_description : option (option string);
  u_status : option JS.value;
  u_priority : option JS.value;
  u_due_date : option JS.value;
  u_category : option JS.value
}.

Record TaskShareInsert := {
  si_task_id : string;
  si_shared_with_user_id : string;
  si_shared_by_user_id : string
}.

(** The signed-in user as the session lookup returns it.  Its [id] is
    an identifier printed by the backend, the same text as the [id] of
    the user's profile. *)
Record User := { id : string; email : option string }.

(** [const { data: { user }, error: authError } = await supabase.auth.getUser()] *)
Record AuthResponse := { user : option User; authError : bool }.

(* ================================================================== *)
(** ** The hosted backend as an in-memory relational store *)
(* ================================================================== *)

(** The handlers reach the database through the query client of the
    hosted service.  The model below gives each query chain used by the
    handlers its meaning on lists of rows, under the schema of
    [src/middleware.ts]: its column types, its keys, foreign keys and
    checks, and its row-level policies, which see the caller of the
    request as [auth.uid()] because the client of
    [src/lib/supabase/server.ts] is made with the public key and the
    cookies of the request.  A query fails when [single] does not find
    exactly one row, when a text is refused by the input function of
    its column type, or when a write breaks a constraint or a policy;
    network failures are not modelled. *)

Module Supabase.

Record Db := {
  profiles : list Profile;
  tasks : list Task;
  task_shares : list TaskShare;
  comments : list Comment;
  attachments : list Attachment
}.

(** One round trip [supabase.from(table).<op>(...)]. *)
Inductive Op := Select | Insert | Update | Delete.

Record Query := { q_table : string; q_op : Op }.

(** The store together with the log of round trips issued so far. *)
Record World := { db : Db; trace : list Query }.

(** What the database does with text and the repository does not fix:
    the input functions of the column types [UUID] and [TIMESTAMPTZ],
    which give the text the value is printed as, or [None] for a text
    they refuse; and the text of a JSON value that is not a string,
    which is what a text-like column makes of such a value. *)
Record Backend := {
  uuid_in : string -> option string;
  timestamptz_in : string -> option string;
  json_text : JS.value -> string
}.

(** [supabase], the result of [createClient()]: the backend and, for
    the policies, [auth.uid()], which is NULL without a session. *)
Record Client := { backend : Backend; auth_uid : option string }.

(** [createClient()] of [src/lib/supabase/server.ts], for a request
    whose cookies hold the session [auth]. *)
Definition createClient (B : Backend) (auth : AuthResponse) : Client :=
  {| backend := B; auth_uid := option_map id (user auth) |}.

Inductive PostgrestError :=
| NotSingleRow
| ConstraintViolation
| InvalidInput
| PolicyViolation.

(** The [{ data, error }] pair every query resolves to. *)
Record Result (A : Type) := { data : option A; error : option PostgrestError }.
Arguments data {A} _.
Arguments error {A} _.

Definition ok {A : Type} (a : A) : Result A := {| data := Some a; error := None |}.
Definition failed {A : Type} (e : PostgrestError) : Result A :=
  {| data := None; error := Some e |}.

(** [.single()]: exactly one row, or an error and no data. *)
Definition single {A : Type} (rows : list A) : Result A :=
  match rows with
  | [r] => ok r
  | _ => failed NotSingleRow
  end.

(** The operand of a filter on a [UUID] column, when it comes from the
    request, is read by the input function of the type: the query fails
    on a text that is refused and else compares the printed forms.  (An
    operand taken from the session or from a row is already in printed
    form and is compared as it is.) *)
Definition with_uuid {A : Type} (B : Backend) (operand : string)
    (q : string -> Result A) : Result A :=
  match uuid_in B operand with
  | Some key => q key
  | None => failed InvalidInput
  end.

(** The embedded resource [profiles(id, full_name, email)]. *)
Record ProfileRef := {
  pr_id : string;
  pr_full_name : option string;
  pr_email : string
}.

Definition profile_ref (p : Profile) : ProfileRef :=
  {| pr_id := p_id p; pr_full_name := p_full_name p; pr_email := p_email p |}.

(** A to-one join along a foreign key into [profiles], which the policy
    [ON profiles FOR SELECT USING (true)] lets everyone read. *)
Definition profile_of (d : Db) (uid : string) : option ProfileRef :=
  option_map profile_ref (find (fun p => String.eqb (p_id p) uid) (profiles d)).

(** [select("*, profile:profiles!tasks_user_id_fkey(id, full_name, email)")] *)
Record TaskWithProfile := {
  tp_task : Task;
  tp_profile : option ProfileRef
}.

(** The row of the fetch-one query with its four embedded resources. *)
Record TaskDetail := {
  td_task : Task;
  td_profile : option ProfileRef;
  td_comments : list (Comment * option ProfileRef);
  td_attachments : list Attachment;
  td_task_shares : list (TaskShare * option ProfileRef)
}.

Record ShareWithProfile := {
  sp_share : TaskShare;
  sp_profile : option ProfileRef
}.

(** [id = key] on [tasks], for an identifier in printed form *)
Definition has_id (key : string) (t : Task) : bool := String.eqb (t_id t) key.

(** [task_id = key] on the three dependent tables *)
Definition shares_of (d : Db) (key : string) : list TaskShare :=
  filter (fun s => String.eqb (s_task_id s) key) (task_shares d).

Definition comments_of (d : Db) (key : string) : list Comment :=
  filter (fun c => String.eqb (c_task_id c) key) (comments d).

Definition attachments_of (d : Db) (key : string) : list Attachment :=
  filter (fun a => String.eqb (a_task_id a) key) (attachments d).

(** *** Row-level policies

    Section 9 of the schema in [src/middleware.ts].  A [USING] clause
    decides which stored rows a statement sees; a [WITH CHECK] clause
    which new rows it may store. *)

(** [x = auth.uid()], which no [x] satisfies without a session. *)
Definition is_uid (supabase : Client) (x : string) : bool :=
  match auth_uid supabase with
  | Some uid => String.eqb x uid
  | None => false
  end.

(** ["Users can view relevant task shares" ON task_shares FOR SELECT
     USING (shared_by_user_id = auth.uid() OR shared_with_user_id = auth.uid())] *)
Definition can_select_share (supabase : Client) (s : TaskShare) : bool :=
  is_uid supabase (s_shared_by_user_id s) || is_uid supabase (s_shared_with_user_id s).

(** ["Users can view own tasks" ON tasks FOR SELECT
     USING (auth.uid() = user_id
            OR id IN (SELECT task_id FROM task_shares
                      WHERE shared_with_user_id = auth.uid()))];
    the inner select is itself subject to the policy of [task_shares]. *)
Definition can_select_task (supabase : Client) (d : Db) (t : Task) : bool :=
  is_uid supabase (t_user_id t)
  || existsb (fun s => can_select_share supabase s
                       && is_uid supabase (s_shared_with_user_id s)
                       && String.eqb (s_task_id s) (t_id t))
             (task_shares d).

(** The [USING] clause of the select policies of [comments] and
    [attachments]: [task_id IN (SELECT id FROM tasks WHERE ...)], where
    the condition after [WHERE] repeats the select policy of [tasks],
    under which the inner select runs anyway. *)
Definition on_accessible_task (supabase : Client) (d : Db) (task_id : string) : bool :=
  existsb (fun t => can_select_task supabase d t && String.eqb (t_id t) task_id) (tasks d).

(** ["Users can create own tasks" ON tasks FOR INSERT
     WITH CHECK (auth.uid() = user_id)] *)
Definition can_insert_task (supabase : Client) (user_id : string) : bool :=
  is_uid supabase user_id.

(** ["Users can update own tasks" ON tasks FOR UPDATE USING (auth.uid() = user_id)]
    and ["Users can delete own tasks" ON tasks FOR DELETE USING (auth.uid() = user_id)].
    A row that passes is also one the caller may select, as the
    filter of the statement requires. *)
Definition can_update_task (supabase : Client) (t : Task) : bool :=
  is_uid supabase (t_user_id t).

Definition can_delete_task (supabase : Client) (t : Task) : bool :=
  is_uid supabase (t_user_id t).

(** ["Task owners can share tasks" ON task_shares FOR INSERT
     WITH CHECK (shared_by_user_id = auth.uid()
                 AND EXISTS (SELECT 1 FROM tasks
                             WHERE tasks.id = task_id AND tasks.user_id = auth.uid()))] *)
Definition can_insert_share (supabase : Client) (d : Db) (task_id shared_by : string) : bool :=
  is_uid supabase shared_by
  && existsb (fun t => can_select_task supabase d t
                       && has_id task_id t && is_uid supabase (t_user_id t))
             (tasks d).

(** ["Task owners can delete shares" ON task_shares FOR DELETE
     USING (shared_by_user_id = auth.uid())]; such a row is also one the
    caller may select. *)
Definition can_delete_share (supabase : Client) (s : TaskShare) : bool :=
  is_uid supabase (s_shared_by_user_id s).

(** The rows of [tasks] and [task_shares] a select of the caller sees. *)
Definition visible_tasks (supabase : Client) (d : Db) : list Task :=
  filter (can_select_task supabase d) (tasks d).

Definition visible_shares (supabase : Client) (d : Db) : list TaskShare :=
  filter (can_select_share supabase) (task_shares d).

(** The embedded resource [task_shares(...)] of a task row: the shares
    of the task among those the caller sees. *)
Definition shares_seen (supabase : Client) (d : Db) (key : string) : list TaskShare :=
  filter (can_select_share supabase) (shares_of d key).

(** *** The select queries on [tasks] *)

(** [from("tasks").select("user_id").eq("id", taskId).single()] *)
Definition select_task_owner (supabase : Client) (d : Db) (taskId : string) : Result string :=
  with_uuid (backend supabase) taskId
    (fun key => single (map t_user_id (filter (has_id key) (visible_tasks supabase d)))).

(** [from("tasks").select("user_id, task_shares(shared_with_user_id)")
     .eq("id", taskId).single()] *)
Definition select_task_access (supabase : Client) (d : Db) (taskId : string)
  : Result (string * list string) :=
  with_uuid (backend supabase) taskId
    (fun key =>
       single (map (fun t => (t_user_id t,
                              map s_shared_with_user_id (shares_seen supabase d (t_id t))))
                   (filter (has_id key) (visible_tasks supabase d)))).

Definition with_profile (d : Db) (t : Task) : TaskWithProfile :=
  {| tp_task := t; tp_profile := profile_of d (t_user_id t) |}.

(** A task row with the embedded resources of the fetch-one query, as
    the caller sees them. *)
Definition detail (supabase : Client) (d : Db) (t : Task) : TaskDetail :=
  {| td_task := t;
     td_profile := profile_of d (t_user_id t);
     td_comments :=
       map (fun c => (c, profile_of d (c_user_id c)))
           (filter (fun c => on_accessible_task supabase d (c_task_id c))
                   (comments_of d (t_id t)));
     td_attachments :=
       filter (fun a => on_accessible_task supabase d (a_task_id a))
              (attachments_of d (t_id t));
     td_task_shares :=
       map (fun s => (s, profile_of d (s_shared_with_user_id s)))
           (shares_seen supabase d (t_id t)) |}.

(** The fetch-one query of [GET /api/tasks/[id]]. *)
Definition select_task_detail (supabase : Client) (d : Db) (taskId : string)
  : Result TaskDetail :=
  with_uuid (backend supabase) taskId
    (fun key => single (map (detail supabase d) (filter (has_id key) (visible_tasks supabase d)))).

(** *** Column input

    A value of the payload of an insert or update is read for its
    column: JSON null is NULL; a JSON string is read by its content and
    any other value by its JSON text; for [due_date] that text goes
    through the input function of [TIMESTAMPTZ], for [status] and
    [priority] it must pass the [CHECK] of the column, and [category]
    takes any text. *)

Definition column_text (B : Backend) (v : JS.value) : option string :=
  match v with
  | JS.Null => None
  | JS.Str s => Some s
  | _ => Some (json_text B v)
  end.

(** [CHECK (status IN ('todo', 'in_progress', 'completed'))] *)
Definition status_of_text (s : string) : option TaskStatus :=
  if String.eqb s "todo" then Some todo
  else if String.eqb s "in_progress" then Some in_progress
  else if String.eqb s "completed" then Some completed
  else None.

(** [CHECK (priority IN ('low', 'medium', 'high', 'urgent'))] *)
Definition priority_of_text (s : string) : option TaskPriority :=
  if String.eqb s "low" then Some low
  else if String.eqb s "medium" then Some medium
  else if String.eqb s "high" then Some high
  else if String.eqb s "urgent" then Some urgent
  else None.

(** The value stored for a payload value, [None] when it is refused. *)
Definition as_status (B : Backend) (v : JS.value) : option (option TaskStatus) :=
  match column_text B v with
  | None => Some None
  | Some s => option_map Some (status_of_text s)
  end.

Definition as_priority (B : Backend) (v : JS.value) : option (option TaskPriority) :=
  match column_text B v with
  | None => Some None
  | Some s => option_map Some (priority_of_text s)
  end.

Definition as_timestamptz (B : Backend) (v : JS.value) : option (option string) :=
  match column_text B v with
  | None => Some None
  | Some s => option_map Some (timestamptz_in B s)
  end.

Definition as_text (B : Backend) (v : JS.value) : option string := column_text B v.

(** An update payload with every present value read for its column. *)
Record TaskColumns := {
  col_title : option string;
  col_description : option (option string);
  col_status : option (option TaskStatus);
  col_priority : option (option TaskPriority);
  col_due_date : option (option string);
  col_category : option (option string)
}.

(** A field absent from the payload stays absent; a present one must
    be accepted by its column. *)
Definition typed {A : Type} (conv : JS.value -> option A) (v : option JS.value)
  : option (option A) :=
  match v with
  | None => Some None
  | Some x => option_map Some (conv x)
  end.

(** The payload of an update read column by column: a timestamp that
    is refused fails the statement, and so does a status or priority
    outside its [CHECK]. *)
Definition typed_update (B : Backend) (u : TaskUpdate) : PostgrestError + TaskColumns :=
  match typed (as_timestamptz B) (u_due_date u) with
  | None => inl InvalidInput
  | Some due =>
      match typed (as_status B) (u_status u), typed (as_priority B) (u_priority u) with
      | Some st, Some pr =>
          inr {| col_title := u_title u; col_description := u_description u;
                 col_status := st; col_priority := pr;
                 col_due_date := due;
                 col_category := option_map (as_text B) (u_category u) |}
      | _, _ => inl ConstraintViolation
      end
  end.

(** The payload names no column. *)
Definition no_columns (u : TaskUpdate) : bool :=
  match u_title u, u_description u, u_status u, u_priority u, u_due_date u, u_category u with
  | None, None, None, None, None, None => true
  | _, _, _, _, _, _ => false
  end.

(** [SET col = value] for the columns present, nothing for the others. *)
Definition set_to {A : Type} (new : option A) (old : A) : A :=
  match new with
  | Some v => v
  | None => old
  end.

Definition set_columns (c : TaskColumns) (t : Task) : Task :=
  {| t_id := t_id t;
     t_user_id := t_user_id t;
     t_title := set_to (col_title c) (t_title t);
     t_description := set_to (col_description c) (t_description t);
     t_status := set_to (col_status c) (t_status t);
     t_priority := set_to (col_priority c) (t_priority t);
     t_category := set_to (col_category c) (t_category t);
     t_due_date := set_to (col_due_date c) (t_due_date t);
     t_completed_at := t_completed_at t |}.

Definition with_tasks (d : Db) (ts : list Task) : Db :=
  {| profiles := profiles d; tasks := ts; task_shares := task_shares d;
     comments := comments d; attachments := attachments d |}.

(** *** The writes on [tasks] *)

(** [from("tasks").update(updateData).eq("id", taskId)
     .select("*, profile:...").single()].  The statement reaches the
    rows under the identifier that the update policy lets the caller
    change and returns them as updated.  Asked for a single row, the
    service keeps the change only when exactly one row comes back.  A
    payload that names no column is not executed: it changes nothing
    and returns no row. *)
Definition update_task (supabase : Client) (d : Db) (u : TaskUpdate) (taskId : string)
  : Result TaskWithProfile * Db :=
  match uuid_in (backend supabase) taskId with
  | None => (failed InvalidInput, d)
  | Some key =>
      if no_columns u then (failed NotSingleRow, d)
      else
        match typed_update (backend supabase) u with
        | inl e => (failed e, d)
        | inr c =>
            let reached := fun t => has_id key t && can_update_task supabase t in
            let d' := with_tasks d (map (fun t => if reached t then set_columns c t else t)
                                        (tasks d)) in
            match filter reached (tasks d) with
            | [t] => (ok (with_profile d' (set_columns c t)), d')
            | _ => (failed NotSingleRow, d)
            end
        end
  end.

(** [from("tasks").delete().eq("id", taskId)].  The statement removes
    the rows under the identifier that the delete policy lets the caller
    remove.  The foreign keys [task_id UUID REFERENCES tasks(id) ON
    DELETE CASCADE] of [task_shares], [comments] and [attachments] in
    the schema take the rows that refer to a removed task with it,
    whatever the policies of those tables. *)
Definition delete_task (supabase : Client) (d : Db) (taskId : string) : Result unit * Db :=
  match uuid_in (backend supabase) taskId with
  | None => (failed InvalidInput, d)
  | Some key =>
      let removed := fun t => has_id key t && can_delete_task supabase t in
      let cascades := fun task_id => existsb removed (tasks d) && String.eqb task_id key in
      (ok tt,
       {| profiles := profiles d;
          tasks := filter (fun t => negb (removed t)) (tasks d);
          task_shares := filter (fun s => negb (cascades (s_task_id s))) (task_shares d);
          comments := filter (fun c => negb (cascades (c_task_id c))) (comments d);
          attachments := filter (fun a => negb (cascades (a_task_id a))) (attachments d) |})
  end.

(** [REFERENCES profiles(id)]: the identifier is the key of a profile. *)
Definition has_profile (d : Db) (uid : string) : bool :=
  existsb (fun p => String.eqb (p_id p) uid) (profiles d).

(** [from("tasks").insert(taskData).select("*, profile:...").single()].
    [fresh] is the identifier [gen_random_uuid()] gives the new row.
    The row is refused when a value is refused by its column, by the
    insert policy, by the foreign key [user_id UUID REFERENCES
    profiles(id)] or by the primary key. *)
Definition insert_task (supabase : Client) (d : Db) (fresh : string) (i : TaskInsert)
  : Result TaskWithProfile * Db :=
  match as_timestamptz (backend supabase) (i_due_date i) with
  | None => (failed InvalidInput, d)
  | Some due =>
      match as_status (backend supabase) (i_status i),
            as_priority (backend supabase) (i_priority i) with
      | Some st, Some pr =>
          if negb (can_insert_task supabase (i_user_id i)) then (failed PolicyViolation, d)
          else if negb (has_profile d (i_user_id i)) then (failed ConstraintViolation, d)
          else if existsb (has_id fresh) (tasks d) then (failed ConstraintViolation, d)
          else
            let row := {| t_id := fresh; t_user_id := i_user_id i; t_title := i_title i;
                          t_description := i_description i; t_status := st;
                          t_priority := pr;
                          t_category := as_text (backend supabase) (i_category i);
                          t_due_date := due;
                          t_completed_at := None |} in
            let d' := with_tasks d (tasks d ++ [row]) in
            (ok (with_profile d' row), d')
      | _, _ => (failed ConstraintViolation, d)
      end
  end.

(** *** The queries on [task_shares] and [profiles] *)

(** [task_id = key AND shared_with_user_id = userId], both in printed
    form *)
Definition is_share (key userId : string) (s : TaskShare) : bool :=
  String.eqb (s_task_id s) key && String.eqb (s_shared_with_user_id s) userId.

(** [from("task_shares").select("id").eq("task_id", taskId)
     .eq("shared_with_user_id", targetUser.id).single()] *)
Definition select_share (supabase : Client) (d : Db) (taskId userId : string)
  : Result string :=
  with_uuid (backend supabase) taskId
    (fun key => single (map s_id (filter (is_share key userId) (visible_shares supabase d)))).

(** The operand of a filter on a text column: the filter is sent as
    [eq.${value}], so the column is compared with [String(value)]. *)
Definition text_eq (column : string) (operand : JS.value) : bool :=
  String.eqb column (JS.to_string operand).

(** [from("profiles").select("id, email, full_name").eq("email", userEmail).single()] *)
Definition select_profile_by_email (d : Db) (userEmail : JS.value) : Result ProfileRef :=
  single (map profile_ref (filter (fun p => text_eq (p_email p) userEmail) (profiles d))).

(** [from("task_shares").insert({...}).select("*, profile:...").single()].
    [fresh] is the identifier [gen_random_uuid()] gives the new row and
    [permission] takes its [DEFAULT 'view'].  The row is refused by the
    insert policy unless the caller gives it and owns the task, by the
    foreign keys of [shared_with_user_id] and [shared_by_user_id] into
    [profiles], by [UNIQUE(task_id, shared_with_user_id)] when the task
    is already shared with the user, and by the primary key. *)
Definition insert_share (supabase : Client) (d : Db) (fresh : string) (i : TaskShareInsert)
  : Result ShareWithProfile * Db :=
  match uuid_in (backend supabase) (si_task_id i) with
  | None => (failed InvalidInput, d)
  | Some key =>
      if negb (can_insert_share supabase d key (si_shared_by_user_id i))
      then (failed PolicyViolation, d)
      else if negb (has_profile d (si_shared_with_user_id i)
                    && has_profile d (si_shared_by_user_id i))
      then (failed ConstraintViolation, d)
      else if existsb (is_share key (si_shared_with_user_id i)) (task_shares d)
              || existsb (fun s => String.eqb (s_id s) fresh) (task_shares d)
      then (failed ConstraintViolation, d)
      else
        let row := {| s_id := fresh; s_task_id := key;
                      s_shared_with_user_id := si_shared_with_user_id i;
                      s_shared_by_user_id := si_shared_by_user_id i;
                      s_permission := Some view |} in
        (ok {| sp_share := row; sp_profile := profile_of d (s_shared_with_user_id row) |},
         {| profiles := profiles d; tasks := tasks d;
            task_shares := task_shares d ++ [row];
            comments := comments d; attachments := attachments d |})
  end.

(** [from("profiles").select("id, email, full_name").ilike("email", pattern)
     .neq("id", userId).limit(n)].  [ilike value pattern] is the
    backend's case-insensitive pattern operator. *)
Definition search_profiles (ilike : string -> string -> bool) (d : Db)
    (pattern userId : string) (n : nat) : Result (list ProfileRef) :=
  ok (firstn n
        (map profile_ref
           (filter (fun p => ilike (p_email p) pattern && negb (String.eqb (p_id p) userId))
                   (profiles d)))).

End Supabase.

(* ================================================================== *)
(** ** Responses, sessions and the handler monad *)
(* ================================================================== *)

Import Supabase.

(** The JSON bodies the handlers send, by shape.  A payload taken from
    the [data] of a query is [None] when that [data] is null. *)
Inductive Body :=
| error_body (error : string)
| message_body (message : string)
| task_body (task : option TaskWithProfile)
| task_detail_body (task : option TaskDetail)
| users_body (users : option (list ProfileRef))
| share_body (message : string) (share : option ShareWithProfile).

Record Response := { body : Body; status : Z }.

(** [NextResponse.json(body, { status })] *)
Definition json (b : Body) (st : Z) : Response := {| body := b; status := st |}.

(** A handler body runs against the world (store and query log) and, at
    each statement, goes on, returns a response early, or throws. *)
Inductive Step (A : Type) :=
| Continue (a : A)
| Return (r : Response)
| Throw.
Arguments Continue {A} _.
Arguments Return {A} _.
Arguments Throw {A}.

Definition Handler (A : Type) : Type := World -> Step A * World.

Definition ret {A : Type} (a : A) : Handler A := fun w => (Continue a, w).

Definition bind {A B : Type} (m : Handler A) (k : A -> Handler B) : Handler B :=
  fun w =>
    match m w with
    | (Continue a, w') => k a w'
    | (Return r, w') => (Return r, w')
    | (Throw, w') => (Throw, w')
    end.

Notation "x <- m ;; k" := (bind m (fun x => k))
  (at level 61, m at next level, right associativity).
Notation "m ;; k" := (bind m (fun _ => k))
  (at level 61, right associativity).

(** [return r;] *)
Definition respond {A : Type} (r : Response) : Handler A := fun w => (Return r, w).

(** [throw] *)
Definition throw {A : Type} : Handler A := fun w => (Throw, w).

(** [if (c) return r;] *)
Definition return_if (c : bool) (r : Response) : Handler unit :=
  if c then respond r else ret tt.

(** One awaited query: runs on the store and is appended to the log. *)
Definition query {A : Type} (table : string) (op : Op) (f : Db -> A * Db) : Handler A :=
  fun w =>
    let (a, d) := f (db w) in
    (Continue a, {| db := d; trace := trace w ++ [{| q_table := table; q_op := op |}] |}).

(** A query that only reads. *)
Definition read {A : Type} (table : string) (f : Db -> A) : Handler A :=
  query table Select (fun d => (f d, d)).

(** [try { ... } catch (error) { return 500 }] around every handler. *)
Definition try_catch (h : Handler Response) (w : World) : Response * World :=
  match h w with
  | (Continue r, w') => (r, w')
  | (Return r, w') => (r, w')
  | (Throw, w') => (json (error_body "Internal server error") 500, w')
  end.

(** [if (authError || !user) return 401], then [user] is in scope. *)
Definition require_user (auth : AuthResponse) : Handler User :=
  match user auth with
  | Some u => if authError auth then respond (json (error_body "Unauthorized") 401) else ret u
  | None => respond (json (error_body "Unauthorized") 401)
  end.

(** [await request.json()]: the parsed body, or a throw when the request
    body is not JSON ([None]). *)
Definition request_json (raw : option JS.value) : Handler JS.value :=
  match raw with
  | Some b => ret b
  | None => throw
  end.

(** One name of [const { ... } = body]. *)
Definition field (b : JS.value) (name : string) : Handler (option JS.value) :=
  match JS.destructure b name with
  | Some v => ret v
  | None => throw
  end.

(** A step that throws on [None]. *)
Definition or_throw {A : Type} (o : option A) : Handler A :=
  match o with
  | Some a => ret a
  | None => throw
  end.

(** [description?.trim() || null]: [None] is a TypeError. *)
Definition trimmed_or_null (description : option JS.value) : option (option string) :=
  match description with
  | None => Some None
  | Some JS.Null => Some None
  | Some v =>
      match JS.call_trim v with
      | Some s => Some (if String.eqb s "" then None else Some s)
      | None => None
      end
  end.

(* ================================================================== *)
(** ** [src/app/api/tasks/[id]/route.ts] *)
(* ================================================================== *)

Module TaskRoute.

Definition canAccessTask (supabase : Client) (taskId userId : string) : Handler bool :=
  task <- read "tasks" (fun d => data (select_task_access supabase d taskId)) ;;
  match task with
  | None => ret false
  | Some (owner, shared_with) =>
      let isOwner := String.eqb owner userId in
      let isShared := existsb (fun share => String.eqb share userId) shared_with in
      ret (isOwner || isShared)
  end.

Definition GET (B : Backend) (auth : AuthResponse) (taskId : string)
  : World -> Response * World :=
  let supabase := createClient B auth in
  try_catch (
    user <- require_user auth ;;
    hasAccess <- canAccessTask supabase taskId (id user) ;;
    return_if (negb hasAccess) (json (error_body "Forbidden") 403) ;;
    res <- read "tasks" (fun d => select_task_detail supabase d taskId) ;;
    match error res with
    | Some _ => respond (json (error_body "Task not found") 404)
    | None => ret (json (task_detail_body (data res)) 200)
    end).

(** The ownership test shared by PATCH and DELETE:
    [!task || task.user_id !== user.id]. *)
Definition not_owner (task : option string) (user : User) : bool :=
  match task with
  | None => true
  | Some owner => negb (String.eqb owner (id user))
  end.

(** The statements of PATCH that fill [updateData]; [None] when one of
    the [trim] calls raises a TypeError. *)
Definition updateData_of (title description status priority due_date category : option JS.value)
  : option TaskUpdate :=
  match
    match title with
    | None => Some None
    | Some v => option_map Some (JS.call_trim v)
    end
  with
  | None => None
  | Some new_title =>
      match
        match description with
        | None => Some None
        | Some _ => option_map Some (trimmed_or_null description)
        end
      with
      | None => None
      | Some new_description =>
          Some {| u_title := new_title; u_description := new_description;
                  u_status := status; u_priority := priority;
                  u_due_date := due_date; u_category := category |}
      end
  end.

(** [updateData.title && updateData.title === ""] *)
Definition title_rejected (updateData : TaskUpdate) : bool :=
  match u_title updateData with
  | Some t => JS.truthy (Some (JS.Str t)) && String.eqb t ""
  | None => false
  end.

Definition PATCH (B : Backend) (auth : AuthResponse) (taskId : string)
    (raw : option JS.value) : World -> Response * World :=
  let supabase := createClient B auth in
  try_catch (
    user <- require_user auth ;;
    task <- read "tasks" (fun d => data (select_task_owner supabase d taskId)) ;;
    return_if (not_owner task user)
      (json (error_body "Forbidden - Only owner can update task") 403) ;;
    body <- request_json raw ;;
    title <- field body "title" ;;
    description <- field body "description" ;;
    status <- field body "status" ;;
    priority <- field body "priority" ;;
    due_date <- field body "due_date" ;;
    category <- field body "category" ;;
    updateData <- or_throw (updateData_of title description status priority due_date category) ;;
    return_if (title_rejected updateData) (json (error_body "Title cannot be empty") 400) ;;
    res <- query "tasks" Update (fun d => update_task supabase d updateData taskId) ;;
    match error res with
    | Some _ => respond (json (error_body "Failed to update task") 500)
    | None => ret (json (task_body (data res)) 200)
    end).

Definition DELETE (B : Backend) (auth : AuthResponse) (taskId : string)
  : World -> Response * World :=
  let supabase := createClient B auth in
  try_catch (
    user <- require_user auth ;;
    task <- read "tasks" (fun d => data (select_task_owner supabase d taskId)) ;;
    return_if (not_owner task user)
      (json (error_body "Forbidden - Only owner can delete task") 403) ;;
    res <- query "tasks" Delete (fun d => delete_task supabase d taskId) ;;
    match error res with
    | Some _ => respond (json (error_body "Failed to delete task") 500)
    | None => ret (json (message_body "Task deleted successfully") 200)
    end).

End TaskRoute.

(* ================================================================== *)
(** ** [src/app/api/tasks/route.ts] *)
(* ================================================================== *)

Module TasksRoute.

(** [!title || title.trim() === ""]; [None] when [trim] raises. *)
Definition title_missing (title : option JS.value) : option bool :=
  match title with
  | Some v =>
      if JS.truthy title
      then option_map (fun s => String.eqb s "") (JS.call_trim v)
      else Some true
  | None => Some true
  end.

(** The object literal [taskData]; [None] when a [trim] call raises. *)
Definition taskData_of (user : User)
    (title description status priority due_date category : option JS.value)
  : option TaskInsert :=
  match title with
  | None => None
  | Some v =>
      match JS.call_trim v, trimmed_or_null description with
      | Some t, Some d =>
          Some {| i_user_id := id user;
                  i_title := t;
                  i_description := d;
                  i_status := JS.or_else status (JS.Str "todo");
                  i_priority := JS.or_else priority (JS.Str "medium");
                  i_due_date := JS.or_else due_date JS.Null;
                  i_category := JS.or_else category JS.Null |}
      | _, _ => None
      end
  end.

(** [fresh] is the identifier the backend gives the new row. *)
Definition POST (B : Backend) (auth : AuthResponse) (raw : option JS.value)
    (fresh : string) : World -> Response * World :=
  let supabase := createClient B auth in
  try_catch (
    user <- require_user auth ;;
    body <- request_json raw ;;
    title <- field body "title" ;;
    description <- field body "description" ;;
    status <- field body "status" ;;
    priority <- field body "priority" ;;
    due_date <- field body "due_date" ;;
    category <- field body "category" ;;
    missing <- or_throw (title_missing title) ;;
    return_if missing (json (error_body "Title is required") 400) ;;
    taskData <- or_throw (taskData_of user title description status priority due_date category) ;;
    res <- query "tasks" Insert (fun d => insert_task supabase d fresh taskData) ;;
    match error res with
    | Some _ => respond (json (error_body "Failed to create task") 500)
    | None => ret (json (task_body (data res)) 201)
    end).

End TasksRoute.

(* ================================================================== *)
(** ** [src/app/api/tasks/[id]/share/route.ts] *)
(* ================================================================== *)

Module ShareRoute.

Definition POST (B : Backend) (auth : AuthResponse) (taskId : string)
    (raw : option JS.value) (fresh : string) : World -> Response * World :=
  let supabase := createClient B auth in
  try_catch (
    user <- require_user auth ;;
    body <- request_json raw ;;
    userEmail <- field body "userEmail" ;;
    match userEmail with
    | None => respond (json (error_body "User email is required") 400)
    | Some email_value =>
        return_if (negb (JS.truthy userEmail))
          (json (error_body "User email is required") 400) ;;
        task <- read "tasks" (fun d => select_task_owner supabase d taskId) ;;
        match error task, data task with
        | None, Some owner =>
            return_if (negb (String.eqb owner (id user)))
              (json (error_body "Only task owner can share") 403) ;;
            found <- read "profiles" (fun d => select_profile_by_email d email_value) ;;
            match error found, data found with
            | None, Some targetUser =>
                return_if (String.eqb (pr_id targetUser) (id user))
                  (json (error_body "Cannot share task with yourself") 400) ;;
                existingShare <-
                  read "task_shares"
                    (fun d => data (select_share supabase d taskId (pr_id targetUser))) ;;
                match existingShare with
                | Some _ =>
                    respond (json (error_body "Task already shared with this user") 400)
                | None =>
                    res <- query "task_shares" Insert
                             (fun d => insert_share supabase d fresh
                                         {| si_task_id := taskId;
                                            si_shared_with_user_id := pr_id targetUser;
                                            si_shared_by_user_id := id user |}) ;;
                    match error res with
                    | Some _ => respond (json (error_body "Failed to share task") 500)
                    | None =>
                        ret (json (share_body "Task shared successfully" (data res)) 201)
                    end
                end
            | _, _ => respond (json (error_body "User not found with that email") 404)
            end
        | _, _ => respond (json (error_body "Task not found") 404)
        end
    end).

End ShareRoute.

(* ================================================================== *)
(** ** [src/app/api/users/search/route.ts] *)
(* ================================================================== *)

Module SearchRoute.

Section Search.

(** The backend's ILIKE operator, [ilike value pattern]. *)
Variable ilike : string -> string -> bool.

(** [!query || query.trim() === ""] for [query : string | null] *)
Definition no_query (query : option string) : bool :=
  match query with
  | None => true
  | Some q => String.eqb q "" || String.eqb (JS.trim q) ""
  end.

(** [query] is [searchParams.get("q")]. *)
Definition GET (auth : AuthResponse) (query : option string) : World -> Response * World :=
  try_catch (
    user <- require_user auth ;;
    match query with
    | None => respond (json (users_body (Some [])) 200)
    | Some q =>
        return_if (no_query query) (json (users_body (Some [])) 200) ;;
        res <- read "profiles"
                 (fun d => search_profiles ilike d ("%" ++ q ++ "%")%string (id user) 10) ;;
        match error res with
        | Some _ => respond (json (error_body "Failed to search users") 500)
        | None => ret (json (users_body (data res)) 200)
        end
    end).

End Search.

End SearchRoute.

(* ================================================================== *)
(** ** [src/middleware.ts] *)
(* ================================================================== *)

Module Middleware.

(** The parts of [request.nextUrl] the gatekeeper reads or writes. *)
Record URL := { pathname : string; searchParams : list (string * string) }.

(** [NextResponse.redirect(url)] or the pass-through [response]. *)
Inductive Decision :=
| Redirect (url : URL)
| Next.

(** [path.startsWith(route)] *)
Fixpoint startsWith (path route : string) {struct route} : bool :=
  match route with
  | EmptyString => true
  | String r route' =>
      match path with
      | EmptyString => false
      | String p path' => Ascii.eqb p r && startsWith path' route'
      end
  end.

(** [searchParams.set(name, value)]: the first pair of that name takes
    the value and the later ones go; without one the pair is appended. *)
Fixpoint searchParams_set (name value : string) (params : list (string * string))
  : list (string * string) :=
  match params with
  | [] => [(name, value)]
  | (k, v) :: rest =>
      if String.eqb k name
      then (name, value) :: filter (fun kv => negb (String.eqb (fst kv) name)) rest
      else (k, v) :: searchParams_set name value rest
  end.

Definition publicRoutes : list string := ["/login"; "/signup"].

Definition isPublicRoute (path : string) : bool :=
  existsb (fun route => startsWith path route) publicRoutes.

(** [user] is the session lookup result, [nextUrl] the requested URL. *)
Definition middleware (user : option User) (nextUrl : URL) : Decision :=
  let path := pathname nextUrl in
  let signed_in := match user with Some _ => true | None => false end in
  if negb signed_in && negb (isPublicRoute path)
  then Redirect {| pathname := "/login";
                   searchParams := searchParams_set "redirectedFrom" path
                                     (searchParams nextUrl) |}
  else if signed_in && (String.eqb path "/login" || String.eqb path "/signup")
  then Redirect {| pathname := "/"; searchParams := searchParams nextUrl |}
  else Next.

End Middleware.

(* ================================================================== *)
(** ** [src/components/tasks/TaskList.tsx] *)
(* ================================================================== *)

Module TaskList.

Section Overdue.

(** The time value of [new Date(s)] in milliseconds; [None] is an
    Invalid Date, whose time value is NaN. *)
Variable Date_parse : string -> option Z.

(** [new Date(due) < new Date()]: a comparison with NaN is false. *)
Definition before (due : option Z) (now : Z) : bool :=
  match due with
  | Some t => Z.ltb t now
  | None => false
  end.

(** [status === "completed"] *)
Definition is_completed (s : option TaskStatus) : bool :=
  match s with
  | Some completed => true
  | _ => false
  end.

(** [now] is the time value of [new Date()]. *)
Definition isOverdue (task : Task) (now : Z) : bool :=
  match t_due_date task with
  | Some due =>
      JS.truthy (Some (JS.Str due))
      && negb (is_completed (t_status task))
      && before (Date_parse due) now
  | None => false
  end.

End Overdue.

End TaskList.

(* ================================================================== *)
(** ** Vocabulary of the statements *)
(* ================================================================== *)

(** A caller with a valid session. *)
Definition authenticated (caller : User) : AuthResponse :=
  {| user := Some caller; authError := false |}.

Definition issued (table : string) (op : Op) : Query :=
  {| q_table := table; q_op := op |}.

(** The round trips a handler added to the log of [w]. *)
Definition new_queries (w w' : World) : list Query :=
  skipn (length (trace w)) (trace w').

(** The client of a request of [caller]. *)
Definition client_of (B : Backend) (caller : User) : Client :=
  createClient B (authenticated caller).

(** The caller is the recipient of a share of the task stored under
    [key]. *)
Definition shared_with (d : Db) (key : string) (caller : User) : Prop :=
  exists s, In s (task_shares d) /\ s_task_id s = key
            /\ s_shared_with_user_id s = id caller.

(** Primary key of [tasks]: [t] is the one row stored under its
    identifier. *)
Definition only_task (d : Db) (t : Task) : Prop :=
  filter (has_id (t_id t)) (tasks d) = [t].

(** No row is stored under the identifier [key]. *)
Definition no_task (d : Db) (key : string) : Prop :=
  forall t, In t (tasks d) -> t_id t <> key.

(** The text [taskId] of a request is read as the identifier of the
    row [t]. *)
Definition names (B : Backend) (taskId : string) (t : Task) : Prop :=
  uuid_in B taskId = Some (t_id t).

(** The stored task identifiers are texts as the backend prints an
    identifier: read as one, each is itself. *)
Definition canonical_ids (B : Backend) (d : Db) : Prop :=
  forall t, In t (tasks d) -> names B (t_id t) t.

(** The text [taskId] of a request is refused as an identifier, or read
    as one under which no row is stored. *)
Definition names_no_task (B : Backend) (d : Db) (taskId : string) : Prop :=
  forall key, uuid_in B taskId = Some key -> no_task d key.

(** The caller has a profile, as the trigger [on_auth_user_created] of
    the schema gives every account. *)
Definition has_account (d : Db) (caller : User) : Prop :=
  has_profile d (id caller) = true.

(** A title that is missing, or empty once trimmed. *)
Definition title_blank (title : option JS.value) : Prop :=
  title = None \/ exists s, title = Some (JS.Str s) /\ JS.trim s = "".

(** The store after the rows under [key] took the columns [c]. *)
Definition rewrite_task (c : TaskColumns) (key : string) (d : Db) : Db :=
  with_tasks d (map (fun x => if has_id key x then set_columns c x else x) (tasks d)).

(** Letter case aside: an upper-case letter of the basic alphabet
    counts as its lower-case form. *)
Definition lower (c : ascii) : ascii :=
  let n := N_of_ascii c in
  if (N.leb 65 n && N.leb n 90)%bool then ascii_of_N (n + 32) else c.

(** [value] begins with [part], and [value] contains [part], letter
    case aside. *)
Fixpoint starts_with_ci (value part : string) : bool :=
  match part, value with
  | EmptyString, _ => true
  | String p part', String c value' =>
      Ascii.eqb (lower p) (lower c) && starts_with_ci value' part'
  | String _ _, EmptyString => false
  end.

Fixpoint contains_ci (value part : string) : bool :=
  starts_with_ci value part
  || match value with
     | EmptyString => false
     | String _ value' => contains_ci value' part
     end.

(** A query none of whose characters has a meaning of its own in a
    pattern of the service: no percent sign, underscore, backslash or
    asterisk. *)
Definition plain_char (c : ascii) : bool :=
  negb (existsb (Ascii.eqb c) ["%"; "_"; "\"; "*"]%char).

Fixpoint plain (q : string) : bool :=
  match q with
  | EmptyString => true
  | String c rest => plain_char c && plain rest
  end.

(** What the pattern operator does with a plain query between two
    percent signs: it accepts the values that contain the query, letter
    case aside. *)
Definition partial_match (ilike : string -> string -> bool) : Prop :=
  forall value q, plain q = true ->
    ilike value ("%" ++ q ++ "%")%string = contains_ci value q.

(** The users a case-insensitive partial match of [q] on the email
    gives the caller: the profiles of others whose email contains [q],
    the first ten of them. *)
Definition partial_matches (d : Db) (caller : User) (q : string) : list ProfileRef :=
  firstn 10
    (map profile_ref
       (filter (fun p => contains_ci (p_email p) q
                         && negb (String.eqb (p_id p) (id caller)))
               (profiles d))).

(** The store after the rows under [key] that the caller may update
    took the columns [c]. *)
Definition rewrite_own (supabase : Client) (c : TaskColumns) (key : string) (d : Db) : Db :=
  with_tasks d
    (map (fun x => if has_id key x && can_update_task supabase x then set_columns c x else x)
         (tasks d)).

(** The store without the rows under [key] and without what refers to
    them. *)
Definition without_task (key : string) (d : Db) : Db :=
  {| profiles := profiles d;
     tasks := filter (fun t => negb (has_id key t)) (tasks d);
     task_shares := filter (fun s => negb (String.eqb (s_task_id s) key)) (task_shares d);
     comments := filter (fun c => negb (String.eqb (c_task_id c) key)) (comments d);
     attachments := filter (fun a => negb (String.eqb (a_task_id a) key)) (attachments d) |}.

(** The store without the shares of the task [key] with [userId] that
    [giver] gave. *)
Definition unshared (giver key userId : string) (d : Db) : Db :=
  {| profiles := profiles d;
     tasks := tasks d;
     task_shares :=
       filter (fun s => negb (is_share key userId s
                              && String.eqb (s_shared_by_user_id s) giver))
              (task_shares d);
     comments := comments d;
     attachments := attachments d |}.

(** The gatekeeper's rule as the specification words it, for one notion
    [auth_page] of what an auth page is. *)
Definition stated_rule (auth_page : string -> bool) (user : option User)
    (nextUrl : Middleware.URL) : Middleware.Decision :=
  let path := Middleware.pathname nextUrl in
  match user with
  | None =>
      if auth_page path then Middleware.Next
      else Middleware.Redirect
             {| Middleware.pathname := "/login";
                Middleware.searchParams :=
                  Middleware.searchParams_set "redirectedFrom" path
                    (Middleware.searchParams nextUrl) |}
  | Some _ =>
      if auth_page path
      then Middleware.Redirect
             {| Middleware.pathname := "/";
                Middleware.searchParams := Middleware.searchParams nextUrl |}
      else Middleware.Next
  end.

(* ================================================================== *)
(** ** A small store used in the examples *)
(* ================================================================== *)

Module Sample.

(** The identifiers of the examples, in printed form. *)
Definition alice_id : string := "a11ce000-0000-4000-8000-000000000001".
Definition bob_id : string := "b0b00000-0000-4000-8000-000000000002".
Definition carol_id : string := "ca401000-0000-4000-8000-000000000003".
Definition milk_id : string := "7a5c0000-0000-4000-8000-000000000001".
Definition bread_id : string := "7a5c0000-0000-4000-8000-000000000002".
Definition missing_id : string := "7a5c0000-0000-4000-8000-000000000404".
Definition share_id : string := "54a4e000-0000-4000-8000-000000000001".
Definition next_share_id : string := "54a4e000-0000-4000-8000-000000000002".

Definition alice : User := {| id := alice_id; email := Some "alice@example.com" |}.
Definition bob : User := {| id := bob_id; email := Some "bob@example.com" |}.
Definition carol : User := {| id := carol_id; email := Some "carol@example.com" |}.

Definition profile_for (u : User) (name mail : string) : Profile :=
  {| p_id := id u; p_full_name := Some name; p_email := mail; p_avatar_url := None |}.

(** Alice's task, shared with Bob. *)
Definition milk : Task :=
  {| t_id := milk_id; t_user_id := alice_id; t_title := "Buy milk";
     t_description := Some "two litres"; t_status := Some todo; t_priority := Some low;
     t_category := Some "home"; t_due_date := Some "2020-01-01T00:00:00+00:00";
     t_completed_at := None |}.

Definition milk_for_bob : TaskShare :=
  {| s_id := share_id; s_task_id := milk_id; s_shared_with_user_id := bob_id;
     s_shared_by_user_id := alice_id; s_permission := Some view |}.

Definition store : Db :=
  {| profiles := [profile_for alice "Alice" "alice@example.com";
                  profile_for bob "Bob" "bob@example.com";
                  profile_for carol "Carol" "carol@example.com"];
     tasks := [milk];
     task_shares := [milk_for_bob];
     comments := [];
     attachments := [] |}.

Definition world : World := {| db := store; trace := [] |}.

Definition alice_ref : ProfileRef :=
  {| pr_id := alice_id; pr_full_name := Some "Alice"; pr_email := "alice@example.com" |}.

Definition bob_ref : ProfileRef :=
  {| pr_id := bob_id; pr_full_name := Some "Bob"; pr_email := "bob@example.com" |}.

(** A request body holding just the given properties. *)
Definition body_of (props : list (string * JS.value)) : option JS.value :=
  Some (JS.Obj props).

(** An update payload that sets the title and nothing else. *)
Definition only_title (s : string) : TaskColumns :=
  {| col_title := Some s; col_description := None; col_status := None;
     col_priority := None; col_due_date := None; col_category := None |}.

(** The body and the columns of "mark completed, clear the category". *)
Definition complete_and_clear : list (string * JS.value) :=
  [("status", JS.Str "completed"); ("category", JS.Null)].

Definition completed_cleared : TaskColumns :=
  {| col_title := None; col_description := None;
     col_status := Some (Some completed); col_priority := None;
     col_due_date := None; col_category := Some None |}.

(** A create body with a status and a priority the schema does not know. *)
Definition archived_whenever : list (string * JS.value) :=
  [("title", JS.Str "Buy bread"); ("status", JS.Str "archived");
   ("priority", JS.Str "whenever")].

Fixpoint lower_case (s : string) : string :=
  match s with
  | EmptyString => EmptyString
  | String c rest => String (lower c) (lower_case rest)
  end.

Definition is_digit (c : ascii) : bool :=
  let n := N_of_ascii c in (N.leb 48 n && N.leb n 57)%bool.

Definition is_hex (c : ascii) : bool :=
  let n := N_of_ascii (lower c) in
  (is_digit c || (N.leb 97 n && N.leb n 102))%bool.

(** [s] has the shape of [pattern], in which [d] stands for a digit,
    [x] for a hexadecimal digit and every other character for itself. *)
Fixpoint shaped (pattern s : string) : bool :=
  match pattern, s with
  | EmptyString, EmptyString => true
  | String p pattern', String c s' =>
      (if Ascii.eqb p "d" then is_digit c
       else if Ascii.eqb p "x" then is_hex c
       else Ascii.eqb p c)
      && shaped pattern' s'
  | _, _ => false
  end.

(** An input function for identifiers: the hyphenated form of 32
    hexadecimal digits, in either case, printed in lower case. *)
Definition uuid_in (s : string) : option string :=
  if shaped "xxxxxxxx-xxxx-xxxx-xxxx-xxxxxxxxxxxx" s then Some (lower_case s) else None.

(** An input function for timestamps: a date, read as its midnight in
    universal time, or a timestamp in the printed form. *)
Definition timestamptz_in (s : string) : option string :=
  if shaped "dddd-dd-dd" s then Some (s ++ "T00:00:00+00:00")%string
  else if shaped "dddd-dd-ddTdd:dd:dd+00:00" s then Some s
  else None.

(** The JSON text of a value, strings taken to need no escapes. *)
Fixpoint json_text (v : JS.value) : string :=
  let quoted :=
    fun s : string => String (ascii_of_nat 34) (s ++ String (ascii_of_nat 34) "")%string in
  match v with
  | JS.Null => "null"
  | JS.Bool true => "true"
  | JS.Bool false => "false"
  | JS.Num n => NilZero.string_of_int (Z.to_int n)
  | JS.Str s => quoted s
  | JS.Arr items =>
      ("[" ++ (fix elements (l : list JS.value) : string :=
                 match l with
                 | [] => ""
                 | x :: rest =>
                     json_text x
                     ++ match rest with [] => "" | _ :: _ => "," ++ elements rest end
                 end) items ++ "]")%string
  | JS.Obj props =>
      ("{" ++ (fix members (l : list (string * JS.value)) : string :=
                 match l with
                 | [] => ""
                 | (k, x) :: rest =>
                     quoted k ++ ":" ++ json_text x
                     ++ match rest with [] => "" | _ :: _ => "," ++ members rest end
                 end) props ++ "}")%string
  end.

Definition backend : Backend :=
  {| Supabase.uuid_in := uuid_in; Supabase.timestamptz_in := timestamptz_in;
     Supabase.json_text := json_text |}.

(** A pattern operator for the examples: [%] stands for any run of
    characters, [_] for any one character, letters compare without
    case. *)
Fixpoint like (pattern value : string) {struct pattern} : bool :=
  match pattern with
  | EmptyString =>
      match value with
      | EmptyString => true
      | String _ _ => false
      end
  | String p rest =>
      if Ascii.eqb p "%"
      then (fix any (v : string) : bool :=
              like rest v
              || match v with
                 | EmptyString => false
                 | String _ v' => any v'
                 end) value
      else
        match value with
        | EmptyString => false
        | String c value' =>
            (Ascii.eqb p "_" || Ascii.eqb (lower p) (lower c)) && like rest value'
        end
  end.

Definition ilike (value pattern : string) : bool := like pattern value.

(** The clock reading of the one timestamp the examples use. *)
Definition Date_parse (s : string) : option Z :=
  if String.eqb s "2020-01-01T00:00:00+00:00" then Some 1577836800000%Z else None.

End Sample.

(* ================================================================== *)
(** ** The remaining handlers of the route files *)
(* ================================================================== *)

Module SupabaseQueries.

(** [from("task_shares").delete().eq("task_id", taskId)
     .eq("shared_with_user_id", sharedUserId)], the second operand as
    received in the body and sent as [String(sharedUserId)].  Both
    operands are for [UUID] columns: the statement fails when one of
    them is refused, and else removes the shares of the task with that
    user that the delete policy lets the caller remove. *)
Definition delete_share (supabase : Client) (d : Db) (taskId : string)
    (sharedUserId : JS.value) : Result unit * Db :=
  match uuid_in (backend supabase) taskId,
        uuid_in (backend supabase) (JS.to_string sharedUserId) with
  | Some key, Some userId =>
      (ok tt,
       {| profiles := profiles d; tasks := tasks d;
          task_shares :=
            filter (fun s => negb (is_share key userId s && can_delete_share supabase s))
                   (task_shares d);
          comments := comments d; attachments := attachments d |})
  | _, _ => (failed InvalidInput, d)
  end.

(** A row of the list query: the task, its owner's profile and the
    embedded [task_shares(id, shared_with_user_id)]. *)
Record ListedTask := {
  lt_task : Task;
  lt_profile : option ProfileRef;
  lt_task_shares : list (string * string)
}.

Definition listed (supabase : Client) (d : Db) (t : Task) : ListedTask :=
  {| lt_task := t;
     lt_profile := profile_of d (t_user_id t);
     lt_task_shares :=
       map (fun s => (s_id s, s_shared_with_user_id s)) (shares_seen supabase d (t_id t)) |}.

Section Ordering.

(** The creation time of the row stored under an identifier, a column
    the row record leaves out. *)
Variable created_at : string -> Z.

(** [.order("created_at", { ascending: false })], by insertion: a row
    goes in front of the first one that is not newer than it. *)
Fixpoint insert_desc (t : Task) (sorted : list Task) : list Task :=
  match sorted with
  | [] => [t]
  | x :: rest =>
      if Z.leb (created_at (t_id x)) (created_at (t_id t)) then t :: sorted
      else x :: insert_desc t rest
  end.

Definition order_desc (rows : list Task) : list Task :=
  fold_right insert_desc [] rows.

(** [from("tasks").select("*, profile:..., task_shares(id, shared_with_user_id)")
     .eq("user_id", user.id).order("created_at", { ascending: false })] *)
Definition select_own_tasks (supabase : Client) (d : Db) (userId : string)
  : Result (list ListedTask) :=
  ok (map (listed supabase d)
        (order_desc (filter (fun t => String.eqb (t_user_id t) userId)
                            (visible_tasks supabase d)))).

End Ordering.

End SupabaseQueries.

Import SupabaseQueries.

(** DELETE of [src/app/api/tasks/[id]/share/route.ts]. *)
Module UnshareRoute.

Definition DELETE (B : Backend) (auth : AuthResponse) (taskId : string)
    (raw : option JS.value) : World -> Response * World :=
  let supabase := createClient B auth in
  try_catch (
    user <- require_user auth ;;
    body <- request_json raw ;;
    sharedUserId <- field body "sharedUserId" ;;
    match sharedUserId with
    | None => respond (json (error_body "User ID is required") 400)
    | Some target =>
        return_if (negb (JS.truthy sharedUserId))
          (json (error_body "User ID is required") 400) ;;
        task <- read "tasks" (fun d => select_task_owner supabase d taskId) ;;
        match error task, data task with
        | None, Some owner =>
            return_if (negb (String.eqb owner (id user)))
              (json (error_body "Only task owner can unshare") 403) ;;
            res <- query "task_shares" Delete
                     (fun d => delete_share supabase d taskId target) ;;
            match error res with
            | Some _ => respond (json (error_body "Failed to unshare task") 500)
            | None => ret (json (message_body "Task unshared successfully") 200)
            end
        | _, _ => respond (json (error_body "Task not found") 404)
        end
    end).

End UnshareRoute.

(** GET of [src/app/api/tasks/route.ts]. *)
Module TasksListRoute.

(** The body [{ tasks }] of the list, or one of the error bodies. *)
Inductive ListBody :=
| tasks_body (tasks : option (list ListedTask))
| plain_body (b : Body).

Record ListResponse := { list_body : ListBody; list_status : Z }.

Definition plain (r : Response) : ListResponse :=
  {| list_body := plain_body (body r); list_status := status r |}.

Section Listing.

Variable created_at : string -> Z.

Definition GET (B : Backend) (auth : AuthResponse) (w : World) : ListResponse * World :=
  let supabase := createClient B auth in
  match
    (user <- require_user auth ;;
     res <- read "tasks" (fun d => select_own_tasks created_at supabase d (id user)) ;;
     match error res with
     | Some _ => respond (json (error_body "Failed to fetch tasks") 500)
     | None => ret (data res)
     end) w
  with
  | (Continue tasks, w') => ({| list_body := tasks_body tasks; list_status := 200 |}, w')
  | (Return r, w') => (plain r, w')
  | (Throw, w') => (plain (json (error_body "Internal server error") 500), w')
  end.

End Listing.

End TasksListRoute.

(* ================================================================== *)
(** ** Invariants of the store *)
(* ================================================================== *)

Definition share_key (s : TaskShare) : string * string :=
  (s_task_id s, s_shared_with_user_id s).

(** Every share was given by the owner of its task. *)
Definition given_by_owner (d : Db) : Prop :=
  forall s t, In s (task_shares d) -> In t (tasks d) -> t_id t = s_task_id s ->
    s_shared_by_user_id s = t_user_id t.

(** The data-model invariants the handlers rely on and keep: one row per
    task identifier, one share per (task, user) pair, every share
    belongs to a stored task and names somebody other than one of its
    owners, and every share was given by the owner of its task. *)
Record well_formed (d : Db) : Prop := {
  wf_task_ids : NoDup (map t_id (tasks d));
  wf_share_pairs : NoDup (map share_key (task_shares d));
  wf_share_target :
    forall s, In s (task_shares d) ->
      exists t, In t (tasks d) /\ t_id t = s_task_id s
                /\ t_user_id t <> s_shared_with_user_id s;
  wf_share_giver : given_by_owner d
}.

(** [newest_first created_at a b]: row [a] may stand in front of [b]. *)
Definition newest_first (created_at : string -> Z) (a b : Task) : Prop :=
  (created_at (t_id b) <= created_at (t_id a))%Z.

(** A request without a valid session. *)
Definition unauthenticated (auth : AuthResponse) : Prop :=
  user auth = None \/ authError auth = true.

(** The tables other than [tasks]. *)
Definition same_but_tasks (d d' : Db) : Prop :=
  profiles d' = profiles d /\ task_shares d' = task_shares d
  /\ comments d' = comments d /\ attachments d' = attachments d.

(** What PATCH may not touch in a task row. *)
Definition identity_of (t : Task) : string * string * option string :=
  (t_id t, t_user_id t, t_completed_at t).

(** A request body that is not JSON, or is the JSON value null. *)
Definition unreadable (raw : option JS.value) : Prop :=
  raw = None \/ raw = Some JS.Null.

(* ================================================================== *)
(** ** The components that call the handlers *)
(* ================================================================== *)

(** [response.ok]: a status from 200 to 299. *)
Definition response_ok (st : Z) : bool := Z.leb 200 st && Z.leb st 299.

(** The item component, second part of [src/components/tasks/TaskList.tsx]. *)
Module TaskItem.

(** The status the toggle button asks for:
    [task.status === "completed" ? "todo" : "completed"]. *)
Definition toggled (s : option TaskStatus) : TaskStatus :=
  match s with
  | Some completed => todo
  | _ => completed
  end.

End TaskItem.

(** [src/components/tasks/TaskForm.tsx] *)
Module TaskForm.

(** The six pieces of state the form submits. *)
Record Fields := {
  f_title : string;
  f_description : string;
  f_status : TaskStatus;
  f_priority : TaskPriority;
  f_dueDate : string;
  f_category : string
}.

(** [task?.column || ""] for a nullable text column. *)
Definition or_empty (x : option string) : string :=
  match x with
  | Some s => s
  | None => ""
  end.

(** [task?.status || "todo"] and [task?.priority || "medium"] *)
Definition or_todo (x : option TaskStatus) : TaskStatus :=
  match x with
  | Some s => s
  | None => todo
  end.

Definition or_medium (x : option TaskPriority) : TaskPriority :=
  match x with
  | Some p => p
  | None => medium
  end.

(** The initial values of the [useState] hooks, for the prop [task]. *)
Definition initial (task : option Task) : Fields :=
  match task with
  | Some t =>
      {| f_title := t_title t; f_description := or_empty (t_description t);
         f_status := or_todo (t_status t); f_priority := or_medium (t_priority t);
         f_dueDate := or_empty (t_due_date t); f_category := or_empty (t_category t) |}
  | None =>
      {| f_title := ""; f_description := ""; f_status := todo; f_priority := medium;
         f_dueDate := ""; f_category := "" |}
  end.

(** The strings of the two enums. *)
Definition status_name (s : TaskStatus) : string :=
  match s with
  | todo => "todo"
  | in_progress => "in_progress"
  | completed => "completed"
  end.

Definition priority_name (p : TaskPriority) : string :=
  match p with
  | low => "low"
  | medium => "medium"
  | high => "high"
  | urgent => "urgent"
  end.

(** [s || null] *)
Definition or_null (s : string) : JS.value :=
  if String.eqb s "" then JS.Null else JS.Str s.

(** The object [handleSubmit] passes to [onSubmit]. *)
Definition taskData (f : Fields) : list (string * JS.value) :=
  [("title", JS.Str (f_title f));
   ("description", JS.Str (f_description f));
   ("status", JS.Str (status_name (f_status f)));
   ("priority", JS.Str (priority_name (f_priority f)));
   ("due_date", or_null (f_dueDate f));
   ("category", or_null (f_category f))].

End TaskForm.

(** The list component of [src/components/tasks/TaskList.tsx], for a
    user who is signed in: the gatekeeper of [src/middleware.ts] passes
    the requests of such a user to the paths below [/api] on, so that a
    [fetch] of the component is the call of the route handler it
    addresses, with the session of [caller].  (The requests of a
    visitor who is not signed in are redirected to the login page
    before any handler runs; what answers them is not a handler.)  A
    handler of the component is modelled by the state and the store it
    leaves once its request is answered; handlers run one after the
    other. *)
Module TaskListView.

(** An element of the [tasks] state ([TaskWithShares]): a task and,
    when the response it came from embeds them, its shares. *)
Record Entry := { e_task : Task; e_task_shares : option (list (string * string)) }.

(** An element of [data.tasks] of the list response. *)
Definition of_listed (l : ListedTask) : Entry :=
  {| e_task := lt_task l; e_task_shares := Some (lt_task_shares l) |}.

(** [data.task] of a create or update response, which embeds no
    shares; [None] when the body has no task. *)
Definition saved_task (r : Response) : option Entry :=
  match body r with
  | task_body (Some t) => Some {| e_task := tp_task t; e_task_shares := None |}
  | _ => None
  end.

(** [data.tasks || []] *)
Definition listed_tasks (r : TasksListRoute.ListResponse) : list Entry :=
  match TasksListRoute.list_body r with
  | TasksListRoute.tasks_body (Some l) => map of_listed l
  | _ => []
  end.

Record State := {
  st_tasks : list Entry;
  st_loading : bool;
  st_error : string;
  st_showForm : bool;
  st_editingTask : option Task;
  st_shareModalTask : option Task;
  st_deleteConfirmTask : option Task;
  st_deleting : bool
}.

(** The initial values of the [useState] hooks. *)
Definition initial : State :=
  {| st_tasks := []; st_loading := true; st_error := ""; st_showForm := false;
     st_editingTask := None; st_shareModalTask := None;
     st_deleteConfirmTask := None; st_deleting := false |}.

Definition setTasks (v : list Entry) (s : State) : State :=
  {| st_tasks := v; st_loading := st_loading s; st_error := st_error s;
     st_showForm := st_showForm s; st_editingTask := st_editingTask s;
     st_shareModalTask := st_shareModalTask s;
     st_deleteConfirmTask := st_deleteConfirmTask s; st_deleting := st_deleting s |}.

Definition setLoading (v : bool) (s : State) : State :=
  {| st_tasks := st_tasks s; st_loading := v; st_error := st_error s;
     st_showForm := st_showForm s; st_editingTask := st_editingTask s;
     st_shareModalTask := st_shareModalTask s;
     st_deleteConfirmTask := st_deleteConfirmTask s; st_deleting := st_deleting s |}.

Definition setError (v : string) (s : State) : State :=
  {| st_tasks := st_tasks s; st_loading := st_loading s; st_error := v;
     st_showForm := st_showForm s; st_editingTask := st_editingTask s;
     st_shareModalTask := st_shareModalTask s;
     st_deleteConfirmTask := st_deleteConfirmTask s; st_deleting := st_deleting s |}.

Definition setShowForm (v : bool) (s : State) : State :=
  {| st_tasks := st_tasks s; st_loading := st_loading s; st_error := st_error s;
     st_showForm := v; st_editingTask := st_editingTask s;
     st_shareModalTask := st_shareModalTask s;
     st_deleteConfirmTask := st_deleteConfirmTask s; st_deleting := st_deleting s |}.

Definition setEditingTask (v : option Task) (s : State) : State :=
  {| st_tasks := st_tasks s; st_loading := st_loading s; st_error := st_error s;
     st_showForm := st_showForm s; st_editingTask := v;
     st_shareModalTask := st_shareModalTask s;
     st_deleteConfirmTask := st_deleteConfirmTask s; st_deleting := st_deleting s |}.

Definition setShareModalTask (v : option Task) (s : State) : State :=
  {| st_tasks := st_tasks s; st_loading := st_loading s; st_error := st_error s;
     st_showForm := st_showForm s; st_editingTask := st_editingTask s;
     st_shareModalTask := v;
     st_deleteConfirmTask := st_deleteConfirmTask s; st_deleting := st_deleting s |}.

Definition setDeleteConfirmTask (v : option Task) (s : State) : State :=
  {| st_tasks := st_tasks s; st_loading := st_loading s; st_error := st_error s;
     st_showForm := st_showForm s; st_editingTask := st_editingTask s;
     st_shareModalTask := st_shareModalTask s;
     st_deleteConfirmTask := v; st_deleting := st_deleting s |}.

Definition setDeleting (v : bool) (s : State) : State :=
  {| st_tasks := st_tasks s; st_loading := st_loading s; st_error := st_error s;
     st_showForm := st_showForm s; st_editingTask := st_editingTask s;
     st_shareModalTask := st_shareModalTask s;
     st_deleteConfirmTask := st_deleteConfirmTask s; st_deleting := v |}.

(** [t.id === id] on an element of the list *)
Definition entry_has_id (taskId : string) (t : Entry) : bool :=
  String.eqb (t_id (e_task t)) taskId.

Section Handlers.

Variable B : Backend.
Variable created_at : string -> Z.

Definition fetchTasks (caller : User) (s : State) (w : World) : State * World :=
  let s := setLoading true s in
  let (response, w') := TasksListRoute.GET created_at B (authenticated caller) w in
  (setLoading false
     (if response_ok (TasksListRoute.list_status response)
      then setTasks (listed_tasks response) s
      else setError "Failed to fetch tasks" s),
   w').

(** The three handlers that read [data.task]: the result is [None]
    when an ok answer carries no task, which would put [undefined] in
    the list and make the next render throw. *)
Definition handleCreateTask (caller : User) (fresh : string)
    (taskData : list (string * JS.value)) (s : State) (w : World)
  : option (State * World) :=
  let (response, w') :=
    TasksRoute.POST B (authenticated caller) (Some (JS.Obj taskData)) fresh w in
  if response_ok (status response)
  then option_map
         (fun task => (setShowForm false (setTasks (task :: st_tasks s) s), w'))
         (saved_task response)
  else Some (s, w').

Definition handleUpdateTask (caller : User) (taskData : list (string * JS.value))
    (s : State) (w : World) : option (State * World) :=
  match st_editingTask s with
  | None => Some (s, w)
  | Some editingTask =>
      let (response, w') :=
        TaskRoute.PATCH B (authenticated caller) (t_id editingTask)
          (Some (JS.Obj taskData)) w in
      if response_ok (status response)
      then option_map
             (fun task =>
                (setShowForm false
                   (setEditingTask None
                      (setTasks
                         (map (fun t => if entry_has_id (t_id editingTask) t then task else t)
                              (st_tasks s)) s)),
                 w'))
             (saved_task response)
      else Some (s, w')
  end.

Definition handleToggleStatus (caller : User) (taskId : string)
    (newStatus : TaskStatus) (s : State) (w : World) : option (State * World) :=
  let (response, w') :=
    TaskRoute.PATCH B (authenticated caller) taskId
      (Some (JS.Obj [("status", JS.Str (TaskForm.status_name newStatus))])) w in
  if response_ok (status response)
  then option_map
         (fun task =>
            (setTasks (map (fun t => if entry_has_id taskId t then task else t) (st_tasks s)) s,
             w'))
         (saved_task response)
  else Some (s, w').

Definition handleDeleteTask (taskId : string) (s : State) : State :=
  match find (entry_has_id taskId) (st_tasks s) with
  | Some task => setDeleteConfirmTask (Some (e_task task)) s
  | None => s
  end.

Definition confirmDeleteTask (caller : User) (s : State) (w : World)
  : State * World :=
  match st_deleteConfirmTask s with
  | None => (s, w)
  | Some deleteConfirmTask =>
      let s := setDeleting true s in
      let (response, w') :=
        TaskRoute.DELETE B (authenticated caller) (t_id deleteConfirmTask) w in
      (setDeleting false
         (if response_ok (status response)
          then setDeleteConfirmTask None
                 (setTasks
                    (filter (fun t => negb (entry_has_id (t_id deleteConfirmTask) t))
                            (st_tasks s)) s)
          else setDeleteConfirmTask None (setError "Failed to delete task" s)),
       w')
  end.

Definition handleEditClick (task : Task) (s : State) : State :=
  setShowForm true (setEditingTask (Some task) s).

Definition handleCancel (s : State) : State :=
  setEditingTask None (setShowForm false s).

Definition handleShareClick (task : Task) (s : State) : State :=
  setShareModalTask (Some task) s.

Definition handleShareClose (caller : User) (s : State) (w : World) : State * World :=
  fetchTasks caller (setShareModalTask None s) w.

(** [onSubmit={editingTask ? handleUpdateTask : handleCreateTask}] *)
Definition onSubmit (caller : User) (fresh : string)
    (taskData : list (string * JS.value)) (s : State) (w : World)
  : option (State * World) :=
  match st_editingTask s with
  | Some _ => handleUpdateTask caller taskData s w
  | None => handleCreateTask caller fresh taskData s w
  end.

(** What the user can do to the component.  The events that send a
    request carry the user signed in at that moment; a submission
    carries the fields of the form and the identifier the backend will
    generate if a row is inserted. *)
Inductive Event :=
| Mounted (caller : User)
| TryAgainClicked (caller : User)
| NewTaskClicked
| FirstTaskClicked
| Submitted (caller : User) (fresh : string) (fields : TaskForm.Fields)
| CancelClicked
| ToggleClicked (caller : User) (task : Task)
| EditClicked (task : Task)
| DeleteClicked (taskId : string)
| DeleteConfirmed (caller : User)
| DeleteCancelled
| ShareClicked (task : Task)
| ShareClosed (caller : User).

Definition step (e : Event) (s : State) (w : World) : option (State * World) :=
  match e with
  | Mounted caller => Some (fetchTasks caller s w)
  | TryAgainClicked caller => Some (fetchTasks caller s w)
  | NewTaskClicked => Some (setShowForm (negb (st_showForm s)) s, w)
  | FirstTaskClicked => Some (setShowForm true s, w)
  | Submitted caller fresh fields => onSubmit caller fresh (TaskForm.taskData fields) s w
  | CancelClicked => Some (handleCancel s, w)
  | ToggleClicked caller task =>
      handleToggleStatus caller (t_id task) (TaskItem.toggled (t_status task)) s w
  | EditClicked task => Some (handleEditClick task s, w)
  | DeleteClicked taskId => Some (handleDeleteTask taskId s, w)
  | DeleteConfirmed caller => Some (confirmDeleteTask caller s w)
  | DeleteCancelled => Some (setDeleteConfirmTask None s, w)
  | ShareClicked task => Some (handleShareClick task s, w)
  | ShareClosed caller => Some (handleShareClose caller s w)
  end.

Fixpoint run (events : list Event) (s : State) (w : World) : option (State * World) :=
  match events with
  | [] => Some (s, w)
  | e :: rest =>
      match step e s w with
      | Some (s', w') => run rest s' w'
      | None => None
      end
  end.

End Handlers.

(** What the component renders: the spinner while [loading], else the
    error panel when [error] is not empty, else the page with the
    list. *)
Inductive View :=
| Spinner
| ErrorPanel (message : string)
| Page.

Definition rendered (s : State) : View :=
  if st_loading s then Spinner
  else if negb (String.eqb (st_error s) "") then ErrorPanel (st_error s)
  else Page.









(** The props [isOwner] and [isShared] handed to an item. *)
Definition isOwner (userId : string) (t : Entry) : bool :=
  String.eqb (t_user_id (e_task t)) userId.

Definition isShared (t : Entry) : bool :=
  match e_task_shares t with
  | Some shares => Nat.ltb 0 (length shares)
  | None => false
  end.

End TaskListView.

(* ================================================================== *)
(** ** Vocabulary of the statements about the components *)
(* ================================================================== *)


(** The list a reload of the page would show: the entries of the list
    response for the store as it is. *)
Definition reloaded (B : Backend) (created_at : string -> Z) (d : Db) (caller : User)
  : list TaskListView.Entry :=
  map (fun t => TaskListView.of_listed (listed (client_of B caller) d t))
      (order_desc created_at
         (filter (fun t => String.eqb (t_user_id t) (id caller)) (tasks d))).

(** An entry as a create or update response delivers it: the shares
    are not known. *)
Definition without_shares (taskId : string) (e : TaskListView.Entry) : TaskListView.Entry :=
  if TaskListView.entry_has_id taskId e
  then {| TaskListView.e_task := TaskListView.e_task e;
          TaskListView.e_task_shares := None |}
  else e.


(** The due date stored for the date field of a form: null for the
    empty field, else the timestamp the backend reads the field as. *)
Definition due_of_form (B : Backend) (f : TaskForm.Fields) : option string :=
  if String.eqb (TaskForm.f_dueDate f) "" then None
  else timestamptz_in B (TaskForm.f_dueDate f).

(** The date field of the form is empty or a text the backend accepts
    as a timestamp. *)
Definition due_accepted (B : Backend) (f : TaskForm.Fields) : Prop :=
  TaskForm.f_dueDate f = "" \/ timestamptz_in B (TaskForm.f_dueDate f) <> None.

(** The row a form creates for [caller] under the identifier [fresh]. *)
Definition row_of_form (B : Backend) (caller : User) (fresh : string)
    (f : TaskForm.Fields) : Task :=
  {| t_id := fresh; t_user_id := id caller;
     t_title := JS.trim (TaskForm.f_title f);
     t_description :=
       if String.eqb (JS.trim (TaskForm.f_description f)) "" then None
       else Some (JS.trim (TaskForm.f_description f));
     t_status := Some (TaskForm.f_status f);
     t_priority := Some (TaskForm.f_priority f);
     t_category := if String.eqb (TaskForm.f_category f) "" then None
                   else Some (TaskForm.f_category f);
     t_due_date := due_of_form B f;
     t_completed_at := None |}.

(** The list of the component is the one a reload would show. *)
Definition up_to_date (B : Backend) (created_at : string -> Z) (caller : User)
    (s : TaskListView.State) (w : World) : Prop :=
  TaskListView.st_tasks (fst (TaskListView.fetchTasks B created_at caller s w))
  = TaskListView.st_tasks s.


(** The identifiers of the listed tasks. *)
Definition listed_ids (s : TaskListView.State) : list string :=
  map (fun e => t_id (TaskListView.e_task e)) (TaskListView.st_tasks s).

(** The columns a submitted form writes. *)
Definition columns_of_form (B : Backend) (f : TaskForm.Fields) : TaskColumns :=
  {| col_title := Some (JS.trim (TaskForm.f_title f));
     col_description :=
       Some (if String.eqb (JS.trim (TaskForm.f_description f)) "" then None
             else Some (JS.trim (TaskForm.f_description f)));
     col_status := Some (Some (TaskForm.f_status f));
     col_priority := Some (Some (TaskForm.f_priority f));
     col_due_date := Some (due_of_form B f);
     col_category := Some (if String.eqb (TaskForm.f_category f) "" then None
                           else Some (TaskForm.f_category f)) |}.


(** An entry as a create or update response delivers the row [t]. *)
Definition saved_entry (t : Task) : TaskListView.Entry :=
  {| TaskListView.e_task := t; TaskListView.e_task_shares := None |}.

(** Every stored task was created before the row under [fresh] is. *)
Definition newest (created_at : string -> Z) (d : Db) (fresh : string) : Prop :=
  forall t, In t (tasks d) -> (created_at (t_id t) < created_at fresh)%Z.

(** The paths the two components send their requests to, for a task
    identifier. *)
Definition fetched_paths (taskId : string) : list string :=
  ["/api/tasks";
   ("/api/tasks/" ++ taskId)%string;
   ("/api/tasks/" ++ taskId ++ "/share")%string;
   "/api/users/search"].

(** The component of the examples: Alice has loaded her list; in the
    store of [elsewhere] her task has since been deleted from another
    window, and the delete she then confirms in this one is refused. *)
Module SampleView.

(** The task of the sample store is older than the one created next. *)
Definition created_at (taskId : string) : Z :=
  if String.eqb taskId Sample.bread_id then 2 else 1.

Definition loaded : TaskListView.State :=
  fst (TaskListView.fetchTasks Sample.backend created_at Sample.alice
         TaskListView.initial Sample.world).

Definition elsewhere : World :=
  snd (TaskRoute.DELETE Sample.backend (authenticated Sample.alice) Sample.milk_id
         Sample.world).

Definition refused : TaskListView.State :=
  fst (TaskListView.confirmDeleteTask Sample.backend Sample.alice
         (TaskListView.handleDeleteTask Sample.milk_id loaded) elsewhere).

Definition bread : TaskForm.Fields :=
  {| TaskForm.f_title := " Buy bread "; TaskForm.f_description := "";
     TaskForm.f_status := todo; TaskForm.f_priority := medium;
     TaskForm.f_dueDate := ""; TaskForm.f_category := "" |}.

End SampleView.

(** [src/components/tasks/ShareModal.tsx], for a user who is signed
    in, with a [fetch] read as the call of the handler it addresses, as
    for the list component. *)
Module ShareModal.

(** An element of [sharedUsers]. *)
Record SharedUser := {
  su_id : string;
  su_email : string;
  su_full_name : option string;
  su_share_id : string
}.

Record State := {
  m_searchQuery : string;
  m_searchResults : list ProfileRef;
  m_sharedUsers : list SharedUser;
  m_loading : bool;
  m_error : string
}.

(** The initial values of the [useState] hooks. *)
Definition initial : State :=
  {| m_searchQuery := ""; m_searchResults := []; m_sharedUsers := [];
     m_loading := false; m_error := "" |}.

Definition setSearchQuery (v : string) (s : State) : State :=
  {| m_searchQuery := v; m_searchResults := m_searchResults s;
     m_sharedUsers := m_sharedUsers s; m_loading := m_loading s; m_error := m_error s |}.

Definition setSearchResults (v : list ProfileRef) (s : State) : State :=
  {| m_searchQuery := m_searchQuery s; m_searchResults := v;
     m_sharedUsers := m_sharedUsers s; m_loading := m_loading s; m_error := m_error s |}.

Definition setSharedUsers (v : list SharedUser) (s : State) : State :=
  {| m_searchQuery := m_searchQuery s; m_searchResults := m_searchResults s;
     m_sharedUsers := v; m_loading := m_loading s; m_error := m_error s |}.

Definition setLoading (v : bool) (s : State) : State :=
  {| m_searchQuery := m_searchQuery s; m_searchResults := m_searchResults s;
     m_sharedUsers := m_sharedUsers s; m_loading := v; m_error := m_error s |}.

Definition setError (v : string) (s : State) : State :=
  {| m_searchQuery := m_searchQuery s; m_searchResults := m_searchResults s;
     m_sharedUsers := m_sharedUsers s; m_loading := m_loading s; m_error := v |}.

(** [shares.map((share) => ({ id: share.profile.id, ... }))]: [None]
    when a share comes without its profile, where reading
    [share.profile.id] raises a TypeError. *)
Fixpoint shared_users (shares : list (TaskShare * option ProfileRef))
  : option (list SharedUser) :=
  match shares with
  | [] => Some []
  | (share, Some profile) :: rest =>
      option_map
        (cons {| su_id := pr_id profile; su_email := pr_email profile;
                 su_full_name := pr_full_name profile; su_share_id := s_id share |})
        (shared_users rest)
  | (_, None) :: _ => None
  end.

(** The [try] block leaves the state alone when the answer is not ok
    and when it throws, which it does for a body without a task and
    for a share without a profile. *)
Definition fetchSharedUsers (B : Backend) (caller : User) (task : Task) (s : State)
    (w : World) : State * World :=
  let (response, w') := TaskRoute.GET B (authenticated caller) (t_id task) w in
  (if response_ok (status response)
   then match body response with
        | task_detail_body (Some data_task) =>
            match shared_users (td_task_shares data_task) with
            | Some users => setSharedUsers users s
            | None => s
            end
        | _ => s
        end
   else s,
   w').

(** [data.error || fallback] *)
Definition error_or (b : Body) (fallback : string) : string :=
  match b with
  | error_body e => if String.eqb e "" then fallback else e
  | _ => fallback
  end.

Section Handlers.

Variable B : Backend.

(** The backend's ILIKE operator, as for the search handler. *)
Variable ilike : string -> string -> bool.

(** The parent's state and the callback [onShare] it passes in. *)
Variable Parent : Type.
Variable onShare : Parent -> World -> Parent * World.

(** The handler reads back with [searchParams.get("q")] the string
    that went through [encodeURIComponent]. *)
Definition searchUsers (caller : User) (s : State) (w : World) : State * World :=
  let (response, w') := SearchRoute.GET ilike (authenticated caller) (Some (m_searchQuery s)) w in
  (if response_ok (status response)
   then match body response with
        | users_body (Some users) => setSearchResults users s
        | _ => setSearchResults [] s
        end
   else s,
   w').

(** The body of the timer of the second effect. *)
Definition search_effect (caller : User) (s : State) (w : World) : State * World :=
  if negb (String.eqb (JS.trim (m_searchQuery s)) "")
  then searchUsers caller s w
  else (setSearchResults [] s, w).

Definition handleShare (caller : User) (fresh : string) (task : Task)
    (userEmail : string) (s : State) (p : Parent) (w : World) : State * Parent * World :=
  let s := setError "" (setLoading true s) in
  let (response, w1) :=
    ShareRoute.POST B (authenticated caller) (t_id task)
      (Some (JS.Obj [("userEmail", JS.Str userEmail)])) fresh w in
  if response_ok (status response)
  then
    let (s', w2) :=
      fetchSharedUsers B caller task (setSearchResults [] (setSearchQuery "" s)) w1 in
    let (p', w3) := onShare p w2 in
    (setLoading false s', p', w3)
  else
    (setLoading false (setError (error_or (body response) "Failed to share task") s), p, w1).

(** [confirmed] is the answer to the [confirm] dialog. *)
Definition handleUnshare (caller : User) (confirmed : bool) (task : Task)
    (userId : string) (s : State) (p : Parent) (w : World) : State * Parent * World :=
  if negb confirmed then (s, p, w)
  else
    let s := setError "" (setLoading true s) in
    let (response, w1) :=
      UnshareRoute.DELETE B (authenticated caller) (t_id task)
        (Some (JS.Obj [("sharedUserId", JS.Str userId)])) w in
    if response_ok (status response)
    then
      let (s', w2) := fetchSharedUsers B caller task s w1 in
      let (p', w3) := onShare p w2 in
      (setLoading false s', p', w3)
    else
      (setLoading false (setError (error_or (body response) "Failed to unshare task") s),
       p, w1).

End Handlers.

End ShareModal.

(** The page with the form it holds.  The list component renders the
    form by [{showForm && <TaskForm task={editingTask} ... />}], without
    a [key]: the six fields of the form are state of [TaskForm], set
    from the prop [task] when the form enters the tree and kept for as
    long as it stays there, whatever [task] becomes.  The form is in
    the tree when the page is rendered (no spinner, no error panel) and
    [showForm] is set. *)
Module TaskPage.

Record State := {
  pg_list : TaskListView.State;
  pg_form : option TaskForm.Fields
}.

Definition form_shown (s : TaskListView.State) : bool :=
  match TaskListView.rendered s with
  | TaskListView.Page => TaskListView.st_showForm s
  | _ => false
  end.

(** The events of the list during which the spinner replaces the page,
    so that a form that was shown leaves the tree: those that fetch the
    list. *)
Definition reloads (e : TaskListView.Event) : bool :=
  match e with
  | TaskListView.Mounted _ => true
  | TaskListView.TryAgainClicked _ => true
  | TaskListView.ShareClosed _ => true
  | _ => false
  end.

(** The state of the form once the list is in state [s']: a form that
    stayed in the tree keeps its fields, one that enters it starts from
    the task being edited. *)
Definition settle (stayed : bool) (before : option TaskForm.Fields)
    (s' : TaskListView.State) : option TaskForm.Fields :=
  if form_shown s'
  then match (if stayed then before else None) with
       | Some fields => Some fields
       | None => Some (TaskForm.initial (TaskListView.st_editingTask s'))
       end
  else None.

(** What the user can do to the page: type into the form, which then
    holds [fields]; press its save button; or act on the list. *)
Inductive Event :=
| Typed (fields : TaskForm.Fields)
| SaveClicked (caller : User) (fresh : string)
| Other (e : TaskListView.Event).

Section Handlers.

Variable B : Backend.
Variable created_at : string -> Z.

Definition typed (fields : TaskForm.Fields) (p : State) : State :=
  match pg_form p with
  | Some _ => {| pg_list := pg_list p; pg_form := Some fields |}
  | None => p
  end.

(** [handleSubmit] of the form, behind a button that is
    [disabled={loading || !title.trim()}]. *)
Definition save (caller : User) (fresh : string) (p : State) (w : World)
  : option (State * World) :=
  match pg_form p with
  | None => Some (p, w)
  | Some fields =>
      if String.eqb (JS.trim (TaskForm.f_title fields)) "" then Some (p, w)
      else
        match TaskListView.step B created_at
                (TaskListView.Submitted caller fresh fields) (pg_list p) w with
        | Some (s', w') =>
            Some ({| pg_list := s'; pg_form := settle true (Some fields) s' |}, w')
        | None => None
        end
  end.

Definition step (e : Event) (p : State) (w : World) : option (State * World) :=
  match e with
  | Typed fields => Some (typed fields p, w)
  | SaveClicked caller fresh => save caller fresh p w
  | Other (TaskListView.Submitted caller fresh fields) =>
      save caller fresh (typed fields p) w
  | Other e =>
      match TaskListView.step B created_at e (pg_list p) w with
      | Some (s', w') =>
          Some ({| pg_list := s'; pg_form := settle (negb (reloads e)) (pg_form p) s' |}, w')
      | None => None
      end
  end.

Fixpoint run (events : list Event) (p : State) (w : World) : option (State * World) :=
  match events with
  | [] => Some (p, w)
  | e :: rest =>
      match step e p w with
      | Some (p', w') => run rest p' w'
      | None => None
      end
  end.

End Handlers.

End TaskPage.


(** The constraints of [profiles] the modal relies on: one profile per
    identifier and per email address, no empty address. *)
Record directory (d : Db) : Prop := {
  dir_ids : NoDup (map p_id (profiles d));
  dir_emails : NoDup (map p_email (profiles d));
  dir_named : forall p, In p (profiles d) -> p_email p <> ""
}.

(** Every share of the task names a user with a profile. *)
Definition shares_have_profiles (d : Db) (taskId : string) : Prop :=
  forall s, In s (shares_of d taskId) -> profile_of d (s_shared_with_user_id s) <> None.

(** The dialog of the examples: Alice has typed "car" and is offered
    Carol. *)
Module SampleDialog.

Definition carol_ref : ProfileRef :=
  {| pr_id := Sample.carol_id; pr_full_name := Some "Carol";
     pr_email := "carol@example.com" |}.

Definition searching : ShareModal.State :=
  ShareModal.setSearchQuery "car" ShareModal.initial.

Definition bob_listed : ShareModal.SharedUser :=
  {| ShareModal.su_id := Sample.bob_id; ShareModal.su_email := "bob@example.com";
     ShareModal.su_full_name := Some "Bob"; ShareModal.su_share_id := Sample.share_id |}.

End SampleDialog.
(* ================================================================== *)
(** ** Facts about the store *)
(* ================================================================== *)

Lemma single_data_in {A : Type} (rows : list A) (r : A) :
  data (single rows) = Some r -> rows = [r].
Proof.
  destruct rows as [| x [| y rest]]; simpl; intros H; try discriminate.
  now inversion H.
Qed.

Lemma has_id_true (key : string) (t : Task) :
  has_id key t = true <-> t_id t = key.
Proof. unfold has_id. apply String.eqb_eq. Qed.

Lemma stored_under_own_id (d : Db) (t : Task) :
  In t (tasks d) -> In t (filter (has_id (t_id t)) (tasks d)).
Proof. intros Hin. apply filter_In. split; [assumption | now apply has_id_true]. Qed.

Lemma only_task_stored (d : Db) (t : Task) : only_task d t -> In t (tasks d).
Proof.
  unfold only_task. intros H.
  assert (Hin : In t (filter (has_id (t_id t)) (tasks d))) by (rewrite H; now left).
  now apply filter_In in Hin.
Qed.

Lemma no_task_filter (d : Db) (key : string) :
  no_task d key -> filter (has_id key) (tasks d) = [].
Proof.
  unfold no_task. induction (tasks d) as [| x l IH]; simpl; intros H; [reflexivity |].
  destruct (has_id key x) eqn:E.
  - apply has_id_true in E. exfalso. apply (H x); auto.
  - apply IH. intros t Ht. apply H. now right.
Qed.

Lemma filter_swap {A : Type} (p q : A -> bool) (l : list A) :
  filter p (filter q l) = filter q (filter p l).
Proof.
  induction l as [| a l IH]; simpl; [reflexivity |].
  destruct (q a) eqn:Q, (p a) eqn:P; simpl; rewrite ?Q, ?P, IH; reflexivity.
Qed.

Lemma filter_none {A : Type} (f : A -> bool) (l : list A) :
  (forall x, In x l -> f x = false) -> filter f l = [].
Proof.
  induction l as [| a l IH]; simpl; intros H; [reflexivity |].
  rewrite (H a (or_introl eq_refl)). apply IH. intros x Hx. apply H. now right.
Qed.

Lemma filter_all {A : Type} (p : A -> bool) (l : list A) :
  (forall x, In x l -> p x = true) -> filter p l = l.
Proof.
  induction l as [| a l IH]; simpl; intros H; [reflexivity |].
  rewrite (H a (or_introl eq_refl)). f_equal. apply IH. intros x Hx. apply H. now right.
Qed.

Lemma skipn_app_exact {A : Type} (l l' : list A) : skipn (length l) (l ++ l') = l'.
Proof. induction l; simpl; auto. Qed.

(** *** The policies, for the client of a signed-in caller *)

Lemma is_uid_caller (B : Backend) (caller : User) (x : string) :
  is_uid (createClient B (authenticated caller)) x = String.eqb x (id caller).
Proof. reflexivity. Qed.

Lemma is_uid_true (B : Backend) (caller : User) (x : string) :
  is_uid (createClient B (authenticated caller)) x = true <-> x = id caller.
Proof. rewrite is_uid_caller. apply String.eqb_eq. Qed.

Lemma can_select_share_iff (B : Backend) (caller : User) (s : TaskShare) :
  can_select_share (createClient B (authenticated caller)) s = true
  <-> s_shared_by_user_id s = id caller \/ s_shared_with_user_id s = id caller.
Proof.
  unfold can_select_share. rewrite orb_true_iff, !is_uid_true. reflexivity.
Qed.

(** The select policy of [tasks] lets the owner and the recipients of a
    share through, and nobody else. *)
Lemma can_select_task_iff (B : Backend) (caller : User) (d : Db) (t : Task) :
  can_select_task (createClient B (authenticated caller)) d t = true
  <-> t_user_id t = id caller \/ shared_with d (t_id t) caller.
Proof.
  unfold can_select_task, shared_with.
  rewrite orb_true_iff, is_uid_true, existsb_exists.
  split; intros [H | H]; auto; right.
  - destruct H as [s [Hin H]]. apply andb_true_iff in H. destruct H as [H Hid].
    apply andb_true_iff in H. destruct H as [_ Hw].
    apply is_uid_true in Hw. apply String.eqb_eq in Hid. now exists s.
  - destruct H as [s [Hin [Hid Hw]]]. exists s. split; [assumption |].
    rewrite !andb_true_iff. repeat split.
    + apply can_select_share_iff. now right.
    + now apply is_uid_true.
    + now apply String.eqb_eq.
Qed.

Lemma can_select_own_task (B : Backend) (caller : User) (d : Db) (t : Task) :
  t_user_id t = id caller ->
  can_select_task (createClient B (authenticated caller)) d t = true.
Proof. intros H. apply can_select_task_iff. now left. Qed.

Lemma cannot_select_foreign_task (B : Backend) (caller : User) (d : Db) (t : Task) :
  t_user_id t <> id caller -> ~ shared_with d (t_id t) caller ->
  can_select_task (createClient B (authenticated caller)) d t = false.
Proof.
  intros Hne Hns. apply not_true_is_false. intros H.
  apply can_select_task_iff in H. tauto.
Qed.

(** The rows a select on [tasks] finds under an identifier. *)
Lemma seen_under_id (supabase : Client) (d : Db) (key : string) :
  filter (has_id key) (visible_tasks supabase d)
  = filter (can_select_task supabase d) (filter (has_id key) (tasks d)).
Proof. unfold visible_tasks. apply filter_swap. Qed.

Lemma seen_only_task (supabase : Client) (d : Db) (t : Task) :
  only_task d t ->
  filter (has_id (t_id t)) (visible_tasks supabase d)
  = if can_select_task supabase d t then [t] else [].
Proof. intros H. rewrite seen_under_id, H. simpl. now destruct (can_select_task _ _ _). Qed.

Lemma seen_no_task (supabase : Client) (d : Db) (key : string) :
  no_task d key -> filter (has_id key) (visible_tasks supabase d) = [].
Proof. intros H. rewrite seen_under_id, (no_task_filter d key H). reflexivity. Qed.

Lemma seen_is_stored (supabase : Client) (d : Db) (key : string) (t : Task) :
  In t (filter (has_id key) (visible_tasks supabase d)) ->
  In t (tasks d) /\ t_id t = key /\ can_select_task supabase d t = true.
Proof.
  unfold visible_tasks. intros H. apply filter_In in H. destruct H as [H Hid].
  apply filter_In in H. destruct H as [Hin Hsee]. apply has_id_true in Hid. auto.
Qed.

(** *** The ownership lookup *)

Lemma owner_result (supabase : Client) (d : Db) (taskId : string) (t : Task) :
  names (backend supabase) taskId t -> only_task d t ->
  select_task_owner supabase d taskId
  = if can_select_task supabase d t then ok (t_user_id t) else failed NotSingleRow.
Proof.
  unfold names, select_task_owner, with_uuid. intros -> Ho.
  rewrite (seen_only_task _ d t Ho). now destruct (can_select_task _ _ _).
Qed.

Lemma owner_result_own (B : Backend) (caller : User) (d : Db) (taskId : string) (t : Task) :
  names B taskId t -> only_task d t -> t_user_id t = id caller ->
  select_task_owner (createClient B (authenticated caller)) d taskId = ok (id caller).
Proof.
  intros Hn Ho Hu.
  rewrite (owner_result (createClient B (authenticated caller)) d taskId t Hn Ho).
  rewrite (can_select_own_task B caller d t Hu). now rewrite Hu.
Qed.

Lemma owner_missing (supabase : Client) (d : Db) (taskId : string) :
  names_no_task (backend supabase) d taskId ->
  exists e, select_task_owner supabase d taskId = failed e.
Proof.
  unfold names_no_task, select_task_owner, with_uuid. intros H.
  destruct (uuid_in (backend supabase) taskId) as [key |] eqn:E.
  - rewrite (seen_no_task supabase d key (H key eq_refl)). simpl. eauto.
  - eauto.
Qed.

Lemma owner_of_single (supabase : Client) (d : Db) (taskId owner : string) :
  data (select_task_owner supabase d taskId) = Some owner ->
  exists t, In t (tasks d) /\ names (backend supabase) taskId t /\ t_user_id t = owner
            /\ can_select_task supabase d t = true.
Proof.
  unfold select_task_owner, with_uuid, names.
  destruct (uuid_in (backend supabase) taskId) as [key |] eqn:E; [| discriminate].
  intros H. apply single_data_in in H.
  destruct (filter (has_id key) (visible_tasks supabase d)) as [| x [| y rest]] eqn:F;
    simpl in H; try discriminate.
  inversion H; subst owner.
  assert (Hx : In x (filter (has_id key) (visible_tasks supabase d))) by (rewrite F; now left).
  apply seen_is_stored in Hx. destruct Hx as [Hin [Hid Hsee]].
  exists x. subst key. auto.
Qed.

(** The lookup answers with a row or with an error, never with both or
    with neither. *)
Lemma owner_data_or_error (supabase : Client) (d : Db) (taskId : string) :
  (exists owner, select_task_owner supabase d taskId = ok owner)
  \/ (exists e, select_task_owner supabase d taskId = failed e).
Proof.
  unfold select_task_owner, with_uuid.
  destruct (uuid_in (backend supabase) taskId) as [key |]; [| right; eauto].
  destruct (map t_user_id (filter (has_id key) (visible_tasks supabase d)))
    as [| x [| y rest]]; simpl; eauto.
Qed.

(** A row that belongs to somebody else never passes the ownership
    test. *)
Lemma not_owner_of_foreign_task (B : Backend) (d : Db) (taskId : string) (t : Task)
    (caller : User) :
  names B taskId t -> only_task d t ->
  t_user_id t <> id caller ->
  TaskRoute.not_owner
    (data (select_task_owner (createClient B (authenticated caller)) d taskId)) caller = true.
Proof.
  intros Hn Ho Hne.
  rewrite (owner_result (createClient B (authenticated caller)) d taskId t Hn Ho).
  destruct (can_select_task _ d t); simpl; [| reflexivity].
  apply negb_true_iff. now apply String.eqb_neq.
Qed.
(* ================================================================== *)
(** ** Owner-only writes *)
(* ================================================================== *)

(** The test [updateData.title && updateData.title === ""] asks for a
    string that is truthy and empty at once. *)
Lemma title_rejected_never (u : TaskUpdate) : TaskRoute.title_rejected u = false.
Proof.
  unfold TaskRoute.title_rejected. destruct (u_title u) as [t |]; [| reflexivity].
  simpl. destruct (String.eqb t ""); reflexivity.
Qed.

(** What PATCH can do to the store: nothing, or the rewrite of the one
    row under the identifier that the caller may update. *)
Lemma PATCH_effect (B : Backend) (auth : AuthResponse) (taskId : string)
    (raw : option JS.value) (w : World) :
  db (snd (TaskRoute.PATCH B auth taskId raw w)) = db w
  \/ exists c key t,
       uuid_in B taskId = Some key
       /\ filter (fun x => has_id key x && can_update_task (createClient B auth) x)
                 (tasks (db w)) = [t]
       /\ db (snd (TaskRoute.PATCH B auth taskId raw w))
          = rewrite_own (createClient B auth) c key (db w).
Proof.
  unfold TaskRoute.PATCH, try_catch, bind, require_user, read, query, return_if,
    request_json, field, or_throw, respond, ret, throw.
  destruct (user auth) as [caller |] eqn:Hu; [destruct (authError auth) |]; simpl; auto.
  destruct (TaskRoute.not_owner _ _); simpl; auto.
  destruct raw as [body |]; simpl; auto.
  destruct (JS.destructure body "title"); simpl; auto.
  destruct (JS.destructure body "description"); simpl; auto.
  destruct (JS.destructure body "status"); simpl; auto.
  destruct (JS.destructure body "priority"); simpl; auto.
  destruct (JS.destructure body "due_date"); simpl; auto.
  destruct (JS.destructure body "category"); simpl; auto.
  destruct (TaskRoute.updateData_of _ _ _ _ _ _) as [u |]; simpl; auto.
  rewrite title_rejected_never. simpl.
  unfold update_task. cbn [backend createClient].
  destruct (uuid_in B taskId) as [key |] eqn:Ek; simpl; auto.
  destruct (no_columns u); simpl; auto.
  destruct (typed_update B u) as [e | c]; simpl; auto.
  match goal with
  | |- context [match filter ?p ?l with _ => _ end] =>
      destruct (filter p l) as [| t [| t' rest]] eqn:F
  end; simpl; auto.
  right. exists c, key, t. repeat split; auto.
Qed.

Lemma DELETE_effect (B : Backend) (auth : AuthResponse) (taskId : string) (w : World) :
  db (snd (TaskRoute.DELETE B auth taskId w)) = db w
  \/ db (snd (TaskRoute.DELETE B auth taskId w))
     = snd (delete_task (createClient B auth) (db w) taskId).
Proof.
  unfold TaskRoute.DELETE, try_catch, bind, require_user, read, query, return_if,
    respond, ret.
  destruct (user auth) as [caller |]; [destruct (authError auth) |]; simpl; auto.
  destruct (TaskRoute.not_owner _ _); simpl; auto.
  destruct (delete_task _ _ _) as [res d'] eqn:E. simpl.
  destruct (error res); simpl; auto.
Qed.

(** The policies alone keep a row of somebody else where it is. *)
Lemma rewrite_own_keeps_foreign (B : Backend) (caller : User) (c : TaskColumns)
    (key : string) (d : Db) (t : Task) :
  In t (tasks d) -> t_user_id t <> id caller ->
  In t (tasks (rewrite_own (createClient B (authenticated caller)) c key d)).
Proof.
  intros Hin Hne. unfold rewrite_own. simpl. apply in_map_iff. exists t. split; [| assumption].
  unfold can_update_task. rewrite is_uid_caller.
  apply String.eqb_neq in Hne. rewrite Hne, andb_false_r. reflexivity.
Qed.

Lemma delete_task_keeps_foreign (B : Backend) (caller : User) (taskId : string)
    (d : Db) (t : Task) :
  In t (tasks d) -> t_user_id t <> id caller ->
  In t (tasks (snd (delete_task (createClient B (authenticated caller)) d taskId))).
Proof.
  intros Hin Hne. unfold delete_task. cbn [backend createClient].
  destruct (uuid_in B taskId) as [key |]; simpl; [| assumption].
  apply filter_In. split; [assumption |].
  unfold can_delete_task. rewrite is_uid_caller.
  apply String.eqb_neq in Hne. rewrite Hne, andb_false_r. reflexivity.
Qed.

Lemma update_query_needs_owner (B : Backend) (w : World) (caller : User) (taskId : string)
    (raw : option JS.value) :
  In (issued "tasks" Update)
     (new_queries w (snd (TaskRoute.PATCH B (authenticated caller) taskId raw w))) ->
  exists t, In t (tasks (db w)) /\ names B taskId t /\ t_user_id t = id caller.
Proof.
  unfold TaskRoute.PATCH, try_catch, bind, read, query, return_if, new_queries,
    TaskRoute.not_owner. simpl.
  destruct (data (select_task_owner _ (db w) taskId)) as [owner |] eqn:E; simpl.
  - destruct (String.eqb owner (id caller)) eqn:Eo; simpl.
    + intros _. apply String.eqb_eq in Eo. subst owner.
      apply owner_of_single in E. destruct E as (t & Hin & Hn & Hu & _). now exists t.
    + rewrite skipn_app_exact. simpl. intros [H | []]. discriminate.
  - rewrite skipn_app_exact. simpl. intros [H | []]. discriminate.
Qed.

Lemma delete_query_needs_owner (B : Backend) (w : World) (caller : User) (taskId : string) :
  In (issued "tasks" Delete)
     (new_queries w (snd (TaskRoute.DELETE B (authenticated caller) taskId w))) ->
  exists t, In t (tasks (db w)) /\ names B taskId t /\ t_user_id t = id caller.
Proof.
  unfold TaskRoute.DELETE, try_catch, bind, read, query, return_if, new_queries,
    TaskRoute.not_owner. simpl.
  destruct (data (select_task_owner _ (db w) taskId)) as [owner |] eqn:E; simpl.
  - destruct (String.eqb owner (id caller)) eqn:Eo; simpl.
    + intros _. apply String.eqb_eq in Eo. subst owner.
      apply owner_of_single in E. destruct E as (t & Hin & Hn & Hu & _). now exists t.
    + rewrite skipn_app_exact. simpl. intros [H | []]. discriminate.
  - rewrite skipn_app_exact. simpl. intros [H | []]. discriminate.
Qed.

(** C1.  A task that belongs to somebody else cannot be updated or
    deleted.  For every stored task and every authenticated caller who
    is not its owner (a share recipient included: shares are never
    consulted on this path), both PATCH and DELETE on an identifier that
    names the task answer 403, leave the store as it was and issue
    nothing but the ownership lookup.  Conversely, whenever one of the
    two handlers issues its update or delete query, the caller owns the
    task the identifier names.  And whatever identifier a request
    carries, every row of somebody else is still stored, as it was,
    after the caller's PATCH or DELETE. *)
Theorem non_owner_cannot_update_or_delete :
  forall (B : Backend) (w : World) (caller : User) (raw : option JS.value),
    (forall (t : Task) (taskId : string),
       only_task (db w) t ->
       names B taskId t ->
       t_user_id t <> id caller ->
       TaskRoute.PATCH B (authenticated caller) taskId raw w
         = (json (error_body "Forbidden - Only owner can update task") 403,
            {| db := db w; trace := trace w ++ [issued "tasks" Select] |})
       /\ TaskRoute.DELETE B (authenticated caller) taskId w
         = (json (error_body "Forbidden - Only owner can delete task") 403,
            {| db := db w; trace := trace w ++ [issued "tasks" Select] |}))
    /\ (forall taskId : string,
          In (issued "tasks" Update)
             (new_queries w (snd (TaskRoute.PATCH B (authenticated caller) taskId raw w))) ->
          exists t, In t (tasks (db w)) /\ names B taskId t /\ t_user_id t = id caller)
    /\ (forall taskId : string,
          In (issued "tasks" Delete)
             (new_queries w (snd (TaskRoute.DELETE B (authenticated caller) taskId w))) ->
          exists t, In t (tasks (db w)) /\ names B taskId t /\ t_user_id t = id caller)
    /\ (forall (t : Task) (taskId : string),
          In t (tasks (db w)) ->
          t_user_id t <> id caller ->
          In t (tasks (db (snd (TaskRoute.PATCH B (authenticated caller) taskId raw w))))
          /\ In t (tasks (db (snd (TaskRoute.DELETE B (authenticated caller) taskId w))))).
Proof.
  intros B w caller raw. split; [| split; [| split]].
  - intros t taskId Ho Hn Hne.
    pose proof (not_owner_of_foreign_task B (db w) taskId t caller Hn Ho Hne) as Hno.
    unfold TaskRoute.PATCH, TaskRoute.DELETE, try_catch, bind, read, query.
    simpl. rewrite Hno. simpl. split; reflexivity.
  - intros taskId. apply update_query_needs_owner.
  - intros taskId. apply delete_query_needs_owner.
  - intros t taskId Hin Hne. split.
    + destruct (PATCH_effect B (authenticated caller) taskId raw w)
        as [-> | (c & key & x & _ & _ & ->)]; [assumption |].
      now apply rewrite_own_keeps_foreign.
    + destruct (DELETE_effect B (authenticated caller) taskId w) as [-> | ->];
        [assumption |].
      now apply delete_task_keeps_foreign.
Qed.

(** Bob, with whom Alice's task is shared, can neither edit nor delete
    it; Alice's own delete request does reach the delete query. *)
Lemma non_owner_cannot_update_or_delete_witness :
  shared_with Sample.store Sample.milk_id Sample.bob
  /\ TaskRoute.PATCH Sample.backend (authenticated Sample.bob) Sample.milk_id
       (Sample.body_of [("title", JS.Str "Buy oat milk")]) Sample.world
     = (json (error_body "Forbidden - Only owner can update task") 403,
        {| db := Sample.store; trace := [issued "tasks" Select] |})
  /\ TaskRoute.DELETE Sample.backend (authenticated Sample.bob) Sample.milk_id Sample.world
     = (json (error_body "Forbidden - Only owner can delete task") 403,
        {| db := Sample.store; trace := [issued "tasks" Select] |})
  /\ exists t, In t (tasks Sample.store) /\ names Sample.backend Sample.milk_id t
               /\ t_user_id t = id Sample.alice.
Proof.
  destruct (non_owner_cannot_update_or_delete Sample.backend Sample.world Sample.bob
              (Sample.body_of [("title", JS.Str "Buy oat milk")])) as (Hforbid & _ & _ & _).
  split.
  { exists Sample.milk_for_bob. simpl. repeat split. now left. }
  destruct (Hforbid Sample.milk Sample.milk_id) as [Hp Hd].
  { reflexivity. }
  { reflexivity. }
  { simpl. discriminate. }
  split; [exact Hp |]. split; [exact Hd |].
  destruct (non_owner_cannot_update_or_delete Sample.backend Sample.world Sample.alice None)
    as (_ & _ & Hdel' & _).
  apply (Hdel' Sample.milk_id). vm_compute. right. now left.
Defined.
(* ================================================================== *)
(** ** Fetch-one *)
(* ================================================================== *)

(** The two queries of fetch-one select the same rows of [tasks]. *)
Lemma access_and_detail (supabase : Client) (d : Db) (taskId : string) :
  (exists t, In t (tasks d) /\ names (backend supabase) taskId t
             /\ can_select_task supabase d t = true
             /\ select_task_access supabase d taskId
                = ok (t_user_id t,
                      map s_shared_with_user_id (shares_seen supabase d (t_id t)))
             /\ select_task_detail supabase d taskId = ok (detail supabase d t))
  \/ (exists e, select_task_access supabase d taskId = failed e
                /\ select_task_detail supabase d taskId = failed e).
Proof.
  unfold select_task_access, select_task_detail, with_uuid, names.
  destruct (uuid_in (backend supabase) taskId) as [key |] eqn:E; [| right; eauto].
  destruct (filter (has_id key) (visible_tasks supabase d)) as [| x [| y rest]] eqn:F;
    simpl; try (right; eauto; fail).
  left. exists x.
  assert (Hx : In x (filter (has_id key) (visible_tasks supabase d))) by (rewrite F; now left).
  apply seen_is_stored in Hx. destruct Hx as (Hin & Hid & Hsee). subst key. auto.
Qed.

Lemma access_of_task (supabase : Client) (d : Db) (taskId : string) (t : Task) :
  names (backend supabase) taskId t -> only_task d t ->
  select_task_access supabase d taskId
  = (if can_select_task supabase d t
     then ok (t_user_id t, map s_shared_with_user_id (shares_seen supabase d (t_id t)))
     else failed NotSingleRow)
  /\ select_task_detail supabase d taskId
     = (if can_select_task supabase d t then ok (detail supabase d t)
        else failed NotSingleRow).
Proof.
  unfold names, select_task_access, select_task_detail, with_uuid. intros -> Ho.
  rewrite (seen_only_task _ d t Ho). now destruct (can_select_task _ _ _).
Qed.

Lemma access_of_no_task (supabase : Client) (d : Db) (taskId : string) :
  names_no_task (backend supabase) d taskId ->
  data (select_task_access supabase d taskId) = None.
Proof.
  unfold names_no_task, select_task_access, with_uuid. intros H.
  destruct (uuid_in (backend supabase) taskId) as [key |] eqn:E; [| reflexivity].
  rewrite (seen_no_task supabase d key (H key eq_refl)). reflexivity.
Qed.

(** A share the caller received is one the caller sees. *)
Lemma is_shared_iff (B : Backend) (d : Db) (key : string) (caller : User) :
  existsb (fun share => String.eqb share (id caller))
          (map s_shared_with_user_id
               (shares_seen (createClient B (authenticated caller)) d key)) = true
  <-> shared_with d key caller.
Proof.
  unfold shared_with, shares_seen, shares_of. rewrite existsb_exists. split.
  - intros (x & Hx & Heq). apply in_map_iff in Hx. destruct Hx as (s & <- & Hs).
    apply filter_In in Hs. destruct Hs as [Hs _].
    apply filter_In in Hs. destruct Hs as [Hin Hid].
    apply String.eqb_eq in Heq, Hid. now exists s.
  - intros (s & Hin & Hid & Hu). exists (s_shared_with_user_id s). split.
    + apply in_map. apply filter_In. split.
      * apply filter_In. split; [assumption | now apply String.eqb_eq].
      * apply can_select_share_iff. now right.
    + now apply String.eqb_eq.
Qed.

(** What the embedded resources of an accessible task hold: all its
    comments and attachments, and the shares the caller gave or
    received. *)
Lemma on_accessible_task_stored (supabase : Client) (d : Db) (t : Task) :
  In t (tasks d) -> can_select_task supabase d t = true ->
  on_accessible_task supabase d (t_id t) = true.
Proof.
  intros Hin Hsee. unfold on_accessible_task. apply existsb_exists. exists t.
  split; [assumption |]. now rewrite Hsee, String.eqb_refl.
Qed.

Lemma detail_of_accessible (supabase : Client) (d : Db) (t : Task) :
  In t (tasks d) -> can_select_task supabase d t = true ->
  detail supabase d t
  = {| td_task := t;
       td_profile := profile_of d (t_user_id t);
       td_comments := map (fun c => (c, profile_of d (c_user_id c))) (comments_of d (t_id t));
       td_attachments := attachments_of d (t_id t);
       td_task_shares :=
         map (fun s => (s, profile_of d (s_shared_with_user_id s)))
             (shares_seen supabase d (t_id t)) |}.
Proof.
  intros Hin Hsee. unfold detail. f_equal.
  - f_equal. apply filter_all. intros c Hc. unfold comments_of in Hc.
    apply filter_In in Hc. destruct Hc as [_ Hc]. apply String.eqb_eq in Hc.
    rewrite Hc. now apply on_accessible_task_stored.
  - apply filter_all. intros a Ha. unfold attachments_of in Ha.
    apply filter_In in Ha. destruct Ha as [_ Ha]. apply String.eqb_eq in Ha.
    rewrite Ha. now apply on_accessible_task_stored.
Qed.

Lemma shares_seen_by_owner (B : Backend) (caller : User) (d : Db) (t : Task) :
  given_by_owner d -> In t (tasks d) -> t_user_id t = id caller ->
  shares_seen (createClient B (authenticated caller)) d (t_id t) = shares_of d (t_id t).
Proof.
  intros Hg Hin Hu. unfold shares_seen. apply filter_all. intros s Hs.
  unfold shares_of in Hs. apply filter_In in Hs. destruct Hs as [Hsin Hid].
  apply String.eqb_eq in Hid. apply can_select_share_iff. left.
  rewrite (Hg s t Hsin Hin (eq_sym Hid)). exact Hu.
Qed.

Lemma shares_seen_by_other (B : Backend) (caller : User) (d : Db) (t : Task) :
  given_by_owner d -> In t (tasks d) -> t_user_id t <> id caller ->
  shares_seen (createClient B (authenticated caller)) d (t_id t)
  = filter (fun s => String.eqb (s_shared_with_user_id s) (id caller)) (shares_of d (t_id t)).
Proof.
  intros Hg Hin Hu. unfold shares_seen. apply filter_ext_in. intros s Hs.
  unfold shares_of in Hs. apply filter_In in Hs. destruct Hs as [Hsin Hid].
  apply String.eqb_eq in Hid. unfold can_select_share. rewrite !is_uid_caller.
  rewrite (Hg s t Hsin Hin (eq_sym Hid)).
  apply String.eqb_neq in Hu. now rewrite Hu.
Qed.

Lemma GET_never_404 (B : Backend) (auth : AuthResponse) (taskId : string) (w : World) :
  status (fst (TaskRoute.GET B auth taskId w)) <> 404%Z.
Proof.
  unfold TaskRoute.GET, try_catch, bind, require_user, respond, ret.
  destruct auth as [[caller |] [|]]; simpl; try discriminate.
  unfold TaskRoute.canAccessTask, bind, read, query, ret, return_if, respond. simpl.
  match goal with
  | |- context [select_task_access ?c _ _] =>
      destruct (access_and_detail c (db w) taskId)
        as [(t & _ & _ & _ & Ha & Hd) | (e & Ha & Hd)]
  end; rewrite Ha; simpl.
  - destruct (String.eqb (t_user_id t) (id caller) || existsb _ _); simpl;
      [| discriminate].
    rewrite Hd. simpl. discriminate.
  - discriminate.
Qed.

(** C2, as amended.  For an authenticated caller of fetch-one: when the
    identifier names no stored row the answer is 403, the same as when
    the row exists and the caller is neither its owner nor a share
    recipient; the owner and every share recipient get 200 with the row
    joined with its owner's profile, all its comments and attachments,
    and those of its shares that the caller gave or received.  When
    every share was given by the owner of its task, these are all the
    shares of the task for the owner, and for a recipient the shares of
    the task with that recipient.  In none of these cases is the store
    changed.  No request at all is answered 404. *)
Theorem fetch_one_access :
  forall (B : Backend) (w : World) (caller : User),
    let supabase := client_of B caller in
    (forall taskId, names_no_task B (db w) taskId ->
       TaskRoute.GET B (authenticated caller) taskId w
       = (json (error_body "Forbidden") 403,
          {| db := db w; trace := trace w ++ [issued "tasks" Select] |}))
    /\ (forall t taskId, only_task (db w) t -> names B taskId t ->
          t_user_id t <> id caller -> ~ shared_with (db w) (t_id t) caller ->
          TaskRoute.GET B (authenticated caller) taskId w
          = (json (error_body "Forbidden") 403,
             {| db := db w; trace := trace w ++ [issued "tasks" Select] |}))
    /\ (forall t taskId, only_task (db w) t -> names B taskId t ->
          t_user_id t = id caller \/ shared_with (db w) (t_id t) caller ->
          TaskRoute.GET B (authenticated caller) taskId w
          = (json (task_detail_body
                     (Some {| td_task := t;
                              td_profile := profile_of (db w) (t_user_id t);
                              td_comments :=
                                map (fun c => (c, profile_of (db w) (c_user_id c)))
                                    (comments_of (db w) (t_id t));
                              td_attachments := attachments_of (db w) (t_id t);
                              td_task_shares :=
                                map (fun s => (s, profile_of (db w) (s_shared_with_user_id s)))
                                    (filter (can_select_share supabase)
                                            (shares_of (db w) (t_id t))) |})) 200,
             {| db := db w;
                trace := trace w ++ [issued "tasks" Select; issued "tasks" Select] |}))
    /\ (forall s, can_select_share supabase s = true
                  <-> s_shared_by_user_id s = id caller \/ s_shared_with_user_id s = id caller)
    /\ (forall t, given_by_owner (db w) -> In t (tasks (db w)) ->
          (t_user_id t = id caller ->
             filter (can_select_share supabase) (shares_of (db w) (t_id t))
             = shares_of (db w) (t_id t))
          /\ (t_user_id t <> id caller ->
                filter (can_select_share supabase) (shares_of (db w) (t_id t))
                = filter (fun s => String.eqb (s_shared_with_user_id s) (id caller))
                         (shares_of (db w) (t_id t))))
    /\ (forall auth taskId w',
          status (fst (TaskRoute.GET B auth taskId w')) <> 404%Z).
Proof.
  intros B w caller supabase. split; [| split; [| split; [| split; [| split]]]].
  - intros taskId Hno. unfold TaskRoute.GET, try_catch, bind. simpl.
    unfold TaskRoute.canAccessTask, bind, read, query, ret. simpl.
    rewrite (access_of_no_task (createClient B (authenticated caller)) (db w) taskId Hno).
    reflexivity.
  - intros t taskId Ho Hn Hne Hns. unfold TaskRoute.GET, try_catch, bind. simpl.
    unfold TaskRoute.canAccessTask, bind, read, query, ret. simpl.
    destruct (access_of_task (createClient B (authenticated caller)) (db w) taskId t Hn Ho)
      as [-> _].
    rewrite (cannot_select_foreign_task B caller (db w) t Hne Hns). reflexivity.
  - intros t taskId Ho Hn Hacc.
    assert (Hsee : can_select_task (createClient B (authenticated caller)) (db w) t = true)
      by now apply can_select_task_iff.
    unfold TaskRoute.GET, try_catch, bind. simpl.
    unfold TaskRoute.canAccessTask, bind, read, query, ret. simpl.
    destruct (access_of_task (createClient B (authenticated caller)) (db w) taskId t Hn Ho)
      as [Ha Hd].
    rewrite Ha, Hsee. simpl.
    assert (Hok : String.eqb (t_user_id t) (id caller)
                  || existsb (fun share => String.eqb share (id caller))
                       (map s_shared_with_user_id
                            (shares_seen (createClient B (authenticated caller))
                               (db w) (t_id t))) = true).
    { apply orb_true_iff. destruct Hacc as [Hu | Hs].
      - left. now apply String.eqb_eq.
      - right. now apply is_shared_iff. }
    rewrite Hok. simpl. rewrite Hd, Hsee. simpl.
    rewrite (detail_of_accessible _ (db w) t (only_task_stored _ _ Ho) Hsee).
    rewrite <- app_assoc. reflexivity.
  - intros s. apply can_select_share_iff.
  - intros t Hg Hin. split; intros Hu.
    + now apply (shares_seen_by_owner B caller).
    + now apply (shares_seen_by_other B caller).
  - intros auth taskId w'. apply GET_never_404.
Qed.

(** Carol is turned away from Alice's task and from an identifier that
    does not exist alike; Bob, a share recipient, gets the joined row. *)
Lemma fetch_one_access_witness :
  names_no_task Sample.backend Sample.store Sample.missing_id
  /\ fst (TaskRoute.GET Sample.backend (authenticated Sample.carol) Sample.missing_id
            Sample.world)
     = json (error_body "Forbidden") 403
  /\ fst (TaskRoute.GET Sample.backend (authenticated Sample.carol) Sample.milk_id
            Sample.world)
     = json (error_body "Forbidden") 403
  /\ fst (TaskRoute.GET Sample.backend (authenticated Sample.bob) Sample.milk_id
            Sample.world)
     = json (task_detail_body
               (Some {| td_task := Sample.milk;
                        td_profile := Some Sample.alice_ref;
                        td_comments := [];
                        td_attachments := [];
                        td_task_shares := [(Sample.milk_for_bob, Some Sample.bob_ref)] |}))
            200
  /\ given_by_owner Sample.store.
Proof.
  assert (Hno : names_no_task Sample.backend Sample.store Sample.missing_id).
  { intros key Hk. vm_compute in Hk. inversion Hk; subst key.
    intros t [<- | []]. simpl. discriminate. }
  assert (Hg : given_by_owner Sample.store).
  { intros s t [<- | []] [<- | []] _. reflexivity. }
  split; [exact Hno |].
  destruct (fetch_one_access Sample.backend Sample.world Sample.carol)
    as (Habsent & Hforeign & _).
  destruct (fetch_one_access Sample.backend Sample.world Sample.bob)
    as (_ & _ & Hshared & _ & Hseen & _).
  split; [| split; [| split]].
  - exact (f_equal fst (Habsent Sample.missing_id Hno)).
  - refine (f_equal fst (Hforeign Sample.milk Sample.milk_id _ _ _ _)).
    + reflexivity.
    + reflexivity.
    + simpl. discriminate.
    + intros (s & [<- | []] & _ & Hu). simpl in Hu. discriminate.
  - refine (f_equal fst (Hshared Sample.milk Sample.milk_id _ _ _)).
    + reflexivity.
    + reflexivity.
    + right. exists Sample.milk_for_bob. simpl. repeat split. now left.
  - destruct (Hseen Sample.milk Hg (or_introl eq_refl)) as [_ _]. exact Hg.
Defined.

(** C2 as stated fails: a request for an identifier under which nothing
    is stored is answered 403, not 404. *)
Lemma fetch_one_absent_row_is_not_404 :
  ~ (forall (B : Backend) (w : World) (caller : User) (taskId : string),
       names_no_task B (db w) taskId ->
       status (fst (TaskRoute.GET B (authenticated caller) taskId w)) = 404%Z).
Proof.
  intros H.
  specialize (H Sample.backend Sample.world Sample.alice Sample.missing_id).
  assert (Hno : names_no_task Sample.backend (db Sample.world) Sample.missing_id).
  { intros key Hk. vm_compute in Hk. inversion Hk; subst key.
    intros t [<- | []]. simpl. discriminate. }
  specialize (H Hno). vm_compute in H. discriminate.
Qed.
(* ================================================================== *)
(** ** Update *)
(* ================================================================== *)

Lemma PATCH_never_400 (B : Backend) (auth : AuthResponse) (taskId : string)
    (raw : option JS.value) (w : World) :
  status (fst (TaskRoute.PATCH B auth taskId raw w)) <> 400%Z.
Proof.
  unfold TaskRoute.PATCH, try_catch, bind, require_user, read, query, return_if,
    request_json, field, or_throw, respond, ret, throw.
  destruct (user auth) as [caller |]; [destruct (authError auth) |]; simpl;
    try discriminate.
  destruct (TaskRoute.not_owner _ _); simpl; try discriminate.
  destruct raw as [body |]; simpl; try discriminate.
  destruct (JS.destructure body "title"); simpl; try discriminate.
  destruct (JS.destructure body "description"); simpl; try discriminate.
  destruct (JS.destructure body "status"); simpl; try discriminate.
  destruct (JS.destructure body "priority"); simpl; try discriminate.
  destruct (JS.destructure body "due_date"); simpl; try discriminate.
  destruct (JS.destructure body "category"); simpl; try discriminate.
  destruct (TaskRoute.updateData_of _ _ _ _ _ _) as [u |]; simpl; try discriminate.
  rewrite title_rejected_never. simpl.
  destruct (update_task _ (db w) u taskId) as [res d']. simpl.
  destruct (error res); simpl; discriminate.
Qed.

(** C3.  The claim is that the owner's update with an explicit
    empty-string title is rejected with 400 and changes nothing.  The
    handler does otherwise: its title check can never fire, so PATCH
    never answers 400; the owner's request with an empty-string title is
    carried out and answered 200, and the stored title becomes the
    empty string. *)
Theorem empty_title_update_goes_through :
  (forall u : TaskUpdate, TaskRoute.title_rejected u = false)
  /\ (forall B auth taskId raw w,
        status (fst (TaskRoute.PATCH B auth taskId raw w)) <> 400%Z)
  /\ TaskRoute.PATCH Sample.backend (authenticated Sample.alice) Sample.milk_id
       (Sample.body_of [("title", JS.Str "")]) Sample.world
     = (json (task_body
                (Some {| tp_task := set_columns (Sample.only_title "") Sample.milk;
                         tp_profile := Some Sample.alice_ref |})) 200,
        {| db := with_tasks Sample.store [set_columns (Sample.only_title "") Sample.milk];
           trace := [issued "tasks" Select; issued "tasks" Update] |})
  /\ t_title (set_columns (Sample.only_title "") Sample.milk) = "".
Proof.
  split; [exact title_rejected_never |].
  split; [exact PATCH_never_400 |].
  split; reflexivity.
Qed.

Lemma updateData_fields title description status_sent priority due_date category u :
  TaskRoute.updateData_of title description status_sent priority due_date category = Some u ->
  u_status u = status_sent /\ u_priority u = priority
  /\ u_due_date u = due_date /\ u_category u = category
  /\ (title = None -> u_title u = None)
  /\ (forall s, title = Some (JS.Str s) -> u_title u = Some (JS.trim s))
  /\ (description = None -> u_description u = None)
  /\ (description = Some JS.Null -> u_description u = Some None)
  /\ (forall s, description = Some (JS.Str s) ->
        u_description u
        = Some (if String.eqb (JS.trim s) "" then None else Some (JS.trim s))).
Proof.
  unfold TaskRoute.updateData_of.
  destruct title as [tv |].
  - destruct (JS.call_trim tv) as [ts |] eqn:Et; simpl; [| discriminate].
    destruct description as [dv |].
    + destruct (trimmed_or_null (Some dv)) as [ds |] eqn:Ed; simpl; [| discriminate].
      intros H; inversion H; subst; clear H; simpl.
      repeat split; try discriminate.
      * intros s E. inversion E; subst. simpl in Et. congruence.
      * intros E. inversion E; subst. simpl in Ed. congruence.
      * intros s E. inversion E; subst. simpl in Ed. congruence.
    + intros H; inversion H; subst; clear H; simpl.
      repeat split; try discriminate.
      intros s E. inversion E; subst. simpl in Et. congruence.
  - simpl. destruct description as [dv |].
    + destruct (trimmed_or_null (Some dv)) as [ds |] eqn:Ed; simpl; [| discriminate].
      intros H; inversion H; subst; clear H; simpl.
      repeat split; try discriminate.
      * intros E. inversion E; subst. simpl in Ed. congruence.
      * intros s E. inversion E; subst. simpl in Ed. congruence.
    + intros H; inversion H; subst; clear H; simpl.
      repeat split; discriminate.
Qed.

(** Filling [updateData] throws exactly when the title is present and
    not a string, or the description is present and neither null nor a
    string. *)
Lemma updateData_throws_iff title description status_sent priority due_date category :
  TaskRoute.updateData_of title description status_sent priority due_date category = None
  <-> (exists v, title = Some v /\ forall s, v <> JS.Str s)
      \/ (exists v, description = Some v /\ v <> JS.Null /\ forall s, v <> JS.Str s).
Proof.
  unfold TaskRoute.updateData_of. split.
  - destruct title as [[| b | n | s | l | o] |]; simpl;
      try (intros _; left; eexists; split; [reflexivity | intros s' E; discriminate]).
    all: destruct description as [[| b' | n' | s' | l' | o'] |]; simpl;
      try discriminate;
      intros _; right; eexists;
      (split; [reflexivity | split; [discriminate | intros s0 E; discriminate]]).
  - intros [(v & -> & Hv) | (v & -> & Hn & Hv)].
    + destruct v; simpl; try reflexivity. now destruct (Hv s).
    + destruct title as [[| b | n | s | l | o] |]; simpl; try reflexivity;
        destruct v; simpl; try reflexivity;
        solve [now destruct Hn | now destruct (Hv s0) | now destruct (Hv s)].
Qed.

Lemma typed_update_fields (B : Backend) (u : TaskUpdate) (c : TaskColumns) :
  typed_update B u = inr c ->
  col_title c = u_title u /\ col_description c = u_description u
  /\ typed (as_status B) (u_status u) = Some (col_status c)
  /\ typed (as_priority B) (u_priority u) = Some (col_priority c)
  /\ typed (as_timestamptz B) (u_due_date u) = Some (col_due_date c)
  /\ col_category c = option_map (as_text B) (u_category u).
Proof.
  unfold typed_update.
  destruct (typed (as_timestamptz B) (u_due_date u)); [| discriminate].
  destruct (typed (as_status B) (u_status u)); [| discriminate].
  destruct (typed (as_priority B) (u_priority u)); [| discriminate].
  intros H; inversion H; subst; simpl. repeat split; reflexivity.
Qed.

Lemma typed_absent {A : Type} (conv : JS.value -> option A) (new : option A) (old : A) :
  typed conv None = Some new -> set_to new old = old.
Proof. simpl. intros H; inversion H. reflexivity. Qed.

Lemma typed_present {A : Type} (conv : JS.value -> option A) (v : JS.value)
    (new : option A) (old : A) :
  typed conv (Some v) = Some new -> conv v = Some (set_to new old).
Proof.
  simpl. destruct (conv v); simpl; intros H; inversion H. reflexivity.
Qed.

Lemma set_columns_keeps_id (c : TaskColumns) (t : Task) : t_id (set_columns c t) = t_id t.
Proof. reflexivity. Qed.

(** Rewriting the rows of one identifier commutes with selecting them. *)
Lemma filter_updated_rows (key : string) (f : Task -> Task) (rows : list Task) :
  (forall x, t_id (f x) = t_id x) ->
  filter (has_id key) (map (fun x => if has_id key x then f x else x) rows)
  = map f (filter (has_id key) rows).
Proof.
  intros Hf. induction rows as [| x rows IH]; simpl; [reflexivity |].
  destruct (has_id key x) eqn:E; simpl.
  - unfold has_id at 1. rewrite Hf. fold (has_id key x). rewrite E. simpl.
    now rewrite IH.
  - rewrite E. exact IH.
Qed.

Lemma other_rows_kept (c : TaskColumns) (key : string) (d : Db) (x : Task) :
  In x (tasks d) -> t_id x <> key -> In x (tasks (rewrite_task c key d)).
Proof.
  intros Hin Hne. unfold rewrite_task. simpl. apply in_map_iff. exists x.
  split; [| assumption].
  destruct (has_id key x) eqn:E; [| reflexivity].
  apply has_id_true in E. contradiction.
Qed.

(** For the owner of the one row under an identifier, the rows the
    update policy lets through are that row. *)
Lemma reached_by_owner (B : Backend) (caller : User) (d : Db) (t x : Task) :
  only_task d t -> t_user_id t = id caller -> In x (tasks d) ->
  has_id (t_id t) x && can_update_task (createClient B (authenticated caller)) x
  = has_id (t_id t) x.
Proof.
  intros Ho Hu Hin. destruct (has_id (t_id t) x) eqn:E; [| reflexivity]. simpl.
  assert (Hx : In x (filter (has_id (t_id t)) (tasks d))) by (apply filter_In; auto).
  rewrite Ho in Hx. destruct Hx as [<- | []].
  unfold can_update_task. rewrite is_uid_caller. now apply String.eqb_eq.
Qed.

Lemma rewrite_own_by_owner (B : Backend) (caller : User) (c : TaskColumns) (d : Db)
    (t : Task) :
  only_task d t -> t_user_id t = id caller ->
  rewrite_own (createClient B (authenticated caller)) c (t_id t) d
  = rewrite_task c (t_id t) d.
Proof.
  intros Ho Hu. unfold rewrite_own, rewrite_task. f_equal. apply map_ext_in.
  intros x Hin. now rewrite (reached_by_owner B caller d t x Ho Hu Hin).
Qed.

Lemma update_task_by_owner (B : Backend) (caller : User) (d : Db) (taskId : string)
    (t : Task) (u : TaskUpdate) (c : TaskColumns) :
  names B taskId t -> only_task d t -> t_user_id t = id caller ->
  no_columns u = false -> typed_update B u = inr c ->
  update_task (createClient B (authenticated caller)) d u taskId
  = (ok (with_profile d (set_columns c t)), rewrite_task c (t_id t) d).
Proof.
  intros Hn Ho Hu Hcols Hc. unfold update_task. cbn [backend createClient].
  unfold names in Hn. rewrite Hn, Hcols, Hc.
  rewrite (filter_ext_in _ (has_id (t_id t)) (tasks d))
    by (intros x Hin; now apply (reached_by_owner B caller d t x)).
  rewrite Ho.
  change (with_tasks d (map _ (tasks d)))
    with (rewrite_own (createClient B (authenticated caller)) c (t_id t) d).
  rewrite (rewrite_own_by_owner B caller c d t Ho Hu). reflexivity.
Qed.

Lemma update_task_refused (supabase : Client) (d : Db) (taskId : string) (u : TaskUpdate)
    (e : PostgrestError) :
  typed_update (backend supabase) u = inl e ->
  exists e', update_task supabase d u taskId = (failed e', d).
Proof.
  intros He. unfold update_task.
  destruct (uuid_in (backend supabase) taskId); [| eauto].
  destruct (no_columns u); [eauto |]. rewrite He. eauto.
Qed.

Lemma update_task_nothing (supabase : Client) (d : Db) (taskId : string) (u : TaskUpdate) :
  no_columns u = true -> snd (update_task supabase d u taskId) = d.
Proof.
  intros Hn. unfold update_task.
  destruct (uuid_in (backend supabase) taskId); [| reflexivity].
  now rewrite Hn.
Qed.

(** C5, as amended.  When the body of the owner's update has a title
    that is absent or a string and a description that is absent, null
    or a string, names at least one of the six fields, and the values
    sent are accepted by their columns, PATCH rewrites exactly the row
    of that task: of title, description, status, priority, due date and
    category, each one present in the body takes the value sent (title
    and description trimmed, a description that trims to nothing stored
    as null, a due date as the timestamp the backend reads it as; null
    clears description, status, priority, due date and category), and
    each one omitted keeps its stored value, as do the identifier, the
    owner and the completion timestamp.  When a value sent is refused by
    its column the answer is 500, and then, as for a body that names
    none of the six fields, nothing is changed. *)
Theorem update_applies_present_fields :
  forall (B : Backend) (w : World) (t : Task) (taskId : string) (caller : User)
         (props : list (string * JS.value)) (u : TaskUpdate),
    let title_sent := JS.lookup "title" props in
    let description_sent := JS.lookup "description" props in
    let status_sent := JS.lookup "status" props in
    let priority_sent := JS.lookup "priority" props in
    let due_date_sent := JS.lookup "due_date" props in
    let category_sent := JS.lookup "category" props in
    let result := TaskRoute.PATCH B (authenticated caller) taskId (Some (JS.Obj props)) w in
    only_task (db w) t ->
    names B taskId t ->
    t_user_id t = id caller ->
    TaskRoute.updateData_of title_sent description_sent status_sent priority_sent
      due_date_sent category_sent = Some u ->
    (forall c : TaskColumns,
       let stored := set_columns c t in
       typed_update B u = inr c ->
       no_columns u = false ->
       result
       = (json (task_body (Some (with_profile (db w) stored))) 200,
          {| db := rewrite_task c (t_id t) (db w);
             trace := trace w ++ [issued "tasks" Select; issued "tasks" Update] |})
       /\ filter (has_id (t_id t)) (tasks (rewrite_task c (t_id t) (db w))) = [stored]
       /\ (forall x, In x (tasks (db w)) -> t_id x <> t_id t ->
             In x (tasks (rewrite_task c (t_id t) (db w))))
       /\ (title_sent = None -> t_title stored = t_title t)
       /\ (forall s, title_sent = Some (JS.Str s) -> t_title stored = JS.trim s)
       /\ (description_sent = None -> t_description stored = t_description t)
       /\ (description_sent = Some JS.Null -> t_description stored = None)
       /\ (forall s, description_sent = Some (JS.Str s) ->
             t_description stored
             = if String.eqb (JS.trim s) "" then None else Some (JS.trim s))
       /\ (status_sent = None -> t_status stored = t_status t)
       /\ (status_sent = Some JS.Null -> t_status stored = None)
       /\ (forall v, status_sent = Some v -> as_status B v = Some (t_status stored))
       /\ (priority_sent = None -> t_priority stored = t_priority t)
       /\ (priority_sent = Some JS.Null -> t_priority stored = None)
       /\ (forall v, priority_sent = Some v -> as_priority B v = Some (t_priority stored))
       /\ (due_date_sent = None -> t_due_date stored = t_due_date t)
       /\ (due_date_sent = Some JS.Null -> t_due_date stored = None)
       /\ (forall s, due_date_sent = Some (JS.Str s) ->
             t_due_date stored = timestamptz_in B s /\ timestamptz_in B s <> None)
       /\ (category_sent = None -> t_category stored = t_category t)
       /\ (category_sent = Some JS.Null -> t_category stored = None)
       /\ (forall s, category_sent = Some (JS.Str s) -> t_category stored = Some s)
       /\ t_id stored = t_id t
       /\ t_user_id stored = t_user_id t
       /\ t_completed_at stored = t_completed_at t)
    /\ (forall e : PostgrestError,
          typed_update B u = inl e ->
          fst result = json (error_body "Failed to update task") 500
          /\ db (snd result) = db w)
    /\ (forall s, due_date_sent = Some (JS.Str s) -> timestamptz_in B s = None ->
          exists e, typed_update B u = inl e)
    /\ (no_columns u = true -> db (snd result) = db w).
Proof.
  intros B w t taskId caller props u title_sent description_sent status_sent priority_sent
    due_date_sent category_sent result Hone Hn Hown Hu.
  destruct (updateData_fields _ _ _ _ _ _ _ Hu)
    as (Us & Up & Ud & Uc & Ut0 & Ut1 & Ud0 & Ud1 & Ud2).
  assert (Hrun : forall res d',
             update_task (createClient B (authenticated caller)) (db w) u taskId = (res, d') ->
             result
             = (match error res with
                | Some _ => json (error_body "Failed to update task") 500
                | None => json (task_body (data res)) 200
                end,
                {| db := d';
                   trace := trace w ++ [issued "tasks" Select; issued "tasks" Update] |})).
  { intros res d' Hup. subst result.
    unfold TaskRoute.PATCH, try_catch, bind, read, query, field, or_throw. simpl.
    rewrite (owner_result_own B caller (db w) taskId t Hn Hone Hown).
    unfold TaskRoute.not_owner. simpl. rewrite String.eqb_refl. simpl.
    fold title_sent description_sent status_sent priority_sent due_date_sent category_sent.
    rewrite Hu. simpl. rewrite title_rejected_never. simpl.
    rewrite Hup. simpl. rewrite <- app_assoc. simpl.
    destruct (error res); reflexivity. }
  split; [| split; [| split]].
  - intros c stored Hc Hcols.
    destruct (typed_update_fields _ _ _ Hc) as (Ct & Cd & Cs & Cp & Cdue & Ccat).
    rewrite Us in Cs. rewrite Up in Cp. rewrite Ud in Cdue. rewrite Uc in Ccat.
    assert (Hrows : filter (has_id (t_id t)) (tasks (rewrite_task c (t_id t) (db w)))
                    = [stored]).
    { unfold rewrite_task. simpl.
      rewrite (filter_updated_rows (t_id t) (set_columns c))
        by (intros x; apply set_columns_keeps_id).
      unfold only_task in Hone. now rewrite Hone. }
    split.
    { rewrite (Hrun _ _ (update_task_by_owner B caller (db w) taskId t u c
                           Hn Hone Hown Hcols Hc)). reflexivity. }
    split; [exact Hrows |].
    split; [intros x; apply other_rows_kept |].
    subst stored. simpl. rewrite Ct, Cd, Ccat.
    split; [intros E; now rewrite (Ut0 E) |].
    split; [intros s E; now rewrite (Ut1 s E) |].
    split; [intros E; now rewrite (Ud0 E) |].
    split; [intros E; now rewrite (Ud1 E) |].
    split; [intros s E; now rewrite (Ud2 s E) |].
    split; [intros E; rewrite E in Cs; exact (typed_absent _ _ _ Cs) |].
    split; [intros E; rewrite E in Cs; simpl in Cs; now inversion Cs |].
    split; [intros v E; rewrite E in Cs; exact (typed_present _ _ _ _ Cs) |].
    split; [intros E; rewrite E in Cp; exact (typed_absent _ _ _ Cp) |].
    split; [intros E; rewrite E in Cp; simpl in Cp; now inversion Cp |].
    split; [intros v E; rewrite E in Cp; exact (typed_present _ _ _ _ Cp) |].
    split; [intros E; rewrite E in Cdue; exact (typed_absent _ _ _ Cdue) |].
    split; [intros E; rewrite E in Cdue; simpl in Cdue; now inversion Cdue |].
    split.
    { intros s E. rewrite E in Cdue. unfold typed, as_timestamptz in Cdue. simpl in Cdue.
      destruct (timestamptz_in B s) as [x |]; simpl in Cdue; [| discriminate].
      inversion Cdue. simpl. split; [reflexivity | discriminate]. }
    split; [intros E; now rewrite E |].
    split; [intros E; now rewrite E |].
    split; [intros s E; now rewrite E |].
    repeat split.
  - intros e He.
    destruct (update_task_refused (createClient B (authenticated caller)) (db w) taskId u e He)
      as [e' Hup].
    rewrite (Hrun _ _ Hup). split; reflexivity.
  - intros s E Hbad. unfold typed_update. rewrite Ud, E.
    unfold typed, as_timestamptz. simpl. rewrite Hbad. simpl. eauto.
  - intros Hcols.
    pose proof (update_task_nothing (createClient B (authenticated caller)) (db w) taskId u
                  Hcols) as Hd.
    rewrite (Hrun _ _ (surjective_pairing _)). exact Hd.
Qed.

(** Alice completes her task and clears its category; title, priority
    and due date, which she did not send, stay as they were.  A due
    date that is no timestamp is refused and changes nothing. *)
Lemma update_applies_present_fields_witness :
  only_task Sample.store Sample.milk
  /\ names Sample.backend Sample.milk_id Sample.milk
  /\ TaskRoute.PATCH Sample.backend (authenticated Sample.alice) Sample.milk_id
       (Sample.body_of Sample.complete_and_clear) Sample.world
     = (json (task_body
                (Some (with_profile Sample.store
                         (set_columns Sample.completed_cleared Sample.milk)))) 200,
        {| db := rewrite_task Sample.completed_cleared Sample.milk_id Sample.store;
           trace := [issued "tasks" Select; issued "tasks" Update] |})
  /\ t_status (set_columns Sample.completed_cleared Sample.milk) = Some completed
  /\ t_category (set_columns Sample.completed_cleared Sample.milk) = None
  /\ t_title (set_columns Sample.completed_cleared Sample.milk) = "Buy milk"
  /\ t_priority (set_columns Sample.completed_cleared Sample.milk) = Some low
  /\ t_due_date (set_columns Sample.completed_cleared Sample.milk)
     = Some "2020-01-01T00:00:00+00:00"
  /\ TaskRoute.PATCH Sample.backend (authenticated Sample.alice) Sample.milk_id
       (Sample.body_of [("due_date", JS.Str "banana")]) Sample.world
     = (json (error_body "Failed to update task") 500,
        {| db := Sample.store; trace := [issued "tasks" Select; issued "tasks" Update] |}).
Proof.
  destruct (update_applies_present_fields Sample.backend Sample.world Sample.milk
              Sample.milk_id Sample.alice Sample.complete_and_clear
              {| u_title := None; u_description := None;
                 u_status := Some (JS.Str "completed"); u_priority := None;
                 u_due_date := None; u_category := Some JS.Null |}
              eq_refl eq_refl eq_refl eq_refl) as (Hgood & _).
  destruct (Hgood Sample.completed_cleared eq_refl eq_refl)
    as (Hrun & _ & _ & Htitle & _ & _ & _ & _ & _ & _ & Hstatus & Hprio & _ & _ & Hdue & _
        & _ & _ & Hcat & _).
  split; [reflexivity |].
  split; [reflexivity |].
  split; [exact Hrun |].
  split.
  { specialize (Hstatus _ eq_refl).
    apply (f_equal (fun o => match o with Some x => x | None => None end)) in Hstatus.
    symmetry. exact Hstatus. }
  split; [exact (Hcat eq_refl) |].
  split; [exact (Htitle eq_refl) |].
  split; [exact (Hprio eq_refl) |].
  split; [exact (Hdue eq_refl) |].
  destruct (update_applies_present_fields Sample.backend Sample.world Sample.milk
              Sample.milk_id Sample.alice [("due_date", JS.Str "banana")]
              {| u_title := None; u_description := None; u_status := None;
                 u_priority := None; u_due_date := Some (JS.Str "banana");
                 u_category := None |}
              eq_refl eq_refl eq_refl eq_refl) as (_ & Hbad & Hwhy & _).
  destruct (Hwhy "banana" eq_refl eq_refl) as [e He].
  destruct (Hbad e He) as [_ _]. reflexivity.
Defined.

(** C5 as stated fails: a title sent as null makes the handler throw
    before anything is written, so the request is answered 500 and a
    category sent as null alongside it is not cleared. *)
Lemma null_title_update_clears_nothing :
  TaskRoute.PATCH Sample.backend (authenticated Sample.alice) Sample.milk_id
    (Sample.body_of [("title", JS.Null); ("category", JS.Null)]) Sample.world
  = (json (error_body "Internal server error") 500,
     {| db := Sample.store; trace := [issued "tasks" Select] |})
  /\ ~ (forall (B : Backend) (w : World) (t : Task) (taskId : string) (caller : User)
               (props : list (string * JS.value)),
          only_task (db w) t ->
          names B taskId t ->
          t_user_id t = id caller ->
          JS.lookup "category" props = Some JS.Null ->
          exists t',
            filter (has_id (t_id t))
              (tasks (db (snd (TaskRoute.PATCH B (authenticated caller) taskId
                                 (Some (JS.Obj props)) w)))) = [t']
            /\ t_category t' = None).
Proof.
  split; [reflexivity |].
  intros H.
  destruct (H Sample.backend Sample.world Sample.milk Sample.milk_id Sample.alice
              [("title", JS.Null); ("category", JS.Null)] eq_refl eq_refl eq_refl eq_refl)
    as (t' & Hrow & Hcat).
  vm_compute in Hrow. inversion Hrow; subst t'. discriminate.
Qed.
(* ================================================================== *)
(** ** Create *)
(* ================================================================== *)

Lemma title_blank_missing (title : option JS.value) :
  title_blank title -> TasksRoute.title_missing title = Some true.
Proof.
  intros [-> | (s & -> & Hs)]; [reflexivity |].
  unfold TasksRoute.title_missing. simpl.
  destruct (String.eqb s ""); simpl; [reflexivity |].
  rewrite Hs. reflexivity.
Qed.

Lemma or_else_falsy (v : option JS.value) (dflt : JS.value) :
  JS.truthy v = false -> JS.or_else v dflt = dflt.
Proof. unfold JS.or_else. destruct v; [intros -> |]; reflexivity. Qed.

Lemma or_else_truthy (v : JS.value) (dflt : JS.value) :
  JS.truthy (Some v) = true -> JS.or_else (Some v) dflt = v.
Proof. unfold JS.or_else. intros ->. reflexivity. Qed.

Lemma taskData_fields caller title description status_sent priority due_date category
    payload :
  TasksRoute.taskData_of caller title description status_sent priority due_date category
    = Some payload ->
  i_user_id payload = id caller
  /\ i_status payload = JS.or_else status_sent (JS.Str "todo")
  /\ i_priority payload = JS.or_else priority (JS.Str "medium").
Proof.
  unfold TasksRoute.taskData_of. destruct title as [v |]; [| discriminate].
  destruct (JS.call_trim v); [| discriminate].
  destruct (trimmed_or_null description); [| discriminate].
  intros H. inversion H. simpl. repeat split; reflexivity.
Qed.

(** What an insert into [tasks] does: it stores nothing and fails, or
    it appends the one row it was given, every value accepted by its
    column, under the fresh identifier, for a caller who has a
    profile. *)
Lemma insert_task_cases (supabase : Client) (d : Db) (fresh : string)
    (payload : TaskInsert) :
  (exists e, insert_task supabase d fresh payload = (failed e, d))
  \/ (exists st pr due,
        let row := {| t_id := fresh; t_user_id := i_user_id payload;
                      t_title := i_title payload;
                      t_description := i_description payload;
                      t_status := st; t_priority := pr;
                      t_category := as_text (backend supabase) (i_category payload);
                      t_due_date := due; t_completed_at := None |} in
        insert_task supabase d fresh payload
        = (ok (with_profile d row), with_tasks d (tasks d ++ [row]))
        /\ as_status (backend supabase) (i_status payload) = Some st
        /\ as_priority (backend supabase) (i_priority payload) = Some pr
        /\ as_timestamptz (backend supabase) (i_due_date payload) = Some due
        /\ is_uid supabase (i_user_id payload) = true
        /\ has_profile d (i_user_id payload) = true
        /\ existsb (has_id fresh) (tasks d) = false).
Proof.
  unfold insert_task.
  destruct (as_timestamptz (backend supabase) (i_due_date payload)) as [due |];
    [| left; eauto].
  destruct (as_status (backend supabase) (i_status payload)) as [st |]; [| left; eauto].
  destruct (as_priority (backend supabase) (i_priority payload)) as [pr |];
    [| left; eauto].
  unfold can_insert_task.
  destruct (is_uid supabase (i_user_id payload)); simpl; [| left; eauto].
  destruct (has_profile d (i_user_id payload)); simpl; [| left; eauto].
  destruct (existsb (has_id fresh) (tasks d)); simpl; [left; eauto |].
  right. exists st, pr, due. repeat split; reflexivity.
Qed.

Lemma insert_task_row (supabase : Client) (d : Db) (fresh : string) (payload : TaskInsert)
    (res : Result TaskWithProfile) (d' : Db) :
  insert_task supabase d fresh payload = (res, d') ->
  error res = None ->
  exists row, tasks d' = tasks d ++ [row]
    /\ t_user_id row = i_user_id payload
    /\ as_status (backend supabase) (i_status payload) = Some (t_status row)
    /\ as_priority (backend supabase) (i_priority payload) = Some (t_priority row).
Proof.
  destruct (insert_task_cases supabase d fresh payload)
    as [[e ->] | (st & pr & due & -> & Hs & Hp & _)].
  - intros H; inversion H; subst; simpl; discriminate.
  - intros H _. inversion H; subst; clear H. eexists. simpl.
    repeat split; assumption.
Qed.

(** C4, as amended.  For an authenticated create request whose body is
    an object: a title that is missing or empty after trimming is
    answered 400 and nothing is stored; in the row data the handler
    builds, a status or priority that is absent or falsy becomes "todo"
    or "medium", while any other value is passed on as sent; and a
    request answered 201 has appended exactly one row, owned by the
    caller, whose status and priority are those defaults or the values
    sent. *)
Theorem create_task_validation_and_defaults :
  forall (B : Backend) (w : World) (caller : User) (props : list (string * JS.value))
         (fresh : string),
    let title_sent := JS.lookup "title" props in
    let description_sent := JS.lookup "description" props in
    let status_sent := JS.lookup "status" props in
    let priority_sent := JS.lookup "priority" props in
    let due_date_sent := JS.lookup "due_date" props in
    let category_sent := JS.lookup "category" props in
    let result := TasksRoute.POST B (authenticated caller) (Some (JS.Obj props)) fresh w in
    (title_blank title_sent ->
       result = (json (error_body "Title is required") 400, w))
    /\ (forall payload,
          TasksRoute.taskData_of caller title_sent description_sent status_sent
            priority_sent due_date_sent category_sent = Some payload ->
          (JS.truthy status_sent = false -> i_status payload = JS.Str "todo")
          /\ (JS.truthy priority_sent = false -> i_priority payload = JS.Str "medium")
          /\ (forall v, status_sent = Some v -> JS.truthy status_sent = true ->
                i_status payload = v)
          /\ (forall v, priority_sent = Some v -> JS.truthy priority_sent = true ->
                i_priority payload = v))
    /\ (status (fst result) = 201%Z ->
          exists row,
            tasks (db (snd result)) = tasks (db w) ++ [row]
            /\ t_user_id row = id caller
            /\ (JS.truthy status_sent = false -> t_status row = Some todo)
            /\ (JS.truthy priority_sent = false -> t_priority row = Some medium)
            /\ (forall v, status_sent = Some v -> JS.truthy status_sent = true ->
                  as_status B v = Some (t_status row))
            /\ (forall v, priority_sent = Some v -> JS.truthy priority_sent = true ->
                  as_priority B v = Some (t_priority row))).
Proof.
  intros B w caller props fresh title_sent description_sent status_sent priority_sent
    due_date_sent category_sent result.
  split; [| split].
  - intros Hb. subst result.
    unfold TasksRoute.POST, try_catch, bind, field. simpl.
    fold title_sent. rewrite (title_blank_missing _ Hb). simpl. now destruct w.
  - intros payload Hp. destruct (taskData_fields _ _ _ _ _ _ _ _ Hp) as (_ & Hs & Hpri).
    repeat split.
    + intros F. rewrite Hs. now apply or_else_falsy.
    + intros F. rewrite Hpri. now apply or_else_falsy.
    + intros v -> T. rewrite Hs. now apply or_else_truthy.
    + intros v -> T. rewrite Hpri. now apply or_else_truthy.
  - subst result.
    unfold TasksRoute.POST, try_catch, bind, field, or_throw, return_if, query. simpl.
    fold title_sent description_sent status_sent priority_sent due_date_sent category_sent.
    destruct (TasksRoute.title_missing title_sent) as [[|] |]; simpl; try discriminate.
    destruct (TasksRoute.taskData_of caller title_sent description_sent status_sent
                priority_sent due_date_sent category_sent) as [payload |] eqn:Hp;
      simpl; try discriminate.
    destruct (insert_task (createClient B (authenticated caller)) (db w) fresh payload)
      as [res d'] eqn:Hi. simpl.
    destruct (error res) eqn:He; simpl; try discriminate.
    intros _.
    destruct (insert_task_row _ _ _ _ _ _ Hi He) as (row & Ht & Hu & Hst & Hpr).
    cbn [backend createClient] in Hst, Hpr.
    destruct (taskData_fields _ _ _ _ _ _ _ _ Hp) as (Hc & Hs & Hpri).
    exists row. split; [exact Ht |].
    split; [now rewrite Hu |]. repeat split.
    + intros F. rewrite Hs, (or_else_falsy _ _ F) in Hst.
      change (Some (Some todo) = Some (t_status row)) in Hst. congruence.
    + intros F. rewrite Hpri, (or_else_falsy _ _ F) in Hpr.
      change (Some (Some medium) = Some (t_priority row)) in Hpr. congruence.
    + intros v E T. rewrite Hs, E, (or_else_truthy v _) in Hst;
        [exact Hst | now rewrite <- E].
    + intros v E T. rewrite Hpri, E, (or_else_truthy v _) in Hpr;
        [exact Hpr | now rewrite <- E].
Qed.

(** A title of blanks is refused; "Buy bread" with priority "low" and no
    status is stored as a todo of low priority. *)
Lemma create_task_validation_and_defaults_witness :
  title_blank (Some (JS.Str "   "))
  /\ TasksRoute.POST Sample.backend (authenticated Sample.alice)
       (Sample.body_of [("title", JS.Str "   ")]) Sample.bread_id Sample.world
     = (json (error_body "Title is required") 400, Sample.world)
  /\ exists row,
       tasks (db (snd (TasksRoute.POST Sample.backend (authenticated Sample.alice)
                         (Sample.body_of [("title", JS.Str "Buy bread");
                                          ("priority", JS.Str "low")])
                         Sample.bread_id Sample.world)))
       = tasks Sample.store ++ [row]
       /\ t_user_id row = Sample.alice_id
       /\ t_status row = Some todo
       /\ as_priority Sample.backend (JS.Str "low") = Some (t_priority row).
Proof.
  assert (Hblank : title_blank (Some (JS.Str "   "))).
  { right. exists "   ". split; reflexivity. }
  split; [exact Hblank |].
  destruct (create_task_validation_and_defaults Sample.backend Sample.world Sample.alice
              [("title", JS.Str "   ")] Sample.bread_id) as (H400 & _ & _).
  split; [exact (H400 Hblank) |].
  destruct (create_task_validation_and_defaults Sample.backend Sample.world Sample.alice
              [("title", JS.Str "Buy bread"); ("priority", JS.Str "low")] Sample.bread_id)
    as (_ & _ & H201).
  destruct (H201 eq_refl) as (row & Hrows & Hown & Hstatus & _ & _ & Hprio).
  exists row. split; [exact Hrows |]. split; [exact Hown |].
  split; [exact (Hstatus eq_refl) | exact (Hprio _ eq_refl eq_refl)].
Defined.

(** C4 as stated fails: a status and a priority outside the known
    values are not replaced by the defaults; they are passed on as sent,
    and the store, which knows no such values, refuses the row. *)
Lemma unknown_status_is_not_defaulted :
  as_status Sample.backend (JS.Str "archived") = None
  /\ as_priority Sample.backend (JS.Str "whenever") = None
  /\ option_map (fun payload => (i_status payload, i_priority payload))
       (TasksRoute.taskData_of Sample.alice
          (JS.lookup "title" Sample.archived_whenever)
          (JS.lookup "description" Sample.archived_whenever)
          (JS.lookup "status" Sample.archived_whenever)
          (JS.lookup "priority" Sample.archived_whenever)
          (JS.lookup "due_date" Sample.archived_whenever)
          (JS.lookup "category" Sample.archived_whenever))
     = Some (JS.Str "archived", JS.Str "whenever")
  /\ TasksRoute.POST Sample.backend (authenticated Sample.alice)
       (Sample.body_of Sample.archived_whenever) Sample.bread_id Sample.world
     = (json (error_body "Failed to create task") 500,
        {| db := Sample.store; trace := [issued "tasks" Insert] |})
  /\ ~ (forall (B : Backend) (caller : User) (props : list (string * JS.value))
               (v : JS.value) (payload : TaskInsert),
          JS.lookup "status" props = Some v ->
          as_status B v = None ->
          TasksRoute.taskData_of caller (JS.lookup "title" props)
            (JS.lookup "description" props) (JS.lookup "status" props)
            (JS.lookup "priority" props) (JS.lookup "due_date" props)
            (JS.lookup "category" props) = Some payload ->
          i_status payload = JS.Str "todo").
Proof.
  repeat split.
  intros H.
  specialize (H Sample.backend Sample.alice Sample.archived_whenever (JS.Str "archived") _
                eq_refl eq_refl eq_refl).
  discriminate.
Qed.

(* ================================================================== *)
(** ** Sharing *)
(* ================================================================== *)

Lemma select_share_some (supabase : Client) (d : Db) (taskId key userId : string)
    (s : TaskShare) :
  uuid_in (backend supabase) taskId = Some key ->
  filter (is_share key userId) (task_shares d) = [s] ->
  can_select_share supabase s = true ->
  data (select_share supabase d taskId userId) = Some (s_id s).
Proof.
  unfold select_share, with_uuid, visible_shares. intros -> Hs Hsee.
  rewrite filter_swap, Hs. simpl. rewrite Hsee. reflexivity.
Qed.

Lemma insert_share_duplicate (supabase : Client) (d : Db) (fresh key : string)
    (i : TaskShareInsert) :
  uuid_in (backend supabase) (si_task_id i) = Some key ->
  existsb (is_share key (si_shared_with_user_id i)) (task_shares d) = true ->
  exists e, insert_share supabase d fresh i = (failed e, d).
Proof.
  unfold insert_share. intros -> ->.
  destruct (negb (can_insert_share _ _ _ _)); [eauto |].
  destruct (negb (_ && _)); simpl; eauto.
Qed.

(** C6.  For a share-create request by the owner of the task whose
    [userEmail] resolves to a profile: when that profile is the owner's
    own the request is refused with 400; when it is somebody else's and
    the share row for (task, user), given by the owner, already exists
    the request is refused with 400; in both cases the store is left as
    it was and no insert is issued.  Whoever gave the share that exists
    for the pair, and even if the pair were stored more than once, the
    request fails and the store stays the same. *)
Theorem share_rejects_self_and_duplicate :
  forall (B : Backend) (w : World) (t : Task) (taskId : string) (caller : User)
         (props : list (string * JS.value)) (userEmail : JS.value)
         (targetUser : ProfileRef) (fresh : string),
    let result :=
      ShareRoute.POST B (authenticated caller) taskId (Some (JS.Obj props)) fresh w in
    only_task (db w) t ->
    names B taskId t ->
    t_user_id t = id caller ->
    JS.lookup "userEmail" props = Some userEmail ->
    JS.truthy (Some userEmail) = true ->
    select_profile_by_email (db w) userEmail = ok targetUser ->
    (pr_id targetUser = id caller ->
       result = (json (error_body "Cannot share task with yourself") 400,
                 {| db := db w;
                    trace := trace w ++ [issued "tasks" Select; issued "profiles" Select] |}))
    /\ (pr_id targetUser <> id caller ->
        forall s, filter (is_share (t_id t) (pr_id targetUser)) (task_shares (db w)) = [s] ->
          s_shared_by_user_id s = id caller ->
          result = (json (error_body "Task already shared with this user") 400,
                    {| db := db w;
                       trace := trace w ++ [issued "tasks" Select; issued "profiles" Select;
                                            issued "task_shares" Select] |}))
    /\ (existsb (is_share (t_id t) (pr_id targetUser)) (task_shares (db w)) = true ->
        db (snd result) = db w /\ (400 <= status (fst result))%Z).
Proof.
  intros B w t taskId caller props userEmail targetUser fresh result Hone Hn Hown Hprop
    Htruthy Hfound.
  subst result.
  unfold ShareRoute.POST, try_catch, bind, read, query, field. simpl.
  rewrite Hprop. rewrite Htruthy. simpl.
  rewrite (owner_result_own B caller (db w) taskId t Hn Hone Hown). simpl.
  rewrite String.eqb_refl. simpl.
  rewrite Hfound. simpl.
  split; [| split].
  - intros Hself. rewrite Hself, String.eqb_refl. simpl.
    repeat rewrite <- app_assoc. reflexivity.
  - intros Hother s Hs Hby.
    replace (String.eqb (pr_id targetUser) (id caller)) with false
      by (symmetry; now apply String.eqb_neq).
    simpl.
    rewrite (select_share_some (createClient B (authenticated caller)) (db w) taskId
               (t_id t) (pr_id targetUser) s Hn Hs)
      by (apply can_select_share_iff; now left).
    simpl. repeat rewrite <- app_assoc. reflexivity.
  - intros Hex.
    destruct (String.eqb (pr_id targetUser) (id caller)); simpl;
      [split; [reflexivity | lia] |].
    destruct (data (select_share _ (db w) taskId (pr_id targetUser))); simpl;
      [split; [reflexivity | lia] |].
    destruct (insert_share_duplicate (createClient B (authenticated caller)) (db w) fresh
                (t_id t)
                {| si_task_id := taskId; si_shared_with_user_id := pr_id targetUser;
                   si_shared_by_user_id := id caller |} Hn Hex) as [e ->].
    simpl. split; [reflexivity | lia].
Qed.

(** Alice cannot share her task with herself, nor a second time with
    Bob. *)
Lemma share_rejects_self_and_duplicate_witness :
  ShareRoute.POST Sample.backend (authenticated Sample.alice) Sample.milk_id
    (Sample.body_of [("userEmail", JS.Str "alice@example.com")]) Sample.next_share_id
    Sample.world
  = (json (error_body "Cannot share task with yourself") 400,
     {| db := Sample.store;
        trace := [issued "tasks" Select; issued "profiles" Select] |})
  /\ ShareRoute.POST Sample.backend (authenticated Sample.alice) Sample.milk_id
       (Sample.body_of [("userEmail", JS.Str "bob@example.com")]) Sample.next_share_id
       Sample.world
     = (json (error_body "Task already shared with this user") 400,
        {| db := Sample.store;
           trace := [issued "tasks" Select; issued "profiles" Select;
                     issued "task_shares" Select] |}).
Proof.
  split.
  - destruct (share_rejects_self_and_duplicate Sample.backend Sample.world Sample.milk
                Sample.milk_id Sample.alice
                [("userEmail", JS.Str "alice@example.com")]
                (JS.Str "alice@example.com") Sample.alice_ref Sample.next_share_id
                eq_refl eq_refl eq_refl eq_refl eq_refl eq_refl) as (Hself & _ & _).
    exact (Hself eq_refl).
  - destruct (share_rejects_self_and_duplicate Sample.backend Sample.world Sample.milk
                Sample.milk_id Sample.alice
                [("userEmail", JS.Str "bob@example.com")]
                (JS.Str "bob@example.com") Sample.bob_ref Sample.next_share_id
                eq_refl eq_refl eq_refl eq_refl eq_refl eq_refl) as (_ & Hdup & Hany).
    destruct (Hany eq_refl) as [_ _].
    apply (Hdup ltac:(simpl; discriminate) Sample.milk_for_bob); reflexivity.
Defined.
(* ================================================================== *)
(** ** Gatekeeper *)
(* ================================================================== *)

Lemma startsWith_iff (path route : string) :
  Middleware.startsWith path route = true <-> exists rest, path = (route ++ rest)%string.
Proof.
  revert path. induction route as [| r route IH]; intros path; simpl.
  - split; [intros _; now exists path | reflexivity].
  - destruct path as [| p path].
    + split; [discriminate | intros (rest & H); discriminate].
    + rewrite andb_true_iff, IH, Ascii.eqb_eq. split.
      * intros (-> & rest & ->). now exists rest.
      * intros (rest & H). inversion H; subst. split; [reflexivity | now exists rest].
Qed.

Lemma isPublicRoute_iff (path : string) :
  Middleware.isPublicRoute path = true
  <-> exists rest, path = ("/login" ++ rest)%string \/ path = ("/signup" ++ rest)%string.
Proof.
  unfold Middleware.isPublicRoute, Middleware.publicRoutes.
  cbn [existsb]. rewrite !orb_true_iff, !startsWith_iff. split.
  - intros [(rest & H) | [(rest & H) | H]];
      [exists rest; now left | exists rest; now right | discriminate].
  - intros (rest & [H | H]); [left | right; left]; now exists rest.
Qed.

Lemma searchParams_set_in (name value : string) (params : list (string * string)) :
  In (name, value) (Middleware.searchParams_set name value params).
Proof.
  induction params as [| [k v] rest IH]; simpl; [now left |].
  destruct (String.eqb k name); simpl; [now left | now right].
Qed.

Lemma searchParams_set_only (name value : string) (params : list (string * string))
    (v : string) :
  In (name, v) (Middleware.searchParams_set name value params) -> v = value.
Proof.
  induction params as [| [k x] rest IH]; simpl.
  - intros [H | []]. now inversion H.
  - destruct (String.eqb k name) eqn:E; simpl.
    + intros [H | H]; [now inversion H |].
      apply filter_In in H. destruct H as [_ H]. simpl in H.
      rewrite String.eqb_refl in H. discriminate.
    + intros [H | H]; [| now apply IH].
      inversion H; subst. rewrite String.eqb_refl in E. discriminate.
Qed.

(** C7, as amended.  Without a session, a path that does not begin with
    /login or /signup is redirected to /login with the original path as
    the one [redirectedFrom] parameter, and a path that begins with one
    of them passes through; with a session, a path that is exactly
    /login or /signup is redirected to /, and every other path passes
    through. *)
Theorem gatekeeper_decision :
  forall (user : option User) (nextUrl : Middleware.URL),
    let path := Middleware.pathname nextUrl in
    let to_login :=
      {| Middleware.pathname := "/login";
         Middleware.searchParams :=
           Middleware.searchParams_set "redirectedFrom" path
             (Middleware.searchParams nextUrl) |} in
    (user = None ->
     (forall rest, path <> ("/login" ++ rest)%string /\ path <> ("/signup" ++ rest)%string) ->
       Middleware.middleware user nextUrl = Middleware.Redirect to_login
       /\ In ("redirectedFrom", path) (Middleware.searchParams to_login)
       /\ (forall v, In ("redirectedFrom", v) (Middleware.searchParams to_login) -> v = path))
    /\ (user <> None -> path = "/login" \/ path = "/signup" ->
          Middleware.middleware user nextUrl
          = Middleware.Redirect
              {| Middleware.pathname := "/";
                 Middleware.searchParams := Middleware.searchParams nextUrl |})
    /\ (user = None ->
        (exists rest, path = ("/login" ++ rest)%string \/ path = ("/signup" ++ rest)%string) ->
          Middleware.middleware user nextUrl = Middleware.Next)
    /\ (user <> None -> path <> "/login" -> path <> "/signup" ->
          Middleware.middleware user nextUrl = Middleware.Next).
Proof.
  intros user nextUrl path to_login. unfold Middleware.middleware. fold path.
  split; [| split; [| split]].
  - intros -> Hnot. simpl. split; [| split].
    + destruct (Middleware.isPublicRoute path) eqn:E; [| reflexivity].
      apply isPublicRoute_iff in E. destruct E as (rest & [E | E]);
        destruct (Hnot rest) as [N1 N2]; contradiction.
    + apply searchParams_set_in.
    + apply searchParams_set_only.
  - intros Hu Hp. destruct user as [u |]; [| contradiction]. simpl.
    destruct Hp as [-> | ->]; reflexivity.
  - intros -> Hp. simpl. apply isPublicRoute_iff in Hp. now rewrite Hp.
  - intros Hu N1 N2. destruct user as [u |]; [| contradiction]. simpl.
    apply String.eqb_neq in N1, N2. now rewrite N1, N2.
Qed.

(** A visitor asking for /tasks is sent to /login and keeps the query
    string; Alice asking for /login is sent to /; a visitor on /signup
    and Alice on /tasks pass. *)
Lemma gatekeeper_decision_witness :
  Middleware.middleware None
    {| Middleware.pathname := "/tasks"; Middleware.searchParams := [("tab", "mine")] |}
  = Middleware.Redirect
      {| Middleware.pathname := "/login";
         Middleware.searchParams := [("tab", "mine"); ("redirectedFrom", "/tasks")] |}
  /\ Middleware.middleware (Some Sample.alice)
       {| Middleware.pathname := "/login"; Middleware.searchParams := [] |}
     = Middleware.Redirect {| Middleware.pathname := "/"; Middleware.searchParams := [] |}
  /\ Middleware.middleware None
       {| Middleware.pathname := "/signup"; Middleware.searchParams := [] |}
     = Middleware.Next
  /\ Middleware.middleware (Some Sample.alice)
       {| Middleware.pathname := "/tasks"; Middleware.searchParams := [] |}
     = Middleware.Next.
Proof.
  split; [| split; [| split]].
  - destruct (gatekeeper_decision None
                {| Middleware.pathname := "/tasks";
                   Middleware.searchParams := [("tab", "mine")] |}) as (H & _).
    apply H; [reflexivity |].
    intros rest. split; simpl; discriminate.
  - destruct (gatekeeper_decision (Some Sample.alice)
                {| Middleware.pathname := "/login"; Middleware.searchParams := [] |})
      as (_ & H & _).
    apply H; [discriminate | now left].
  - destruct (gatekeeper_decision None
                {| Middleware.pathname := "/signup"; Middleware.searchParams := [] |})
      as (_ & _ & H & _).
    apply H; [reflexivity |]. exists "". now right.
  - destruct (gatekeeper_decision (Some Sample.alice)
                {| Middleware.pathname := "/tasks"; Middleware.searchParams := [] |})
      as (_ & _ & _ & H).
    apply H; simpl; discriminate.
Defined.

(** C7 as stated fails, whatever is meant by an auth page: no predicate
    on paths makes the three-way rule of the specification agree with
    the gatekeeper, because /login/reset passes both without and with a
    session. *)
Lemma no_single_notion_of_auth_page :
  ~ exists auth_page : string -> bool,
      forall (user : option User) (nextUrl : Middleware.URL),
        Middleware.middleware user nextUrl = stated_rule auth_page user nextUrl.
Proof.
  intros (auth_page & H).
  pose (url := {| Middleware.pathname := "/login/reset"; Middleware.searchParams := [] |}).
  pose proof (H None url) as H1.
  pose proof (H (Some Sample.alice) url) as H2.
  unfold stated_rule in H1, H2. cbv [Middleware.pathname url] in H1, H2.
  destruct (auth_page "/login/reset"); [vm_compute in H2 | vm_compute in H1];
    discriminate.
Qed.

(** C10.  For a caller with a session, a path that strictly extends
    /login or /signup passes through: it counts as a public route by the
    prefix test, so the first branch is skipped, and it is not equal to
    /login or /signup, so the second branch is skipped too. *)
Theorem signed_in_below_auth_page_passes :
  forall (caller : User) (nextUrl : Middleware.URL) (rest : string),
    let path := Middleware.pathname nextUrl in
    rest <> "" ->
    path = ("/login" ++ rest)%string \/ path = ("/signup" ++ rest)%string ->
    Middleware.middleware (Some caller) nextUrl = Middleware.Next
    /\ Middleware.isPublicRoute path = true
    /\ (String.eqb path "/login" || String.eqb path "/signup") = false.
Proof.
  intros caller nextUrl rest path Hrest Hp.
  assert (Hpub : Middleware.isPublicRoute path = true)
    by (apply isPublicRoute_iff; now exists rest).
  assert (Hne : (String.eqb path "/login" || String.eqb path "/signup") = false).
  { apply orb_false_iff.
    destruct rest as [| c rest]; [contradiction |].
    destruct Hp as [E | E]; rewrite E; split; apply String.eqb_neq; simpl; discriminate. }
  split; [| split; assumption].
  unfold Middleware.middleware. fold path. simpl. now rewrite Hne.
Qed.

Lemma signed_in_below_auth_page_passes_witness :
  Middleware.middleware (Some Sample.alice)
    {| Middleware.pathname := "/login/anything"; Middleware.searchParams := [] |}
  = Middleware.Next
  /\ Middleware.isPublicRoute "/login/anything" = true
  /\ (String.eqb "/login/anything" "/login" || String.eqb "/login/anything" "/signup")
     = false.
Proof.
  apply (signed_in_below_auth_page_passes Sample.alice
           {| Middleware.pathname := "/login/anything"; Middleware.searchParams := [] |}
           "/anything").
  - discriminate.
  - now left.
Defined.

(* ================================================================== *)
(** ** User search *)
(* ================================================================== *)

Lemma in_firstn {A : Type} (n : nat) (l : list A) (x : A) : In x (firstn n l) -> In x l.
Proof.
  revert l. induction n as [| n IH]; intros [| y l]; simpl; try tauto.
  intros [H | H]; [now left | right; now apply IH].
Qed.

Lemma search_results_sound (ilike : string -> string -> bool) (d : Db)
    (pattern userId : string) (n : nat) (u : ProfileRef) :
  In u (firstn n
          (map profile_ref
             (filter (fun p => ilike (p_email p) pattern && negb (String.eqb (p_id p) userId))
                     (profiles d)))) ->
  exists p, In p (profiles d) /\ u = profile_ref p
            /\ ilike (p_email p) pattern = true /\ p_id p <> userId.
Proof.
  intros H. apply in_firstn in H. apply in_map_iff in H.
  destruct H as (p & <- & Hp). apply filter_In in Hp. destruct Hp as [Hin Hc].
  apply andb_true_iff in Hc. destruct Hc as [Hl Hn].
  exists p. repeat split; try assumption.
  apply negb_true_iff in Hn. now apply String.eqb_neq.
Qed.

(** The pattern operator of the examples does a partial match on plain
    queries. *)
Lemma plain_char_not_special (c : ascii) :
  plain_char c = true -> Ascii.eqb c "%" = false /\ Ascii.eqb c "_" = false.
Proof.
  unfold plain_char. simpl. rewrite negb_true_iff, !orb_false_iff. tauto.
Qed.

Lemma like_any_run (v : string) :
  (fix any (v : string) : bool :=
     Sample.like "" v
     || match v with
        | EmptyString => false
        | String _ v' => any v'
        end) v = true.
Proof. induction v as [| c v IH]; simpl; [reflexivity | exact IH]. Qed.

Lemma like_plain_prefix (q v : string) :
  plain q = true -> Sample.like (q ++ "%") v = starts_with_ci v q.
Proof.
  revert v. induction q as [| p q IH]; intros v Hq.
  - simpl. rewrite like_any_run. now destruct v.
  - simpl in Hq. apply andb_true_iff in Hq. destruct Hq as [Hp Hq].
    destruct (plain_char_not_special p Hp) as [H1 H2].
    simpl. rewrite H1. destruct v as [| c v]; [reflexivity |].
    rewrite H2. simpl. now rewrite IH.
Qed.

Lemma sample_ilike_partial_match : partial_match Sample.ilike.
Proof.
  intros value q Hq. unfold Sample.ilike.
  change ("%" ++ q ++ "%")%string with (String "%" (q ++ "%")).
  assert (Hstep : forall v,
             Sample.like (String "%" (q ++ "%")) v
             = Sample.like (q ++ "%") v
               || match v with
                  | EmptyString => false
                  | String _ v' => Sample.like (String "%" (q ++ "%")) v'
                  end)
    by (intros [| c v]; reflexivity).
  induction value as [| c value IH]; rewrite Hstep, (like_plain_prefix q _ Hq).
  - reflexivity.
  - rewrite IH. reflexivity.
Qed.

(** C8, as amended.  For an authenticated search: a query that is
    absent, empty or blank is answered 200 with no users and no query
    is issued; any other query is answered 200, after one select on
    profiles that changes nothing, with the first 10 of the profiles
    other than the caller's whose email the pattern operator of the
    backend accepts for the query between two percent signs.  For a
    query without pattern characters, and an operator that does with
    such a query what a partial match asks for, these are the first 10
    profiles of others whose email contains the query, letter case
    aside. *)
Theorem user_search_behaviour :
  forall (ilike : string -> string -> bool) (w : World) (caller : User),
    let matches (q : string) :=
      firstn 10
        (map profile_ref
           (filter (fun p => ilike (p_email p) ("%" ++ q ++ "%")%string
                             && negb (String.eqb (p_id p) (id caller)))
                   (profiles (db w)))) in
    (forall query, query = None \/ (exists q, query = Some q /\ JS.trim q = "") ->
       SearchRoute.GET ilike (authenticated caller) query w
       = (json (users_body (Some [])) 200, w))
    /\ (forall q, JS.trim q <> "" ->
          SearchRoute.GET ilike (authenticated caller) (Some q) w
          = (json (users_body (Some (matches q))) 200,
             {| db := db w; trace := trace w ++ [issued "profiles" Select] |})
          /\ (length (matches q) <= 10)%nat
          /\ (forall u, In u (matches q) ->
                pr_id u <> id caller
                /\ exists p, In p (profiles (db w)) /\ u = profile_ref p
                             /\ ilike (p_email p) ("%" ++ q ++ "%")%string = true))
    /\ (partial_match ilike ->
        forall q, JS.trim q <> "" -> plain q = true ->
          fst (SearchRoute.GET ilike (authenticated caller) (Some q) w)
          = json (users_body (Some (partial_matches (db w) caller q))) 200
          /\ (forall p, In (profile_ref p) (partial_matches (db w) caller q) ->
                In p (profiles (db w)) ->
                contains_ci (p_email p) q = true)).
Proof.
  intros ilike w caller matches.
  assert (Hfull : forall q, JS.trim q <> "" ->
            SearchRoute.GET ilike (authenticated caller) (Some q) w
            = (json (users_body (Some (matches q))) 200,
               {| db := db w; trace := trace w ++ [issued "profiles" Select] |})).
  { intros q Hq. unfold SearchRoute.GET, try_catch, bind, read, query.
    cbn -[SearchRoute.no_query].
    replace (SearchRoute.no_query (Some q)) with false; [reflexivity |].
    symmetry. simpl. apply orb_false_iff. split; apply String.eqb_neq; [| exact Hq].
    intros ->. now apply Hq. }
  split; [| split].
  - intros query [-> | (q & -> & Hq)].
    + unfold SearchRoute.GET, try_catch, bind. simpl. now destruct w.
    + unfold SearchRoute.GET, try_catch, bind. cbn -[SearchRoute.no_query].
      replace (SearchRoute.no_query (Some q)) with true.
      * simpl. now destruct w.
      * symmetry. simpl. apply orb_true_iff. right. now apply String.eqb_eq.
  - intros q Hq. split; [now apply Hfull |]. split; [apply firstn_le_length |].
    intros u Hu.
    destruct (search_results_sound _ _ _ _ _ _ Hu) as (p & Hin & -> & Hl & Hne).
    split; [exact Hne | now exists p].
  - intros Hpm q Hq Hplain.
    assert (Hsame : matches q = partial_matches (db w) caller q).
    { subst matches. unfold partial_matches. cbv beta. do 2 f_equal.
      apply filter_ext. intros p. now rewrite (Hpm (p_email p) q Hplain). }
    split.
    + rewrite (Hfull q Hq). cbn [fst]. now rewrite Hsame.
    + intros p Hu Hin. unfold partial_matches in Hu.
      apply in_firstn in Hu. apply in_map_iff in Hu. destruct Hu as (p' & Hp' & Hf).
      apply filter_In in Hf. destruct Hf as [_ Hc]. apply andb_true_iff in Hc.
      destruct Hc as [Hc _].
      assert (He : p_email p' = p_email p)
        by (apply (f_equal pr_email) in Hp'; exact Hp').
      now rewrite <- He.
Qed.

(** Alice typing nothing, or a blank, gets nothing and no query is
    sent; typing "EXAMPLE" she gets Bob and Carol, whose addresses hold
    the word in lower case, but not herself. *)
Lemma user_search_behaviour_witness :
  SearchRoute.GET Sample.ilike (authenticated Sample.alice) (Some "  ") Sample.world
  = (json (users_body (Some [])) 200, Sample.world)
  /\ SearchRoute.GET Sample.ilike (authenticated Sample.alice) (Some "EXAMPLE") Sample.world
     = (json (users_body
                (Some [Sample.bob_ref;
                       {| pr_id := Sample.carol_id; pr_full_name := Some "Carol";
                          pr_email := "carol@example.com" |}])) 200,
        {| db := Sample.store; trace := [issued "profiles" Select] |})
  /\ partial_match Sample.ilike
  /\ fst (SearchRoute.GET Sample.ilike (authenticated Sample.alice) (Some "EXAMPLE")
            Sample.world)
     = json (users_body (Some (partial_matches Sample.store Sample.alice "EXAMPLE"))) 200.
Proof.
  destruct (user_search_behaviour Sample.ilike Sample.world Sample.alice)
    as (Hempty & Hfull & Hpartial).
  split; [| split; [| split]].
  - apply Hempty. right. exists "  ". split; reflexivity.
  - apply (Hfull "EXAMPLE"). vm_compute. discriminate.
  - exact sample_ilike_partial_match.
  - apply (Hpartial sample_ilike_partial_match "EXAMPLE").
    + vm_compute. discriminate.
    + reflexivity.
Defined.

(** C8 as stated fails, even for a pattern operator that does a
    partial match on plain queries.  A query of one blank is not empty,
    yet it is answered with no users where a partial match finds the
    address with a blank in it; and a query of one underscore is
    answered with Bob and Carol, whose addresses hold no underscore. *)
Lemma search_is_not_always_a_partial_match :
  (let d := {| profiles := [Sample.profile_for Sample.alice "Alice" "alice@example.com";
                            Sample.profile_for Sample.bob "Bob" "bob smith@example.com"];
               tasks := []; task_shares := []; comments := []; attachments := [] |} in
   SearchRoute.GET Sample.ilike (authenticated Sample.alice) (Some " ")
     {| db := d; trace := [] |}
   = (json (users_body (Some [])) 200, {| db := d; trace := [] |})
   /\ partial_matches d Sample.alice " "
      = [{| pr_id := Sample.bob_id; pr_full_name := Some "Bob";
            pr_email := "bob smith@example.com" |}])
  /\ fst (SearchRoute.GET Sample.ilike (authenticated Sample.alice) (Some "_") Sample.world)
     = json (users_body
               (Some [Sample.bob_ref;
                      {| pr_id := Sample.carol_id; pr_full_name := Some "Carol";
                         pr_email := "carol@example.com" |}])) 200
  /\ partial_matches Sample.store Sample.alice "_" = []
  /\ ~ (forall (ilike : string -> string -> bool) (w : World) (caller : User) (q : string),
          partial_match ilike ->
          q <> "" ->
          fst (SearchRoute.GET ilike (authenticated caller) (Some q) w)
          = json (users_body (Some (partial_matches (db w) caller q))) 200).
Proof.
  split; [split; reflexivity |]. split; [reflexivity |]. split; [reflexivity |].
  intros H.
  specialize (H Sample.ilike Sample.world Sample.alice "_" sample_ilike_partial_match).
  assert (Hq : "_" <> "") by discriminate.
  specialize (H Hq). vm_compute in H. discriminate.
Qed.
(* ================================================================== *)
(** ** Overdue *)
(* ================================================================== *)

(** C9.  With a date parser for which the empty string is not a date, a
    task is overdue exactly when it has a due date whose time lies
    before now and its status is not completed (a task without a status
    included); a completed task is never overdue. *)
Theorem overdue_exactly_when_past_due_and_open :
  forall (Date_parse : string -> option Z) (task : Task) (now : Z),
    Date_parse "" = None ->
    (TaskList.isOverdue Date_parse task now = true
     <-> (exists due time, t_due_date task = Some due
                           /\ Date_parse due = Some time /\ (time < now)%Z)
         /\ t_status task <> Some completed)
    /\ (t_status task = Some completed -> TaskList.isOverdue Date_parse task now = false).
Proof.
  intros Date_parse task now Hempty. unfold TaskList.isOverdue. split.
  - destruct (t_due_date task) as [due |].
    + rewrite !andb_true_iff, negb_true_iff. simpl. split.
      * intros [[Hd Hs] Hb]. split.
        -- exists due. destruct (Date_parse due) as [time |]; [| discriminate].
           exists time. simpl in Hb. apply Z.ltb_lt in Hb. auto.
        -- intros E. now rewrite E in Hs.
      * intros [(due' & time & E & Hp & Hlt) Hs]. inversion E; subst due'.
        repeat split.
        -- destruct (String.eqb due "") eqn:Ee; [| reflexivity].
           apply String.eqb_eq in Ee. subst due. congruence.
        -- destruct (t_status task) as [[| |] |]; try reflexivity. contradiction.
        -- rewrite Hp. simpl. now apply Z.ltb_lt.
    + split; [discriminate | intros [(due & time & E & _) _]; discriminate].
  - intros ->. destruct (t_due_date task); [| reflexivity].
    simpl. now rewrite andb_false_r.
Qed.

(** Alice's open task, due at the start of 2020, is overdue one
    millisecond later. *)
Lemma overdue_exactly_when_past_due_and_open_witness :
  Sample.Date_parse "" = None
  /\ TaskList.isOverdue Sample.Date_parse Sample.milk 1577836800001%Z = true.
Proof.
  split; [reflexivity |].
  destruct (overdue_exactly_when_past_due_and_open Sample.Date_parse Sample.milk
              1577836800001%Z eq_refl) as ((_ & Hback) & _).
  apply Hback. split.
  - exists "2020-01-01T00:00:00+00:00", 1577836800000%Z.
    split; [reflexivity | split; [reflexivity | lia]].
  - simpl. discriminate.
Defined.

(* ================================================================== *)
(** ** Session check and reads *)
(* ================================================================== *)

Lemma require_user_denied (auth : AuthResponse) (w : World) :
  unauthenticated auth ->
  require_user auth w = (Return (json (error_body "Unauthorized") 401), w).
Proof.
  intros Hno. unfold require_user, respond.
  destruct Hno as [-> | Herr]; [reflexivity |].
  destruct (user auth); [now rewrite Herr | reflexivity].
Qed.

(** X1.  Every route handler checks the session first: without a valid
    session (no user, or an error from the session lookup) each of the
    eight handlers answers 401, issues no query and leaves the world as
    it was, whatever else the request carries. *)
Theorem no_session_is_unauthorized :
  forall (B : Backend) (created_at : string -> Z) (ilike : string -> string -> bool)
         (auth : AuthResponse) (taskId fresh : string) (raw : option JS.value)
         (q : option string) (w : World),
    unauthenticated auth ->
    TaskRoute.GET B auth taskId w = (json (error_body "Unauthorized") 401, w)
    /\ TaskRoute.PATCH B auth taskId raw w = (json (error_body "Unauthorized") 401, w)
    /\ TaskRoute.DELETE B auth taskId w = (json (error_body "Unauthorized") 401, w)
    /\ TasksRoute.POST B auth raw fresh w = (json (error_body "Unauthorized") 401, w)
    /\ ShareRoute.POST B auth taskId raw fresh w = (json (error_body "Unauthorized") 401, w)
    /\ UnshareRoute.DELETE B auth taskId raw w = (json (error_body "Unauthorized") 401, w)
    /\ SearchRoute.GET ilike auth q w = (json (error_body "Unauthorized") 401, w)
    /\ TasksListRoute.GET created_at B auth w
       = (TasksListRoute.plain (json (error_body "Unauthorized") 401), w).
Proof.
  intros B created_at ilike auth taskId fresh raw q w Hno.
  pose proof (require_user_denied auth w Hno) as Hreq.
  unfold TaskRoute.GET, TaskRoute.PATCH, TaskRoute.DELETE, TasksRoute.POST,
    ShareRoute.POST, UnshareRoute.DELETE, SearchRoute.GET, TasksListRoute.GET,
    try_catch, bind.
  rewrite Hreq. repeat split.
Qed.

Lemma no_session_is_unauthorized_witness :
  unauthenticated {| user := Some Sample.bob; authError := true |}
  /\ TaskRoute.DELETE Sample.backend {| user := Some Sample.bob; authError := true |}
       Sample.milk_id Sample.world
     = (json (error_body "Unauthorized") 401, Sample.world)
  /\ TasksRoute.POST Sample.backend {| user := None; authError := false |}
       (Sample.body_of [("title", JS.Str "Buy bread")]) Sample.bread_id Sample.world
     = (json (error_body "Unauthorized") 401, Sample.world).
Proof.
  assert (H1 : unauthenticated {| user := Some Sample.bob; authError := true |})
    by (right; reflexivity).
  assert (H2 : unauthenticated {| user := None; authError := false |})
    by (left; reflexivity).
  split; [exact H1 |]. split.
  - exact (proj1 (proj2 (proj2
      (no_session_is_unauthorized Sample.backend (fun _ => 0%Z) Sample.ilike _
         Sample.milk_id Sample.bread_id None None Sample.world H1)))).
  - exact (proj1 (proj2 (proj2 (proj2
      (no_session_is_unauthorized Sample.backend (fun _ => 0%Z) Sample.ilike _
         Sample.milk_id Sample.bread_id
         (Sample.body_of [("title", JS.Str "Buy bread")]) None Sample.world H2))))).
Defined.

Lemma canAccessTask_reads (supabase : Client) (taskId userId : string) (w : World) :
  exists b, TaskRoute.canAccessTask supabase taskId userId w
            = (Continue b, {| db := db w; trace := trace w ++ [issued "tasks" Select] |}).
Proof.
  unfold TaskRoute.canAccessTask, bind, read, query, ret. simpl.
  destruct (data (select_task_access supabase (db w) taskId)) as [[owner shares] |];
    eexists; reflexivity.
Qed.

(** X2.  The three reading handlers only read: for every request,
    fetch-one, user search and the task list leave the store exactly as
    it was, and every query they issue is a select. *)
Theorem reading_handlers_only_read :
  forall (B : Backend) (created_at : string -> Z) (ilike : string -> string -> bool)
         (auth : AuthResponse) (taskId : string) (q : option string) (w : World),
    (db (snd (TaskRoute.GET B auth taskId w)) = db w
     /\ Forall (fun x => q_op x = Select)
          (new_queries w (snd (TaskRoute.GET B auth taskId w))))
    /\ (db (snd (SearchRoute.GET ilike auth q w)) = db w
        /\ Forall (fun x => q_op x = Select)
             (new_queries w (snd (SearchRoute.GET ilike auth q w))))
    /\ (db (snd (TasksListRoute.GET created_at B auth w)) = db w
        /\ Forall (fun x => q_op x = Select)
             (new_queries w (snd (TasksListRoute.GET created_at B auth w)))).
Proof.
  intros B created_at ilike auth taskId q w.
  assert (Hnil : forall l : list Query, skipn (length l) l = []).
  { induction l; simpl; auto. }
  unfold new_queries.
  destruct (user auth) as [caller |] eqn:Hu; [destruct (authError auth) eqn:He |].
  2: { (* a valid session *)
    split; [| split].
    - unfold TaskRoute.GET, try_catch, bind, require_user. rewrite Hu, He. simpl.
      destruct (canAccessTask_reads (createClient B auth) taskId (id caller) w) as (b & ->).
      destruct b; simpl.
      + unfold read, query. simpl.
        destruct (error (select_task_detail _ (db w) taskId)); simpl;
          (split; [reflexivity |]); rewrite <- app_assoc, skipn_app_exact;
          repeat constructor.
      + split; [reflexivity |]. rewrite skipn_app_exact. repeat constructor.
    - unfold SearchRoute.GET, try_catch, bind, require_user. rewrite Hu, He.
      destruct q as [s |]; cbn -[SearchRoute.no_query].
      + destruct (SearchRoute.no_query (Some s)); cbn -[SearchRoute.no_query].
        * split; [reflexivity |]. rewrite Hnil. constructor.
        * split; [reflexivity |]. rewrite skipn_app_exact. repeat constructor.
      + split; [reflexivity |]. rewrite Hnil. constructor.
    - unfold TasksListRoute.GET, bind, require_user. rewrite Hu, He. simpl.
      split; [reflexivity |]. rewrite skipn_app_exact. repeat constructor. }
  all: assert (Hno : unauthenticated auth)
         by (unfold unauthenticated; rewrite ?Hu, ?He; auto).
  all: pose proof (require_user_denied auth w Hno) as Hreq.
  all: unfold TaskRoute.GET, SearchRoute.GET, TasksListRoute.GET, try_catch, bind.
  all: rewrite Hreq; simpl.
  all: rewrite Hnil; repeat split; constructor.
Qed.

(* ================================================================== *)
(** ** What each writing handler can do to the store *)
(* ================================================================== *)

Lemma POST_effect (B : Backend) (auth : AuthResponse) (raw : option JS.value)
    (fresh : string) (w : World) :
  db (snd (TasksRoute.POST B auth raw fresh w)) = db w
  \/ exists row,
       db (snd (TasksRoute.POST B auth raw fresh w))
       = with_tasks (db w) (tasks (db w) ++ [row])
       /\ t_id row = fresh
       /\ existsb (has_id fresh) (tasks (db w)) = false.
Proof.
  unfold TasksRoute.POST, try_catch, bind, require_user, query, return_if,
    request_json, field, or_throw, respond, ret, throw.
  destruct (user auth) as [caller |]; [destruct (authError auth) |]; simpl; auto.
  destruct raw as [body |]; simpl; auto.
  destruct (JS.destructure body "title") as [title |]; simpl; auto.
  destruct (JS.destructure body "description"); simpl; auto.
  destruct (JS.destructure body "status"); simpl; auto.
  destruct (JS.destructure body "priority"); simpl; auto.
  destruct (JS.destructure body "due_date"); simpl; auto.
  destruct (JS.destructure body "category"); simpl; auto.
  destruct (TasksRoute.title_missing title) as [[|] |]; simpl; auto.
  destruct (TasksRoute.taskData_of _ _ _ _ _ _ _) as [payload |]; simpl; auto.
  destruct (insert_task_cases (createClient B auth) (db w) fresh payload)
    as [[e ->] | (st & pr & due & -> & _ & _ & _ & _ & _ & Hfresh)]; simpl; auto.
  right. eexists. split; [reflexivity |]. split; [reflexivity | exact Hfresh].
Qed.

(** What an insert into [task_shares] does: nothing, or it appends the
    one share, given by the caller, of a task the caller owns. *)
Lemma insert_share_cases (supabase : Client) (d : Db) (fresh : string)
    (i : TaskShareInsert) :
  (exists e, insert_share supabase d fresh i = (failed e, d))
  \/ (exists key,
        let row := {| s_id := fresh; s_task_id := key;
                      s_shared_with_user_id := si_shared_with_user_id i;
                      s_shared_by_user_id := si_shared_by_user_id i;
                      s_permission := Some view |} in
        insert_share supabase d fresh i
        = (ok {| sp_share := row;
                 sp_profile := profile_of d (si_shared_with_user_id i) |},
           {| profiles := profiles d; tasks := tasks d;
              task_shares := task_shares d ++ [row];
              comments := comments d; attachments := attachments d |})
        /\ uuid_in (backend supabase) (si_task_id i) = Some key
        /\ can_insert_share supabase d key (si_shared_by_user_id i) = true
        /\ has_profile d (si_shared_with_user_id i) = true
        /\ has_profile d (si_shared_by_user_id i) = true
        /\ existsb (is_share key (si_shared_with_user_id i)) (task_shares d) = false
        /\ existsb (fun s => String.eqb (s_id s) fresh) (task_shares d) = false).
Proof.
  unfold insert_share.
  destruct (uuid_in (backend supabase) (si_task_id i)) as [key |]; [| left; eauto].
  destruct (can_insert_share supabase d key (si_shared_by_user_id i)) eqn:E1; simpl;
    [| left; eauto].
  destruct (has_profile d (si_shared_with_user_id i)) eqn:E2; simpl; [| left; eauto].
  destruct (has_profile d (si_shared_by_user_id i)) eqn:E3; simpl; [| left; eauto].
  destruct (existsb (is_share key (si_shared_with_user_id i)) (task_shares d)) eqn:E4;
    simpl; [left; eauto |].
  destruct (existsb (fun s => String.eqb (s_id s) fresh) (task_shares d)) eqn:E5; simpl;
    [left; eauto |].
  right. exists key. repeat split; auto.
Qed.

(** The insert policy of [task_shares] asks for a task of the caller. *)
Lemma can_insert_share_owner (supabase : Client) (d : Db) (key by_user : string) :
  can_insert_share supabase d key by_user = true ->
  is_uid supabase by_user = true
  /\ exists t, In t (tasks d) /\ t_id t = key /\ is_uid supabase (t_user_id t) = true.
Proof.
  unfold can_insert_share. rewrite andb_true_iff, existsb_exists.
  intros [Hby (t & Hin & H)]. rewrite !andb_true_iff in H. destruct H as [[_ Hid] Hu].
  apply has_id_true in Hid. split; [assumption |]. now exists t.
Qed.

Lemma share_effect (B : Backend) (auth : AuthResponse) (taskId : string)
    (raw : option JS.value) (fresh : string) (w : World) :
  db (snd (ShareRoute.POST B auth taskId raw fresh w)) = db w
  \/ exists caller key target t,
       user auth = Some caller
       /\ uuid_in B taskId = Some key
       /\ In t (tasks (db w)) /\ t_id t = key /\ t_user_id t = id caller
       /\ target <> id caller
       /\ existsb (is_share key target) (task_shares (db w)) = false
       /\ db (snd (ShareRoute.POST B auth taskId raw fresh w))
          = {| profiles := profiles (db w); tasks := tasks (db w);
               task_shares :=
                 task_shares (db w)
                 ++ [{| s_id := fresh; s_task_id := key;
                        s_shared_with_user_id := target;
                        s_shared_by_user_id := id caller; s_permission := Some view |}];
               comments := comments (db w); attachments := attachments (db w) |}.
Proof.
  unfold ShareRoute.POST, try_catch, bind, require_user, read, query, return_if,
    request_json, field, respond, ret, throw.
  destruct auth as [[caller |] [|]]; simpl; auto.
  destruct raw as [body |]; simpl; auto.
  destruct (JS.destructure body "userEmail") as [[v |] |];
    [destruct (JS.truthy (Some v)) | |]; simpl; auto.
  destruct (error (select_task_owner _ (db w) taskId)); simpl; auto.
  destruct (data (select_task_owner _ (db w) taskId)) as [owner |] eqn:Eo; simpl; auto.
  destruct (String.eqb owner (id caller)) eqn:Eown; simpl; auto.
  destruct (error (select_profile_by_email (db w) v)); simpl; auto.
  destruct (data (select_profile_by_email (db w) v)) as [target |]; simpl; auto.
  destruct (String.eqb (pr_id target) (id caller)) eqn:Eself; simpl; auto.
  destruct (data (select_share _ (db w) taskId (pr_id target))); simpl; auto.
  match goal with
  | |- context [insert_share ?c ?d ?f ?i] =>
      destruct (insert_share_cases c d f i)
        as [[e ->] | (key & -> & Hk & Hpol & _ & _ & Hnew & _)]
  end; simpl; auto.
  cbn [backend si_task_id si_shared_by_user_id si_shared_with_user_id] in Hk, Hpol, Hnew.
  apply can_insert_share_owner in Hpol. destruct Hpol as [_ (t & Hin & Hid & Hu)].
  right. exists caller, key, (pr_id target), t.
  apply String.eqb_neq in Eself.
  change (is_uid (createClient B (authenticated caller)) (t_user_id t) = true) in Hu.
  apply is_uid_true in Hu.
  repeat split; auto.
Qed.

Lemma unshare_effect (B : Backend) (auth : AuthResponse) (taskId : string)
    (raw : option JS.value) (w : World) :
  db (snd (UnshareRoute.DELETE B auth taskId raw w)) = db w
  \/ exists keep,
       db (snd (UnshareRoute.DELETE B auth taskId raw w))
       = {| profiles := profiles (db w); tasks := tasks (db w);
            task_shares := filter keep (task_shares (db w));
            comments := comments (db w); attachments := attachments (db w) |}.
Proof.
  unfold UnshareRoute.DELETE, try_catch, bind, require_user, read, query, return_if,
    request_json, field, respond, ret, throw.
  destruct (user auth) as [caller |]; [destruct (authError auth) |]; simpl; auto.
  destruct raw as [body |]; simpl; auto.
  destruct (JS.destructure body "sharedUserId") as [[v |] |];
    [destruct (JS.truthy (Some v)) | |]; simpl; auto.
  destruct (error (select_task_owner _ (db w) taskId)); simpl; auto.
  destruct (data (select_task_owner _ (db w) taskId)) as [owner |]; simpl; auto.
  destruct (String.eqb owner (id caller)); simpl; auto.
  unfold delete_share.
  destruct (uuid_in _ taskId) as [key |]; simpl; auto.
  destruct (uuid_in _ (JS.to_string v)) as [userId |]; simpl; auto.
  right. eexists. reflexivity.
Qed.

(* ================================================================== *)
(** ** The frame of an update *)
(* ================================================================== *)

Lemma rewrite_keeps_identity (hit : Task -> bool) (c : TaskColumns) (rows : list Task) :
  map identity_of (map (fun x => if hit x then set_columns c x else x) rows)
  = map identity_of rows.
Proof.
  induction rows as [| x rows IH]; simpl; [reflexivity |].
  rewrite IH. destruct (hit x); reflexivity.
Qed.

Lemma rewrite_keeps_others (hit : Task -> bool) (c : TaskColumns) (rows : list Task)
    (n : nat) (x : Task) :
  nth_error rows n = Some x -> hit x = false ->
  nth_error (map (fun x => if hit x then set_columns c x else x) rows) n = Some x.
Proof.
  intros Hn Hne. rewrite nth_error_map, Hn. simpl. now rewrite Hne.
Qed.

(** X3.  Whatever the request, PATCH touches nothing but the columns of
    the addressed task: the other tables are unchanged, no task row is
    added or removed, every row keeps its identifier, its owner and its
    completion timestamp (so a body cannot move a task to another owner),
    and every row that the identifier of the request does not name, or
    that belongs to somebody other than the caller, stays as it was, at
    its place. *)
Theorem update_frame :
  forall (B : Backend) (auth : AuthResponse) (taskId : string) (raw : option JS.value)
         (w : World),
    let after := db (snd (TaskRoute.PATCH B auth taskId raw w)) in
    same_but_tasks (db w) after
    /\ map identity_of (tasks after) = map identity_of (tasks (db w))
    /\ (forall n x, nth_error (tasks (db w)) n = Some x -> ~ names B taskId x ->
          nth_error (tasks after) n = Some x)
    /\ (forall n x caller, nth_error (tasks (db w)) n = Some x ->
          user auth = Some caller -> t_user_id x <> id caller ->
          nth_error (tasks after) n = Some x).
Proof.
  intros B auth taskId raw w after. subst after.
  destruct (PATCH_effect B auth taskId raw w) as [-> | (c & key & t & Hk & _ & ->)].
  - repeat split; auto.
  - unfold rewrite_own. simpl. split; [repeat split |]. split; [| split].
    + apply rewrite_keeps_identity.
    + intros n x Hn Hne. apply rewrite_keeps_others; [assumption |].
      destruct (has_id key x) eqn:E; [| reflexivity].
      apply has_id_true in E. exfalso. apply Hne. unfold names. now rewrite Hk, E.
    + intros n x caller Hn Hu Hne. apply rewrite_keeps_others; [assumption |].
      unfold can_update_task, is_uid, createClient. simpl. rewrite Hu. simpl.
      apply String.eqb_neq in Hne. rewrite Hne. apply andb_false_r.
Qed.

(* ================================================================== *)
(** ** The store stays well formed *)
(* ================================================================== *)

Lemma NoDup_snoc {A : Type} (l : list A) (x : A) :
  NoDup l -> ~ In x l -> NoDup (l ++ [x]).
Proof.
  induction l as [| y l IH]; simpl; intros Hnd Hx.
  - constructor; [intros [] | constructor].
  - inversion Hnd; subst. constructor.
    + rewrite in_app_iff. intros [H | [H | []]]; [contradiction |].
      subst. apply Hx. now left.
    + apply IH; [assumption |]. intros H. apply Hx. now right.
Qed.

(** Dropping rows keeps the keys of the remaining rows distinct. *)
Lemma distinct_keys_after_filter {Row Key : Type} (key : Row -> Key) (keep : Row -> bool)
    (rows : list Row) (Hdistinct : NoDup (map key rows)) :
  NoDup (map key (filter keep rows)).
Proof.
  induction rows as [| r rows IH]; simpl in *; [constructor |].
  inversion Hdistinct as [| ? ? Hfresh Hrest]; subst.
  destruct (keep r); simpl; [| now apply IH].
  constructor; [| now apply IH].
  intros H. apply Hfresh. apply in_map_iff in H. destruct H as (y & E & Hy).
  apply filter_In in Hy. apply in_map_iff. exists y. tauto.
Qed.

Lemma rewrite_keeps_ids (hit : Task -> bool) (c : TaskColumns) (rows : list Task) :
  map t_id (map (fun x => if hit x then set_columns c x else x) rows)
  = map t_id rows.
Proof.
  induction rows as [| x rows IH]; simpl; [reflexivity |].
  rewrite IH. destruct (hit x); reflexivity.
Qed.

(** With distinct identifiers, two stored rows of one identifier are
    one row. *)
Lemma same_id_same_row (rows : list Task) (a b : Task) :
  NoDup (map t_id rows) -> In a rows -> In b rows -> t_id a = t_id b -> a = b.
Proof.
  induction rows as [| x rows IH]; simpl; intros Hnd Ha Hb E; [contradiction |].
  inversion Hnd as [| ? ? Hfresh Hrest]; subst.
  destruct Ha as [-> | Ha], Hb as [-> | Hb]; auto.
  - exfalso. apply Hfresh. rewrite E. now apply in_map.
  - exfalso. apply Hfresh. rewrite <- E. now apply in_map.
Qed.

Lemma well_formed_rewrite (hit : Task -> bool) (c : TaskColumns) (d : Db) :
  well_formed d ->
  well_formed (with_tasks d (map (fun x => if hit x then set_columns c x else x) (tasks d))).
Proof.
  intros [Hids Hpairs Htarget Hgiver]. constructor; simpl.
  - now rewrite rewrite_keeps_ids.
  - assumption.
  - intros s Hs. destruct (Htarget s Hs) as (t & Hin & Hid & Hown).
    exists (if hit t then set_columns c t else t). split.
    + apply in_map_iff. now exists t.
    + destruct (hit t); simpl; auto.
  - intros s t' Hs Ht' Hid. simpl in Ht'. apply in_map_iff in Ht'.
    destruct Ht' as (t & <- & Hin).
    assert (E : t_user_id (if hit t then set_columns c t else t) = t_user_id t)
      by now destruct (hit t).
    rewrite E. apply (Hgiver s t Hs Hin). now destruct (hit t).
Qed.

Lemma well_formed_new_task (d : Db) (row : Task) :
  well_formed d ->
  existsb (has_id (t_id row)) (tasks d) = false ->
  well_formed (with_tasks d (tasks d ++ [row])).
Proof.
  intros [Hids Hpairs Htarget Hgiver] Hfresh.
  assert (Hnew : forall t, In t (tasks d) -> t_id t <> t_id row).
  { intros t Hin E.
    assert (Hex : existsb (has_id (t_id row)) (tasks d) = true).
    { apply existsb_exists. exists t. split; [assumption | now apply has_id_true]. }
    congruence. }
  constructor; simpl.
  - rewrite map_app. simpl. apply NoDup_snoc; [assumption |].
    intros H. apply in_map_iff in H. destruct H as (t & E & Hin).
    now apply (Hnew t Hin).
  - assumption.
  - intros s Hs. destruct (Htarget s Hs) as (t & Hin & Hid & Hown).
    exists t. rewrite in_app_iff. auto.
  - intros s t Hs Ht Hid. simpl in Ht. apply in_app_iff in Ht.
    destruct Ht as [Ht | [<- | []]]; [now apply Hgiver |].
    destruct (Htarget s Hs) as (t & Hin & Hid' & _).
    exfalso. apply (Hnew t Hin). congruence.
Qed.

Lemma well_formed_delete_task (supabase : Client) (d : Db) (taskId : string) :
  well_formed d -> well_formed (snd (delete_task supabase d taskId)).
Proof.
  intros Hwf. unfold delete_task.
  destruct (uuid_in (backend supabase) taskId) as [key |]; [| exact Hwf].
  destruct Hwf as [Hids Hpairs Htarget Hgiver]. constructor; simpl.
  - now apply distinct_keys_after_filter.
  - now apply distinct_keys_after_filter.
  - intros s Hs. apply filter_In in Hs. destruct Hs as [Hs Hkeep].
    destruct (Htarget s Hs) as (t & Hin & Hid & Hown).
    exists t. split; [| auto]. apply filter_In. split; [assumption |].
    apply negb_true_iff. apply negb_true_iff in Hkeep.
    destruct (has_id key t && can_delete_task supabase t) eqn:Hgone; [| reflexivity].
    exfalso. rewrite andb_false_iff in Hkeep.
    apply andb_true_iff in Hgone. destruct Hgone as [Hk Hu].
    destruct Hkeep as [Hnone | Hother].
    + assert (Hex : existsb (fun t => has_id key t && can_delete_task supabase t)
                      (tasks d) = true).
      { apply existsb_exists. exists t. split; [assumption |]. now rewrite Hk, Hu. }
      congruence.
    + apply has_id_true in Hk. apply String.eqb_neq in Hother. congruence.
  - intros s t Hs Ht. apply filter_In in Hs. apply filter_In in Ht.
    apply Hgiver; tauto.
Qed.

Lemma well_formed_new_share (d : Db) (fresh target by_user : string) (t : Task) :
  well_formed d ->
  In t (tasks d) -> t_user_id t = by_user ->
  target <> by_user ->
  existsb (is_share (t_id t) target) (task_shares d) = false ->
  well_formed
    {| profiles := profiles d; tasks := tasks d;
       task_shares :=
         task_shares d
         ++ [{| s_id := fresh; s_task_id := t_id t; s_shared_with_user_id := target;
                s_shared_by_user_id := by_user; s_permission := Some view |}];
       comments := comments d; attachments := attachments d |}.
Proof.
  intros [Hids Hpairs Htarget Hgiver] Hin Hown Hother Hnew. constructor; simpl.
  - assumption.
  - rewrite map_app. simpl. apply NoDup_snoc; [assumption |].
    intros H. apply in_map_iff in H. destruct H as (s & E & Hs).
    unfold share_key in E. simpl in E. inversion E.
    assert (Hex : existsb (is_share (t_id t) target) (task_shares d) = true).
    { apply existsb_exists. exists s. split; [assumption |].
      unfold is_share. now rewrite H0, H1, !String.eqb_refl. }
    congruence.
  - intros s Hs. apply in_app_iff in Hs. destruct Hs as [Hs | [<- | []]].
    + now apply Htarget.
    + simpl. exists t. repeat split; auto. rewrite Hown. auto.
  - intros s t' Hs Ht' Hid. simpl in Hs, Ht'. apply in_app_iff in Hs.
    destruct Hs as [Hs | [<- | []]]; [now apply Hgiver |].
    simpl in Hid |- *.
    rewrite (same_id_same_row (tasks d) t' t Hids Ht' Hin Hid). now symmetry.
Qed.

Lemma well_formed_fewer_shares (d : Db) (keep : TaskShare -> bool) :
  well_formed d ->
  well_formed {| profiles := profiles d; tasks := tasks d;
                 task_shares := filter keep (task_shares d);
                 comments := comments d; attachments := attachments d |}.
Proof.
  intros [Hids Hpairs Htarget Hgiver]. constructor; simpl.
  - assumption.
  - now apply distinct_keys_after_filter.
  - intros s Hs. apply filter_In in Hs. now apply Htarget.
  - intros s t Hs Ht. simpl in Hs, Ht. apply filter_In in Hs. apply Hgiver; tauto.
Qed.

(** X4.  The five writing handlers keep the store well formed: if task
    identifiers are unique, shares are unique per (task, user) pair,
    every share belongs to a stored task and names somebody other than
    its owner, and every share was given by the owner of its task, then
    the same holds after create, update, delete, share and unshare,
    whatever the request and however it is answered. *)
Theorem handlers_keep_store_well_formed :
  forall (B : Backend) (auth : AuthResponse) (taskId fresh : string)
         (raw : option JS.value) (w : World),
    well_formed (db w) ->
    well_formed (db (snd (TasksRoute.POST B auth raw fresh w)))
    /\ well_formed (db (snd (TaskRoute.PATCH B auth taskId raw w)))
    /\ well_formed (db (snd (TaskRoute.DELETE B auth taskId w)))
    /\ well_formed (db (snd (ShareRoute.POST B auth taskId raw fresh w)))
    /\ well_formed (db (snd (UnshareRoute.DELETE B auth taskId raw w))).
Proof.
  intros B auth taskId fresh raw w Hwf. split; [| split; [| split; [| split]]].
  - destruct (POST_effect B auth raw fresh w) as [-> | (row & -> & Hid & Hfresh)];
      [assumption |].
    apply well_formed_new_task; [assumption | now rewrite Hid].
  - destruct (PATCH_effect B auth taskId raw w) as [-> | (c & key & t & _ & _ & ->)];
      [assumption |].
    now apply well_formed_rewrite.
  - destruct (DELETE_effect B auth taskId w) as [-> | ->]; [assumption |].
    now apply well_formed_delete_task.
  - destruct (share_effect B auth taskId raw fresh w)
      as [-> | (caller & key & target & t & _ & _ & Hin & <- & Hown & Hother & Hnew & ->)];
      [assumption |].
    now apply well_formed_new_share.
  - destruct (unshare_effect B auth taskId raw w) as [-> | (keep & ->)]; [assumption |].
    now apply well_formed_fewer_shares.
Qed.

Lemma handlers_keep_store_well_formed_witness :
  well_formed Sample.store
  /\ well_formed
       (db (snd (ShareRoute.POST Sample.backend (authenticated Sample.alice) Sample.milk_id
                   (Sample.body_of [("userEmail", JS.Str "carol@example.com")])
                   Sample.next_share_id Sample.world)))
  /\ well_formed
       (db (snd (TaskRoute.DELETE Sample.backend (authenticated Sample.alice)
                   Sample.milk_id Sample.world))).
Proof.
  assert (Hwf : well_formed Sample.store).
  { constructor; simpl.
    - repeat constructor. intros [].
    - repeat constructor. intros [].
    - intros s [<- | []]. exists Sample.milk. simpl.
      split; [now left |]. split; [reflexivity | discriminate].
    - intros s t [<- | []] [<- | []] _. reflexivity. }
  split; [exact Hwf |].
  destruct (handlers_keep_store_well_formed Sample.backend (authenticated Sample.alice)
              Sample.milk_id Sample.next_share_id
              (Sample.body_of [("userEmail", JS.Str "carol@example.com")])
              Sample.world Hwf) as (_ & _ & Hdel & Hshare & _).
  split; [exact Hshare | exact Hdel].
Defined.
(* ================================================================== *)
(** ** Fetch-one after a write *)
(* ================================================================== *)

Lemma GET_no_task (B : Backend) (w : World) (caller : User) (taskId : string) :
  names_no_task B (db w) taskId ->
  fst (TaskRoute.GET B (authenticated caller) taskId w) = json (error_body "Forbidden") 403.
Proof.
  intros Hno. unfold TaskRoute.GET, try_catch, bind. simpl.
  unfold TaskRoute.canAccessTask, bind, read, query, ret. simpl.
  rewrite (access_of_no_task (createClient B (authenticated caller)) (db w) taskId Hno).
  reflexivity.
Qed.

Lemma GET_granted (B : Backend) (w : World) (caller : User) (taskId : string) (t : Task) :
  only_task (db w) t -> names B taskId t ->
  t_user_id t = id caller \/ shared_with (db w) (t_id t) caller ->
  fst (TaskRoute.GET B (authenticated caller) taskId w)
  = json (task_detail_body
            (Some (detail (createClient B (authenticated caller)) (db w) t))) 200.
Proof.
  intros Ho Hn Hacc.
  assert (Hsee : can_select_task (createClient B (authenticated caller)) (db w) t = true)
    by now apply can_select_task_iff.
  unfold TaskRoute.GET, try_catch, bind. simpl.
  unfold TaskRoute.canAccessTask, bind, read, query, ret. simpl.
  destruct (access_of_task (createClient B (authenticated caller)) (db w) taskId t Hn Ho)
    as [Ha Hd].
  rewrite Ha, Hsee. simpl.
  assert (Hok : String.eqb (t_user_id t) (id caller)
                || existsb (fun share => String.eqb share (id caller))
                     (map s_shared_with_user_id
                          (shares_seen (createClient B (authenticated caller))
                             (db w) (t_id t))) = true).
  { apply orb_true_iff. destruct Hacc as [Hu | Hs].
    - left. now apply String.eqb_eq.
    - right. now apply is_shared_iff. }
  rewrite Hok. simpl. rewrite Hd, Hsee. reflexivity.
Qed.

Lemma GET_refused (B : Backend) (w : World) (caller : User) (taskId : string) (t : Task) :
  only_task (db w) t -> names B taskId t ->
  t_user_id t <> id caller ->
  ~ shared_with (db w) (t_id t) caller ->
  fst (TaskRoute.GET B (authenticated caller) taskId w) = json (error_body "Forbidden") 403.
Proof.
  intros Ho Hn Hne Hns. unfold TaskRoute.GET, try_catch, bind. simpl.
  unfold TaskRoute.canAccessTask, bind, read, query, ret. simpl.
  destruct (access_of_task (createClient B (authenticated caller)) (db w) taskId t Hn Ho)
    as [-> _].
  rewrite (cannot_select_foreign_task B caller (db w) t Hne Hns). reflexivity.
Qed.

(** The answer of fetch-one is made of the results of its two queries. *)
Lemma GET_same_answer (B : Backend) (caller : User) (taskId : string) (w w' : World) :
  select_task_access (createClient B (authenticated caller)) (db w') taskId
  = select_task_access (createClient B (authenticated caller)) (db w) taskId ->
  select_task_detail (createClient B (authenticated caller)) (db w') taskId
  = select_task_detail (createClient B (authenticated caller)) (db w) taskId ->
  fst (TaskRoute.GET B (authenticated caller) taskId w')
  = fst (TaskRoute.GET B (authenticated caller) taskId w).
Proof.
  intros Ha Hd. unfold TaskRoute.GET, try_catch, bind. simpl.
  unfold TaskRoute.canAccessTask, bind, read, query, ret, return_if, respond. simpl.
  rewrite Ha.
  destruct (data (select_task_access _ (db w) taskId)) as [[owner shares] |]; simpl;
    [| reflexivity].
  destruct (String.eqb owner (id caller) || existsb _ shares); simpl; [| reflexivity].
  rewrite Hd. destruct (error (select_task_detail _ (db w) taskId)); reflexivity.
Qed.

(** What the owner's delete query does to the store. *)
Lemma delete_task_by_owner (B : Backend) (caller : User) (d : Db) (taskId : string)
    (t : Task) :
  names B taskId t -> only_task d t -> t_user_id t = id caller ->
  delete_task (createClient B (authenticated caller)) d taskId
  = (ok tt, without_task (t_id t) d).
Proof.
  intros Hn Ho Hu. unfold delete_task, without_task. cbn [backend createClient].
  unfold names in Hn. rewrite Hn.
  assert (Hremoved : forall x, In x (tasks d) ->
            has_id (t_id t) x && can_delete_task (createClient B (authenticated caller)) x
            = has_id (t_id t) x)
    by (intros x Hin; now apply (reached_by_owner B caller d t x)).
  assert (Hany : existsb (fun x => has_id (t_id t) x
                                   && can_delete_task (createClient B (authenticated caller)) x)
                   (tasks d) = true).
  { apply existsb_exists. exists t. split; [now apply only_task_stored |].
    rewrite (Hremoved t (only_task_stored d t Ho)). now apply has_id_true. }
  rewrite Hany. simpl. f_equal. f_equal.
  apply filter_ext_in. intros x Hin. now rewrite (Hremoved x Hin).
Qed.

Lemma DELETE_by_owner (B : Backend) (w : World) (caller : User) (taskId : string)
    (t : Task) :
  only_task (db w) t -> names B taskId t ->
  t_user_id t = id caller ->
  TaskRoute.DELETE B (authenticated caller) taskId w
  = (json (message_body "Task deleted successfully") 200,
     {| db := without_task (t_id t) (db w);
        trace := trace w ++ [issued "tasks" Select; issued "tasks" Delete] |}).
Proof.
  intros Hone Hn Hown. unfold TaskRoute.DELETE, try_catch, bind, read, query. simpl.
  rewrite (owner_result_own B caller (db w) taskId t Hn Hone Hown).
  unfold TaskRoute.not_owner. simpl. rewrite String.eqb_refl. simpl.
  rewrite (delete_task_by_owner B caller (db w) taskId t Hn Hone Hown). simpl.
  rewrite <- app_assoc. reflexivity.
Qed.

Lemma DELETE_no_task (B : Backend) (w : World) (caller : User) (taskId : string) :
  names_no_task B (db w) taskId ->
  TaskRoute.DELETE B (authenticated caller) taskId w
  = (json (error_body "Forbidden - Only owner can delete task") 403,
     {| db := db w; trace := trace w ++ [issued "tasks" Select] |}).
Proof.
  intros Hno. unfold TaskRoute.DELETE, try_catch, bind, read, query. simpl.
  destruct (owner_missing (createClient B (authenticated caller)) (db w) taskId Hno)
    as [e ->].
  reflexivity.
Qed.

Lemma PATCH_no_task (B : Backend) (w : World) (caller : User) (taskId : string)
    (raw : option JS.value) :
  names_no_task B (db w) taskId ->
  TaskRoute.PATCH B (authenticated caller) taskId raw w
  = (json (error_body "Forbidden - Only owner can update task") 403,
     {| db := db w; trace := trace w ++ [issued "tasks" Select] |}).
Proof.
  intros Hno. unfold TaskRoute.PATCH, try_catch, bind, read, query. simpl.
  destruct (owner_missing (createClient B (authenticated caller)) (db w) taskId Hno)
    as [e ->].
  reflexivity.
Qed.

Lemma without_task_gone (B : Backend) (d : Db) (taskId : string) (t : Task) :
  names B taskId t -> names_no_task B (without_task (t_id t) d) taskId.
Proof.
  unfold names, names_no_task. intros Hn key Hk. rewrite Hn in Hk. inversion Hk; subst key.
  intros x Hx. simpl in Hx. apply filter_In in Hx. destruct Hx as [_ Hx].
  apply negb_true_iff in Hx. intros E. apply has_id_true in E. congruence.
Qed.

(** Rows stored under another identifier are selected as before. *)
Lemma without_task_policy (supabase : Client) (d : Db) (gone : string) (x : Task) :
  t_id x <> gone ->
  can_select_task supabase (without_task gone d) x = can_select_task supabase d x.
Proof.
  intros Hne. unfold can_select_task, without_task. simpl. f_equal.
  induction (task_shares d) as [| s l IH]; simpl; [reflexivity |].
  destruct (String.eqb (s_task_id s) gone) eqn:E; simpl.
  - rewrite <- IH. apply String.eqb_eq in E.
    replace (String.eqb (s_task_id s) (t_id x)) with false;
      [now rewrite andb_false_r |].
    symmetry. apply String.eqb_neq. congruence.
  - now rewrite IH.
Qed.

Lemma without_task_seen (supabase : Client) (d : Db) (gone key : string) :
  key <> gone ->
  filter (has_id key) (visible_tasks supabase (without_task gone d))
  = filter (has_id key) (visible_tasks supabase d).
Proof.
  intros Hne. rewrite !seen_under_id.
  change (tasks (without_task gone d)) with (filter (fun t => negb (has_id gone t)) (tasks d)).
  induction (tasks d) as [| x l IH]; simpl; [reflexivity |].
  destruct (has_id gone x) eqn:Eg; simpl.
  - rewrite IH. apply has_id_true in Eg.
    replace (has_id key x) with false; [reflexivity |].
    symmetry. apply not_true_is_false. intros E. apply has_id_true in E. congruence.
  - destruct (has_id key x) eqn:Ek; simpl; [| exact IH].
    apply has_id_true in Ek.
    rewrite (without_task_policy supabase d gone x) by congruence.
    destruct (can_select_task supabase d x); [f_equal |]; exact IH.
Qed.

Lemma filter_other_key {Row : Type} (task_id : Row -> string) (gone key : string)
    (rows : list Row) :
  key <> gone ->
  filter (fun r => String.eqb (task_id r) key)
         (filter (fun r => negb (String.eqb (task_id r) gone)) rows)
  = filter (fun r => String.eqb (task_id r) key) rows.
Proof.
  intros Hne. rewrite filter_swap. apply filter_all. intros r Hr.
  apply filter_In in Hr. destruct Hr as [_ Hr]. apply String.eqb_eq in Hr.
  apply negb_true_iff. apply String.eqb_neq. congruence.
Qed.

Lemma without_task_accessible (supabase : Client) (d : Db) (gone task_id : string) :
  task_id <> gone ->
  on_accessible_task supabase (without_task gone d) task_id
  = on_accessible_task supabase d task_id.
Proof.
  intros Hne. unfold on_accessible_task.
  change (tasks (without_task gone d)) with (filter (fun t => negb (has_id gone t)) (tasks d)).
  induction (tasks d) as [| x l IH]; simpl; [reflexivity |].
  destruct (has_id gone x) eqn:Eg; simpl.
  - rewrite IH. apply has_id_true in Eg.
    replace (String.eqb (t_id x) task_id) with false; [now rewrite andb_false_r |].
    symmetry. apply String.eqb_neq. congruence.
  - rewrite IH. destruct (String.eqb (t_id x) task_id) eqn:Ek.
    + apply String.eqb_eq in Ek.
      rewrite (without_task_policy supabase d gone x) by congruence. reflexivity.
    + now rewrite !andb_false_r.
Qed.

Lemma without_task_detail (supabase : Client) (d : Db) (gone : string) (x : Task) :
  t_id x <> gone ->
  detail supabase (without_task gone d) x = detail supabase d x
  /\ shares_seen supabase (without_task gone d) (t_id x) = shares_seen supabase d (t_id x).
Proof.
  intros Hne.
  assert (Hshares : shares_seen supabase (without_task gone d) (t_id x)
                    = shares_seen supabase d (t_id x)).
  { unfold shares_seen, shares_of, without_task. simpl.
    now rewrite (filter_other_key s_task_id gone (t_id x) (task_shares d) Hne). }
  split; [| exact Hshares].
  unfold detail. rewrite Hshares. unfold comments_of, attachments_of.
  change (comments (without_task gone d))
    with (filter (fun c => negb (String.eqb (c_task_id c) gone)) (comments d)).
  change (attachments (without_task gone d))
    with (filter (fun a => negb (String.eqb (a_task_id a) gone)) (attachments d)).
  rewrite (filter_other_key c_task_id gone (t_id x) (comments d) Hne).
  rewrite (filter_other_key a_task_id gone (t_id x) (attachments d) Hne).
  f_equal.
  - f_equal. apply filter_ext_in. intros c Hc. apply filter_In in Hc.
    destruct Hc as [_ Hc]. apply String.eqb_eq in Hc.
    apply without_task_accessible. congruence.
  - apply filter_ext_in. intros a Ha. apply filter_In in Ha.
    destruct Ha as [_ Ha]. apply String.eqb_eq in Ha.
    apply without_task_accessible. congruence.
Qed.

Lemma without_task_selects (supabase : Client) (d : Db) (gone other : string) :
  uuid_in (backend supabase) other <> Some gone ->
  select_task_access supabase (without_task gone d) other
  = select_task_access supabase d other
  /\ select_task_detail supabase (without_task gone d) other
     = select_task_detail supabase d other.
Proof.
  intros Hne. unfold select_task_access, select_task_detail, with_uuid.
  destruct (uuid_in (backend supabase) other) as [key |]; [| split; reflexivity].
  assert (Hk : key <> gone) by congruence.
  rewrite (without_task_seen supabase d gone key Hk).
  split; f_equal; apply map_ext_in; intros x Hx; apply seen_is_stored in Hx;
    destruct Hx as (_ & Hid & _);
    destruct (without_task_detail supabase d gone x ltac:(congruence)) as [Hd Hs].
  - now rewrite Hs.
  - exact Hd.
Qed.

(** X5.  When the owner deletes a task that is stored once, the answer
    is 200 after the ownership lookup and the delete query.  From then
    on the identifier is that of no task, for every caller: a fetch, an
    update and a second delete are answered 403, a share and an unshare
    request 404, and none of them changes the store again.  What a
    fetch of any other identifier answers, to whatever caller, is what
    it answered before the delete. *)
Theorem owner_delete_removes_task :
  forall (B : Backend) (w : World) (t : Task) (taskId : string) (caller : User),
    only_task (db w) t ->
    names B taskId t ->
    t_user_id t = id caller ->
    let result := TaskRoute.DELETE B (authenticated caller) taskId w in
    let after := snd result in
    fst result = json (message_body "Task deleted successfully") 200
    /\ trace after = trace w ++ [issued "tasks" Select; issued "tasks" Delete]
    /\ names_no_task B (db after) taskId
    /\ (forall anyone,
          fst (TaskRoute.GET B (authenticated anyone) taskId after)
          = json (error_body "Forbidden") 403)
    /\ (forall anyone raw,
          TaskRoute.PATCH B (authenticated anyone) taskId raw after
          = (json (error_body "Forbidden - Only owner can update task") 403,
             {| db := db after; trace := trace after ++ [issued "tasks" Select] |}))
    /\ (forall anyone,
          TaskRoute.DELETE B (authenticated anyone) taskId after
          = (json (error_body "Forbidden - Only owner can delete task") 403,
             {| db := db after; trace := trace after ++ [issued "tasks" Select] |}))
    /\ (forall anyone props fresh,
          JS.truthy (JS.lookup "userEmail" props) = true ->
          ShareRoute.POST B (authenticated anyone) taskId (Some (JS.Obj props)) fresh after
          = (json (error_body "Task not found") 404,
             {| db := db after; trace := trace after ++ [issued "tasks" Select] |}))
    /\ (forall anyone props,
          JS.truthy (JS.lookup "sharedUserId" props) = true ->
          UnshareRoute.DELETE B (authenticated anyone) taskId (Some (JS.Obj props)) after
          = (json (error_body "Task not found") 404,
             {| db := db after; trace := trace after ++ [issued "tasks" Select] |}))
    /\ (forall anyone other,
          uuid_in B other <> Some (t_id t) ->
          fst (TaskRoute.GET B (authenticated anyone) other after)
          = fst (TaskRoute.GET B (authenticated anyone) other w)).
Proof.
  intros B w t taskId caller Hone Hn Hown result after. subst after result.
  rewrite (DELETE_by_owner B w caller taskId t Hone Hn Hown). cbn [fst snd db trace].
  pose proof (without_task_gone B (db w) taskId t Hn) as Hgone.
  split; [reflexivity |]. split; [reflexivity |]. split; [exact Hgone |].
  split; [intros anyone; now apply GET_no_task |].
  split; [intros anyone raw; now apply PATCH_no_task |].
  split; [intros anyone; now apply DELETE_no_task |].
  split.
  { intros anyone props fresh Hv.
    unfold ShareRoute.POST, try_catch, bind, read, query, field. simpl.
    destruct (JS.lookup "userEmail" props) as [v |] eqn:E; [| discriminate].
    rewrite Hv. simpl.
    destruct (owner_missing (createClient B (authenticated anyone))
                (without_task (t_id t) (db w)) taskId Hgone) as [e ->].
    reflexivity. }
  split.
  { intros anyone props Hv.
    unfold UnshareRoute.DELETE, try_catch, bind, read, query, field. simpl.
    destruct (JS.lookup "sharedUserId" props) as [v |] eqn:E; [| discriminate].
    rewrite Hv. simpl.
    destruct (owner_missing (createClient B (authenticated anyone))
                (without_task (t_id t) (db w)) taskId Hgone) as [e ->].
    reflexivity. }
  intros anyone other Hother.
  destruct (without_task_selects (createClient B (authenticated anyone)) (db w) (t_id t)
              other Hother) as [Ha Hd].
  now apply GET_same_answer.
Qed.

Lemma owner_delete_removes_task_witness :
  only_task Sample.store Sample.milk
  /\ fst (TaskRoute.DELETE Sample.backend (authenticated Sample.alice) Sample.milk_id
            Sample.world)
     = json (message_body "Task deleted successfully") 200
  /\ fst (TaskRoute.GET Sample.backend (authenticated Sample.bob) Sample.milk_id
            Sample.world)
     = json (task_detail_body
               (Some {| td_task := Sample.milk; td_profile := Some Sample.alice_ref;
                        td_comments := []; td_attachments := [];
                        td_task_shares := [(Sample.milk_for_bob, Some Sample.bob_ref)] |}))
            200
  /\ fst (TaskRoute.GET Sample.backend (authenticated Sample.bob) Sample.milk_id
            (snd (TaskRoute.DELETE Sample.backend (authenticated Sample.alice)
                    Sample.milk_id Sample.world)))
     = json (error_body "Forbidden") 403.
Proof.
  destruct (owner_delete_removes_task Sample.backend Sample.world Sample.milk Sample.milk_id
              Sample.alice eq_refl eq_refl eq_refl) as (Hok & _ & _ & Hget & _).
  split; [reflexivity |]. split; [exact Hok |]. split; [reflexivity |].
  exact (Hget Sample.bob).
Defined.
(* ================================================================== *)
(** ** Trimming *)
(* ================================================================== *)

Lemma trim_start_shape (s : string) :
  JS.trim_start s = ""
  \/ exists c rest, JS.trim_start s = String c rest /\ JS.is_white c = false.
Proof.
  induction s as [| c s IH]; simpl; [now left |].
  destruct (JS.is_white c) eqn:E; [exact IH |]. right. now exists c, s.
Qed.

Lemma trim_end_head (c : ascii) (rest : string) :
  JS.is_white c = false -> JS.trim_end (String c rest) = String c (JS.trim_end rest).
Proof.
  intros E. simpl. rewrite E. now destruct (JS.trim_end rest).
Qed.

Lemma trim_end_cons_nonempty (c a : ascii) (x b : string) :
  JS.trim_end x = String a b -> JS.trim_end (String c x) = String c (String a b).
Proof. intros H. simpl. now rewrite H. Qed.

Lemma trim_end_idem (s : string) : JS.trim_end (JS.trim_end s) = JS.trim_end s.
Proof.
  induction s as [| c s IH]; [reflexivity |].
  destruct (JS.trim_end s) as [| k kept] eqn:E.
  - assert (H : JS.trim_end (String c s)
                = if JS.is_white c then EmptyString else String c EmptyString)
      by (simpl; now rewrite E).
    rewrite H. destruct (JS.is_white c) eqn:Ec; [reflexivity |]. simpl. now rewrite Ec.
  - rewrite (trim_end_cons_nonempty c k s kept E).
    now apply trim_end_cons_nonempty.
Qed.

(** [trim] is idempotent: a trimmed string has nothing left to trim. *)
Lemma trim_idem (s : string) : JS.trim (JS.trim s) = JS.trim s.
Proof.
  unfold JS.trim. destruct (trim_start_shape s) as [-> | (c & rest & -> & Hc)];
    [reflexivity |].
  rewrite (trim_end_head c rest Hc). simpl JS.trim_start at 1. rewrite Hc.
  rewrite <- (trim_end_head c rest Hc). apply trim_end_idem.
Qed.

(* ================================================================== *)
(** ** Create, then fetch *)
(* ================================================================== *)

Lemma POST_created (B : Backend) (w : World) (caller : User)
    (props : list (string * JS.value)) (fresh : string) :
  status (fst (TasksRoute.POST B (authenticated caller) (Some (JS.Obj props)) fresh w))
  = 201%Z ->
  exists payload st pr due,
    TasksRoute.taskData_of caller (JS.lookup "title" props)
      (JS.lookup "description" props) (JS.lookup "status" props)
      (JS.lookup "priority" props) (JS.lookup "due_date" props)
      (JS.lookup "category" props) = Some payload
    /\ TasksRoute.title_missing (JS.lookup "title" props) = Some false
    /\ existsb (has_id fresh) (tasks (db w)) = false
    /\ has_profile (db w) (id caller) = true
    /\ as_status B (i_status payload) = Some st
    /\ as_priority B (i_priority payload) = Some pr
    /\ as_timestamptz B (i_due_date payload) = Some due
    /\ let row := {| t_id := fresh; t_user_id := i_user_id payload;
                     t_title := i_title payload; t_description := i_description payload;
                     t_status := st; t_priority := pr;
                     t_category := as_text B (i_category payload);
                     t_due_date := due; t_completed_at := None |} in
       TasksRoute.POST B (authenticated caller) (Some (JS.Obj props)) fresh w
       = (json (task_body (Some (with_profile (db w) row))) 201,
          {| db := with_tasks (db w) (tasks (db w) ++ [row]);
             trace := trace w ++ [issued "tasks" Insert] |}).
Proof.
  unfold TasksRoute.POST, try_catch, bind, field, or_throw, return_if, query. simpl.
  destruct (TasksRoute.title_missing (JS.lookup "title" props)) as [[|] |] eqn:Em;
    simpl; try discriminate.
  destruct (TasksRoute.taskData_of caller _ _ _ _ _ _) as [payload |] eqn:Ep; simpl;
    try discriminate.
  destruct (insert_task_cases (createClient B (authenticated caller)) (db w) fresh payload)
    as [[e ->] | (st & pr & due & -> & Hs & Hp & Hd & _ & Hprofile & Hfresh)]; simpl;
    try discriminate.
  intros _. exists payload, st, pr, due.
  destruct (taskData_fields _ _ _ _ _ _ _ _ Ep) as (Hu & _ & _).
  rewrite Hu in Hprofile. repeat split; auto.
Qed.

Lemma taskData_title caller title description status_sent priority due_date category
    payload :
  TasksRoute.taskData_of caller title description status_sent priority due_date category
    = Some payload ->
  TasksRoute.title_missing title = Some false ->
  exists s, title = Some (JS.Str s)
            /\ i_title payload = JS.trim s /\ JS.trim s <> ""
            /\ i_description payload <> Some "".
Proof.
  unfold TasksRoute.taskData_of, TasksRoute.title_missing.
  destruct title as [[| b | n | s | l | o] |]; simpl; try discriminate.
  destruct (trimmed_or_null description) as [d |] eqn:Ed; [| discriminate].
  intros H Hm. inversion H; subst; clear H. simpl.
  exists s. split; [reflexivity |]. split; [reflexivity |]. split.
  - destruct (negb (String.eqb s "")); [| discriminate].
    simpl in Hm. inversion Hm as [Hm']. now apply String.eqb_neq.
  - unfold trimmed_or_null in Ed.
    destruct description as [[| b | n | s' | l | o] |]; simpl in Ed;
      try discriminate; inversion Ed; try discriminate.
    destruct (String.eqb (JS.trim s') "") eqn:Ee; [discriminate |].
    apply String.eqb_neq in Ee. intros E. inversion E. congruence.
Qed.

(** X6.  A create request answered 201 has appended exactly one row,
    stored under the generated identifier and owned by the caller, not
    completed, whose title is the title sent with the surrounding white
    space removed, is not empty and is its own trimmed form, and whose
    description is never the empty string; the caller has a profile.  A
    fetch by the creator right afterwards, under an identifier that is
    read as the generated one, is answered 200 with that row. *)
Theorem created_task_can_be_fetched :
  forall (B : Backend) (w : World) (caller : User) (props : list (string * JS.value))
         (fresh : string),
    let result := TasksRoute.POST B (authenticated caller) (Some (JS.Obj props)) fresh w in
    status (fst result) = 201%Z ->
    exists row,
      tasks (db (snd result)) = tasks (db w) ++ [row]
      /\ fst result = json (task_body (Some (with_profile (db w) row))) 201
      /\ t_id row = fresh
      /\ t_user_id row = id caller
      /\ t_completed_at row = None
      /\ (exists s, JS.lookup "title" props = Some (JS.Str s) /\ t_title row = JS.trim s)
      /\ t_title row <> ""
      /\ JS.trim (t_title row) = t_title row
      /\ t_description row <> Some ""
      /\ has_account (db w) caller
      /\ (forall taskId, uuid_in B taskId = Some fresh ->
            fst (TaskRoute.GET B (authenticated caller) taskId (snd result))
            = json (task_detail_body
                      (Some (detail (client_of B caller) (db (snd result)) row))) 200).
Proof.
  intros B w caller props fresh result H201. subst result.
  destruct (POST_created B w caller props fresh H201)
    as (payload & st & pr & due & Hp & Hm & Hfresh & Hprofile & _ & _ & _ & Hrun).
  cbv zeta in Hrun. rewrite Hrun. cbn [fst snd db].
  destruct (taskData_title _ _ _ _ _ _ _ _ Hp Hm) as (s & Ht & Hs & Hne & Hd).
  destruct (taskData_fields _ _ _ _ _ _ _ _ Hp) as (Hu & _ & _).
  eexists. split; [reflexivity |]. split; [reflexivity |]. simpl.
  split; [reflexivity |]. split; [exact Hu |]. split; [reflexivity |].
  split; [exists s; auto |]. split; [now rewrite Hs |].
  split; [rewrite Hs; apply trim_idem |]. split; [exact Hd |].
  split; [exact Hprofile |].
  intros taskId Hid.
  match goal with
  | |- fst (TaskRoute.GET _ _ _ ?w') = json (task_detail_body (Some (detail _ _ ?row))) _ =>
      apply (GET_granted B w' caller taskId row)
  end.
  - unfold only_task. simpl. rewrite filter_app. simpl.
    unfold has_id at 2. simpl. rewrite String.eqb_refl.
    rewrite filter_none; [reflexivity |].
    intros x Hx. destruct (has_id fresh x) eqn:E; [| reflexivity].
    assert (existsb (has_id fresh) (tasks (db w)) = true)
      by (apply existsb_exists; now exists x).
    congruence.
  - exact Hid.
  - left. exact Hu.
Qed.

(** Bob creates "Buy bread" and fetches it, spelling the identifier in
    upper case. *)
Lemma created_task_can_be_fetched_witness :
  exists row,
    tasks (db (snd (TasksRoute.POST Sample.backend (authenticated Sample.bob)
                      (Sample.body_of [("title", JS.Str "  Buy bread ")]) Sample.bread_id
                      Sample.world)))
    = tasks Sample.store ++ [row]
    /\ t_id row = Sample.bread_id /\ t_user_id row = Sample.bob_id
    /\ (exists s, Some (JS.Str "  Buy bread ") = Some (JS.Str s) /\ t_title row = JS.trim s)
    /\ status
         (fst (TaskRoute.GET Sample.backend (authenticated Sample.bob)
                 "7A5C0000-0000-4000-8000-000000000002"
                 (snd (TasksRoute.POST Sample.backend (authenticated Sample.bob)
                         (Sample.body_of [("title", JS.Str "  Buy bread ")])
                         Sample.bread_id Sample.world)))) = 200%Z.
Proof.
  destruct (created_task_can_be_fetched Sample.backend Sample.world Sample.bob
              [("title", JS.Str "  Buy bread ")] Sample.bread_id eq_refl)
    as (row & Hrows & _ & Hid & Hown & _ & Htitle & _ & _ & _ & _ & Hget).
  exists row. split; [exact Hrows |]. split; [exact Hid |]. split; [exact Hown |].
  split; [exact Htitle |].
  exact (f_equal status (Hget "7A5C0000-0000-4000-8000-000000000002" eq_refl)).
Defined.
(* ================================================================== *)
(** ** Sharing and unsharing *)
(* ================================================================== *)

Lemma profile_found (d : Db) (v : JS.value) (target : ProfileRef) :
  select_profile_by_email d v = ok target -> has_profile d (pr_id target) = true.
Proof.
  unfold select_profile_by_email. intros H.
  apply (f_equal data) in H. simpl in H. apply single_data_in in H.
  assert (Hin : In target (map profile_ref
                             (filter (fun p => text_eq (p_email p) v) (profiles d))))
    by (rewrite H; now left).
  apply in_map_iff in Hin. destruct Hin as (p & <- & Hp). apply filter_In in Hp.
  unfold has_profile. apply existsb_exists. exists p. split; [tauto |].
  apply String.eqb_refl.
Qed.

Lemma select_share_none (supabase : Client) (d : Db) (taskId key userId : string) :
  uuid_in (backend supabase) taskId = Some key ->
  existsb (is_share key userId) (task_shares d) = false ->
  data (select_share supabase d taskId userId) = None.
Proof.
  unfold select_share, with_uuid, visible_shares. intros -> Hnone.
  rewrite filter_none; [reflexivity |].
  intros s Hs. apply filter_In in Hs. destruct Hs as [Hs _].
  destruct (is_share key userId s) eqn:E; [| reflexivity].
  assert (existsb (is_share key userId) (task_shares d) = true)
    by (apply existsb_exists; now exists s).
  congruence.
Qed.

Lemma owner_can_insert_share (B : Backend) (caller : User) (d : Db) (t : Task) :
  only_task d t -> t_user_id t = id caller ->
  can_insert_share (createClient B (authenticated caller)) d (t_id t) (id caller) = true.
Proof.
  intros Ho Hu. unfold can_insert_share. rewrite is_uid_caller, String.eqb_refl. simpl.
  apply existsb_exists. exists t. split; [now apply only_task_stored |].
  rewrite (can_select_own_task B caller d t Hu), is_uid_caller, Hu, String.eqb_refl.
  simpl. rewrite andb_true_r. now apply has_id_true.
Qed.

Lemma share_accepted (B : Backend) (w : World) (t : Task) (taskId : string) (caller : User)
    (props : list (string * JS.value)) (userEmail : JS.value) (targetUser : ProfileRef)
    (fresh : string) :
  only_task (db w) t ->
  names B taskId t ->
  t_user_id t = id caller ->
  has_account (db w) caller ->
  JS.lookup "userEmail" props = Some userEmail ->
  JS.truthy (Some userEmail) = true ->
  select_profile_by_email (db w) userEmail = ok targetUser ->
  pr_id targetUser <> id caller ->
  existsb (is_share (t_id t) (pr_id targetUser)) (task_shares (db w)) = false ->
  existsb (fun s => String.eqb (s_id s) fresh) (task_shares (db w)) = false ->
  let row := {| s_id := fresh; s_task_id := t_id t;
                s_shared_with_user_id := pr_id targetUser;
                s_shared_by_user_id := id caller; s_permission := Some view |} in
  ShareRoute.POST B (authenticated caller) taskId (Some (JS.Obj props)) fresh w
  = (json (share_body "Task shared successfully"
             (Some {| sp_share := row;
                      sp_profile := profile_of (db w) (pr_id targetUser) |})) 201,
     {| db := {| profiles := profiles (db w); tasks := tasks (db w);
                 task_shares := task_shares (db w) ++ [row];
                 comments := comments (db w); attachments := attachments (db w) |};
        trace := trace w ++ [issued "tasks" Select; issued "profiles" Select;
                             issued "task_shares" Select; issued "task_shares" Insert] |}).
Proof.
  intros Hone Hn Hown Hacc Hprop Htruthy Hfound Hother Hnew Hfresh row. subst row.
  unfold ShareRoute.POST, try_catch, bind, read, query, field. simpl.
  rewrite Hprop. rewrite Htruthy. simpl.
  rewrite (owner_result_own B caller (db w) taskId t Hn Hone Hown). simpl.
  rewrite String.eqb_refl. simpl.
  rewrite Hfound. simpl.
  replace (String.eqb (pr_id targetUser) (id caller)) with false
    by (symmetry; now apply String.eqb_neq).
  simpl.
  rewrite (select_share_none (createClient B (authenticated caller)) (db w) taskId (t_id t)
             (pr_id targetUser) Hn Hnew).
  simpl. unfold insert_share.
  cbn [si_task_id si_shared_with_user_id si_shared_by_user_id backend createClient].
  unfold names in Hn. rewrite Hn.
  rewrite (owner_can_insert_share B caller (db w) t Hone Hown).
  rewrite (profile_found (db w) userEmail targetUser Hfound).
  unfold has_account in Hacc. rewrite Hacc.
  rewrite Hnew, Hfresh. simpl. rewrite <- !app_assoc. reflexivity.
Qed.

(** X7.  When the owner, who has a profile, shares a task with another
    user who has no share of it yet, the answer is 201 and the store
    gains exactly one share row, for that task and user, recorded as
    given by the owner with the default permission "view"; tasks and
    profiles are untouched.  From then on the recipient's fetch of the
    task is answered 200 with the joined row, in which the recipient
    finds the new share and no share of the task with somebody else,
    while the recipient's update and delete are still answered 403. *)
Theorem share_grants_read_access_only :
  forall (B : Backend) (w : World) (t : Task) (taskId : string) (caller : User)
         (props : list (string * JS.value)) (userEmail : JS.value)
         (targetUser : ProfileRef) (fresh : string) (raw : option JS.value),
    let result :=
      ShareRoute.POST B (authenticated caller) taskId (Some (JS.Obj props)) fresh w in
    let row := {| s_id := fresh; s_task_id := t_id t;
                  s_shared_with_user_id := pr_id targetUser;
                  s_shared_by_user_id := id caller; s_permission := Some view |} in
    only_task (db w) t ->
    names B taskId t ->
    t_user_id t = id caller ->
    has_account (db w) caller ->
    JS.lookup "userEmail" props = Some userEmail ->
    JS.truthy (Some userEmail) = true ->
    select_profile_by_email (db w) userEmail = ok targetUser ->
    pr_id targetUser <> id caller ->
    existsb (is_share (t_id t) (pr_id targetUser)) (task_shares (db w)) = false ->
    existsb (fun s => String.eqb (s_id s) fresh) (task_shares (db w)) = false ->
    status (fst result) = 201%Z
    /\ task_shares (db (snd result)) = task_shares (db w) ++ [row]
    /\ tasks (db (snd result)) = tasks (db w)
    /\ profiles (db (snd result)) = profiles (db w)
    /\ (forall recipient, id recipient = pr_id targetUser ->
          let seen := detail (client_of B recipient) (db (snd result)) t in
          fst (TaskRoute.GET B (authenticated recipient) taskId (snd result))
          = json (task_detail_body (Some seen)) 200
          /\ In row (map fst (td_task_shares seen))
          /\ (forall s, In s (map fst (td_task_shares seen)) ->
                In s (task_shares (db (snd result))) /\ s_task_id s = t_id t
                /\ (s_shared_with_user_id s = id recipient
                    \/ s_shared_by_user_id s = id recipient))
          /\ fst (TaskRoute.PATCH B (authenticated recipient) taskId raw (snd result))
             = json (error_body "Forbidden - Only owner can update task") 403
          /\ fst (TaskRoute.DELETE B (authenticated recipient) taskId (snd result))
             = json (error_body "Forbidden - Only owner can delete task") 403).
Proof.
  intros B w t taskId caller props userEmail targetUser fresh raw result row
    Hone Hn Hown Hacc Hprop Htruthy Hfound Hother Hnew Hfresh.
  subst result.
  rewrite (share_accepted B w t taskId caller props userEmail targetUser fresh
             Hone Hn Hown Hacc Hprop Htruthy Hfound Hother Hnew Hfresh).
  cbn [fst snd db status json task_shares tasks profiles].
  split; [reflexivity |]. split; [reflexivity |]. split; [reflexivity |].
  split; [reflexivity |].
  intros recipient Hrec.
  match goal with |- fst (TaskRoute.GET _ _ _ ?w') = _ /\ _ => set (after := w') in * end.
  match goal with
  | |- _ = json (task_detail_body (Some ?d)) _ /\ _ => set (seen := d) in *
  end.
  assert (Hone' : only_task (db after) t) by exact Hone.
  assert (Hforeign : t_user_id t <> id recipient) by (rewrite Hown, Hrec; auto).
  assert (Hseen : forall s, In s (map fst (td_task_shares seen))
                            <-> In s (shares_seen (client_of B recipient) (db after) (t_id t))).
  { intros s. subst seen. unfold detail. cbn [td_task_shares]. rewrite map_map. simpl.
    now rewrite map_id. }
  split; [| split; [| split; [| split]]].
  - apply (GET_granted B after recipient taskId t); [exact Hone' | exact Hn |].
    right. exists row. subst after row. simpl. rewrite in_app_iff. simpl. auto.
  - apply Hseen. unfold shares_seen, shares_of. apply filter_In. split.
    + apply filter_In. split.
      * subst after row. simpl. rewrite in_app_iff. simpl. auto.
      * subst row. simpl. apply String.eqb_refl.
    + apply can_select_share_iff. right. subst row. simpl. now symmetry.
  - intros s Hs. apply Hseen in Hs. unfold shares_seen, shares_of in Hs.
    apply filter_In in Hs. destruct Hs as [Hs Hsee]. apply filter_In in Hs.
    destruct Hs as [Hin Hid]. apply String.eqb_eq in Hid.
    apply can_select_share_iff in Hsee. tauto.
  - pose proof (not_owner_of_foreign_task B (db after) taskId t recipient Hn Hone' Hforeign)
      as Hno.
    unfold TaskRoute.PATCH, try_catch, bind, read, query. simpl.
    simpl in Hno. rewrite Hno. reflexivity.
  - pose proof (not_owner_of_foreign_task B (db after) taskId t recipient Hn Hone' Hforeign)
      as Hno.
    unfold TaskRoute.DELETE, try_catch, bind, read, query. simpl.
    simpl in Hno. rewrite Hno. reflexivity.
Qed.

(** Carol cannot fetch Alice's task until Alice shares it with her;
    then she sees her own share of it and not Bob's, and still cannot
    delete it. *)
Lemma share_grants_read_access_only_witness :
  status (fst (ShareRoute.POST Sample.backend (authenticated Sample.alice) Sample.milk_id
                 (Sample.body_of [("userEmail", JS.Str "carol@example.com")])
                 Sample.next_share_id Sample.world)) = 201%Z
  /\ fst (TaskRoute.GET Sample.backend (authenticated Sample.carol) Sample.milk_id
            Sample.world)
     = json (error_body "Forbidden") 403
  /\ fst (TaskRoute.GET Sample.backend (authenticated Sample.carol) Sample.milk_id
            (snd (ShareRoute.POST Sample.backend (authenticated Sample.alice) Sample.milk_id
                    (Sample.body_of [("userEmail", JS.Str "carol@example.com")])
                    Sample.next_share_id Sample.world)))
     = json (task_detail_body
               (Some {| td_task := Sample.milk; td_profile := Some Sample.alice_ref;
                        td_comments := []; td_attachments := [];
                        td_task_shares :=
                          [({| s_id := Sample.next_share_id; s_task_id := Sample.milk_id;
                               s_shared_with_user_id := Sample.carol_id;
                               s_shared_by_user_id := Sample.alice_id;
                               s_permission := Some view |},
                            Some {| pr_id := Sample.carol_id; pr_full_name := Some "Carol";
                                    pr_email := "carol@example.com" |})] |})) 200
  /\ fst (TaskRoute.DELETE Sample.backend (authenticated Sample.carol) Sample.milk_id
            (snd (ShareRoute.POST Sample.backend (authenticated Sample.alice) Sample.milk_id
                    (Sample.body_of [("userEmail", JS.Str "carol@example.com")])
                    Sample.next_share_id Sample.world)))
     = json (error_body "Forbidden - Only owner can delete task") 403.
Proof.
  destruct (share_grants_read_access_only Sample.backend Sample.world Sample.milk
              Sample.milk_id Sample.alice
              [("userEmail", JS.Str "carol@example.com")] (JS.Str "carol@example.com")
              {| pr_id := Sample.carol_id; pr_full_name := Some "Carol";
                 pr_email := "carol@example.com" |} Sample.next_share_id None
              eq_refl eq_refl eq_refl eq_refl eq_refl eq_refl eq_refl
              ltac:(simpl; discriminate) eq_refl eq_refl)
    as (H201 & _ & _ & _ & Hafter).
  destruct (Hafter Sample.carol eq_refl) as (Hget & _ & _ & _ & Hdel).
  split; [exact H201 |]. split; [reflexivity |].
  split; [exact Hget | exact Hdel].
Defined.

(** X8.  The order in which share-create turns a request down, for an
    authenticated caller and a body that is an object: a missing or
    falsy [userEmail] is answered 400 before any query is issued; else
    an identifier that names no task, or a task the caller neither owns
    nor has a share of, is answered 404; else a caller who has a share
    of the task but is not its owner is answered 403; else an email that
    resolves to no single profile is answered 404.  None of them changes
    the store. *)
Theorem share_create_refusals :
  forall (B : Backend) (w : World) (caller : User) (taskId fresh : string)
         (props : list (string * JS.value)),
    let result :=
      ShareRoute.POST B (authenticated caller) taskId (Some (JS.Obj props)) fresh w in
    (JS.truthy (JS.lookup "userEmail" props) = false ->
       result = (json (error_body "User email is required") 400, w))
    /\ (JS.truthy (JS.lookup "userEmail" props) = true ->
        names_no_task B (db w) taskId ->
          fst result = json (error_body "Task not found") 404 /\ db (snd result) = db w)
    /\ (JS.truthy (JS.lookup "userEmail" props) = true ->
        forall t, only_task (db w) t -> names B taskId t -> t_user_id t <> id caller ->
          ~ shared_with (db w) (t_id t) caller ->
          fst result = json (error_body "Task not found") 404 /\ db (snd result) = db w)
    /\ (JS.truthy (JS.lookup "userEmail" props) = true ->
        forall t, only_task (db w) t -> names B taskId t -> t_user_id t <> id caller ->
          shared_with (db w) (t_id t) caller ->
          fst result = json (error_body "Only task owner can share") 403
          /\ db (snd result) = db w)
    /\ (forall v, JS.lookup "userEmail" props = Some v -> JS.truthy (Some v) = true ->
        forall t, only_task (db w) t -> names B taskId t -> t_user_id t = id caller ->
          data (select_profile_by_email (db w) v) = None ->
          fst result = json (error_body "User not found with that email") 404
          /\ db (snd result) = db w).
Proof.
  intros B w caller taskId fresh props result. subst result.
  unfold ShareRoute.POST, try_catch, bind, read, query, field.
  cbn -[JS.truthy JS.lookup].
  destruct (JS.lookup "userEmail" props) as [v0 |].
  2: { simpl. split; [intros _; now destruct w |].
       split; [discriminate |]. split; [discriminate |]. split; [discriminate |].
       intros v E. discriminate. }
  cbn -[JS.truthy].
  split; [| split; [| split; [| split]]].
  - intros Hf. rewrite Hf. simpl. now destruct w.
  - intros Ht Hno. rewrite Ht. simpl.
    destruct (owner_missing (createClient B (authenticated caller)) (db w) taskId Hno)
      as [e ->].
    simpl. auto.
  - intros Ht t Hone Hn Hne Hns. rewrite Ht. simpl.
    rewrite (owner_result (createClient B (authenticated caller)) (db w) taskId t Hn Hone).
    rewrite (cannot_select_foreign_task B caller (db w) t Hne Hns). simpl. auto.
  - intros Ht t Hone Hn Hne Hs. rewrite Ht. simpl.
    rewrite (owner_result (createClient B (authenticated caller)) (db w) taskId t Hn Hone).
    replace (can_select_task (createClient B (authenticated caller)) (db w) t) with true
      by (symmetry; apply can_select_task_iff; now right).
    simpl.
    replace (String.eqb (t_user_id t) (id caller)) with false
      by (symmetry; now apply String.eqb_neq).
    simpl. auto.
  - intros v E Ht t Hone Hn Hown Hnone. inversion E; subst v0.
    rewrite Ht. simpl.
    rewrite (owner_result_own B caller (db w) taskId t Hn Hone Hown). simpl.
    rewrite String.eqb_refl. simpl.
    rewrite Hnone.
    destruct (error (select_profile_by_email (db w) v)); simpl; auto.
Qed.

(** Bob is told that a task he has no share of is not found, exactly as
    for an identifier that names nothing, and that he is not the owner
    of the task Alice shared with him. *)
Lemma share_create_refusals_witness :
  ShareRoute.POST Sample.backend (authenticated Sample.bob) Sample.missing_id
    (Sample.body_of [("userEmail", JS.Str "")]) Sample.next_share_id Sample.world
  = (json (error_body "User email is required") 400, Sample.world)
  /\ fst (ShareRoute.POST Sample.backend (authenticated Sample.bob) Sample.missing_id
            (Sample.body_of [("userEmail", JS.Str "carol@example.com")])
            Sample.next_share_id Sample.world)
     = json (error_body "Task not found") 404
  /\ fst (ShareRoute.POST Sample.backend (authenticated Sample.carol) Sample.milk_id
            (Sample.body_of [("userEmail", JS.Str "bob@example.com")])
            Sample.next_share_id Sample.world)
     = json (error_body "Task not found") 404
  /\ fst (ShareRoute.POST Sample.backend (authenticated Sample.bob) Sample.milk_id
            (Sample.body_of [("userEmail", JS.Str "nobody@example.com")])
            Sample.next_share_id Sample.world)
     = json (error_body "Only task owner can share") 403
  /\ fst (ShareRoute.POST Sample.backend (authenticated Sample.alice) Sample.milk_id
            (Sample.body_of [("userEmail", JS.Str "nobody@example.com")])
            Sample.next_share_id Sample.world)
     = json (error_body "User not found with that email") 404.
Proof.
  split; [| split; [| split; [| split]]].
  - destruct (share_create_refusals Sample.backend Sample.world Sample.bob Sample.missing_id
                Sample.next_share_id [("userEmail", JS.Str "")]) as (H & _).
    exact (H eq_refl).
  - destruct (share_create_refusals Sample.backend Sample.world Sample.bob Sample.missing_id
                Sample.next_share_id [("userEmail", JS.Str "carol@example.com")])
      as (_ & H & _).
    apply H; [reflexivity |]. intros key Hk. vm_compute in Hk. inversion Hk; subst key.
    intros t [<- | []]. simpl. discriminate.
  - destruct (share_create_refusals Sample.backend Sample.world Sample.carol Sample.milk_id
                Sample.next_share_id [("userEmail", JS.Str "bob@example.com")])
      as (_ & _ & H & _).
    apply (H eq_refl Sample.milk); [reflexivity | reflexivity | simpl; discriminate |].
    intros (s & [<- | []] & _ & Hu). simpl in Hu. discriminate.
  - destruct (share_create_refusals Sample.backend Sample.world Sample.bob Sample.milk_id
                Sample.next_share_id [("userEmail", JS.Str "nobody@example.com")])
      as (_ & _ & _ & H & _).
    apply (H eq_refl Sample.milk); [reflexivity | reflexivity | simpl; discriminate |].
    exists Sample.milk_for_bob. simpl. repeat split. now left.
  - destruct (share_create_refusals Sample.backend Sample.world Sample.alice Sample.milk_id
                Sample.next_share_id [("userEmail", JS.Str "nobody@example.com")])
      as (_ & _ & _ & _ & H).
    apply (H _ eq_refl eq_refl Sample.milk); reflexivity.
Defined.

Lemma unshare_by_owner (B : Backend) (w : World) (t : Task) (taskId : string)
    (caller : User) (props : list (string * JS.value)) (v : JS.value) (userId : string) :
  only_task (db w) t ->
  names B taskId t ->
  t_user_id t = id caller ->
  JS.lookup "sharedUserId" props = Some v ->
  JS.truthy (Some v) = true ->
  uuid_in B (JS.to_string v) = Some userId ->
  UnshareRoute.DELETE B (authenticated caller) taskId (Some (JS.Obj props)) w
  = (json (message_body "Task unshared successfully") 200,
     {| db := unshared (id caller) (t_id t) userId (db w);
        trace := trace w ++ [issued "tasks" Select; issued "task_shares" Delete] |}).
Proof.
  intros Hone Hn Hown Hprop Ht Hv.
  unfold UnshareRoute.DELETE, try_catch, bind, read, query, field.
  cbn -[JS.truthy JS.lookup JS.to_string].
  rewrite Hprop. cbn -[JS.truthy JS.to_string]. rewrite Ht. cbn -[JS.to_string].
  rewrite (owner_result_own B caller (db w) taskId t Hn Hone Hown). cbn -[JS.to_string].
  rewrite String.eqb_refl. cbn -[JS.to_string].
  unfold delete_share. cbn [backend createClient].
  unfold names in Hn. rewrite Hn, Hv. cbn -[JS.to_string].
  rewrite <- app_assoc. reflexivity.
Qed.

Lemma unshare_unreadable (B : Backend) (w : World) (t : Task) (taskId : string)
    (caller : User) (props : list (string * JS.value)) (v : JS.value) :
  only_task (db w) t ->
  names B taskId t ->
  t_user_id t = id caller ->
  JS.lookup "sharedUserId" props = Some v ->
  JS.truthy (Some v) = true ->
  uuid_in B (JS.to_string v) = None ->
  UnshareRoute.DELETE B (authenticated caller) taskId (Some (JS.Obj props)) w
  = (json (error_body "Failed to unshare task") 500,
     {| db := db w;
        trace := trace w ++ [issued "tasks" Select; issued "task_shares" Delete] |}).
Proof.
  intros Hone Hn Hown Hprop Ht Hv.
  unfold UnshareRoute.DELETE, try_catch, bind, read, query, field.
  cbn -[JS.truthy JS.lookup JS.to_string].
  rewrite Hprop. cbn -[JS.truthy JS.to_string]. rewrite Ht. cbn -[JS.to_string].
  rewrite (owner_result_own B caller (db w) taskId t Hn Hone Hown). cbn -[JS.to_string].
  rewrite String.eqb_refl. cbn -[JS.to_string].
  unfold delete_share. cbn [backend createClient].
  unfold names in Hn. rewrite Hn, Hv. cbn -[JS.to_string].
  rewrite <- app_assoc. reflexivity.
Qed.

Lemma filter_idem {A : Type} (p : A -> bool) (l : list A) :
  filter p (filter p l) = filter p l.
Proof.
  apply filter_all. intros x Hx. apply filter_In in Hx. tauto.
Qed.

(** When every share was given by the owner of its task, the shares of
    a task of [giver] are all given by [giver]. *)
Lemma unshared_all (d : Db) (t : Task) (giver userId : string) (s : TaskShare) :
  given_by_owner d -> In t (tasks d) -> t_user_id t = giver -> In s (task_shares d) ->
  is_share (t_id t) userId s && String.eqb (s_shared_by_user_id s) giver
  = is_share (t_id t) userId s.
Proof.
  intros Hg Hin Hu Hs. destruct (is_share (t_id t) userId s) eqn:E; [| reflexivity].
  simpl. unfold is_share in E. apply andb_true_iff in E. destruct E as [E _].
  apply String.eqb_eq in E. apply String.eqb_eq.
  rewrite (Hg s t Hs Hin (eq_sym E)). exact Hu.
Qed.

(** X9.  The owner of a task stored once asks to remove the share of a
    user, named by a truthy value that is sent as a string.  When the
    backend refuses that string as an identifier, the answer is 500 and
    nothing changes.  Otherwise the answer is 200 whether or not such a
    share exists: the shares of the task with that user that the owner
    gave are gone, every other share is kept and no other table is
    touched; if there was no share of the task with the user the store
    is unchanged; asking again changes nothing more.  When every share
    was given by the owner of its task, no share of the task with that
    user is left, and a user other than the owner who had access through
    that share now gets 403 on a fetch. *)
Theorem unshare_removes_access :
  forall (B : Backend) (w : World) (t : Task) (taskId : string) (caller : User)
         (props : list (string * JS.value)) (v : JS.value),
    let request :=
      UnshareRoute.DELETE B (authenticated caller) taskId (Some (JS.Obj props)) in
    let after := snd (request w) in
    only_task (db w) t ->
    names B taskId t ->
    t_user_id t = id caller ->
    JS.lookup "sharedUserId" props = Some v ->
    JS.truthy (Some v) = true ->
    (uuid_in B (JS.to_string v) = None ->
       fst (request w) = json (error_body "Failed to unshare task") 500
       /\ db after = db w)
    /\ (forall userId, uuid_in B (JS.to_string v) = Some userId ->
          fst (request w) = json (message_body "Task unshared successfully") 200
          /\ (forall s, In s (task_shares (db after))
                        <-> In s (task_shares (db w))
                            /\ ~ (is_share (t_id t) userId s = true
                                  /\ s_shared_by_user_id s = id caller))
          /\ tasks (db after) = tasks (db w)
          /\ profiles (db after) = profiles (db w)
          /\ comments (db after) = comments (db w)
          /\ attachments (db after) = attachments (db w)
          /\ (existsb (is_share (t_id t) userId) (task_shares (db w)) = false ->
                db after = db w)
          /\ (fst (request after) = json (message_body "Task unshared successfully") 200
              /\ db (snd (request after)) = db after)
          /\ (given_by_owner (db w) ->
                filter (is_share (t_id t) userId) (task_shares (db after)) = []
                /\ (forall former, id former = userId -> userId <> id caller ->
                      fst (TaskRoute.GET B (authenticated former) taskId after)
                      = json (error_body "Forbidden") 403))).
Proof.
  intros B w t taskId caller props v request after Hone Hn Hown Hprop Htruthy.
  split.
  { intros Hbad. subst after request. cbv beta.
    rewrite (unshare_unreadable B w t taskId caller props v Hone Hn Hown Hprop Htruthy Hbad).
    split; reflexivity. }
  intros userId Hv.
  assert (Hrun := unshare_by_owner B w t taskId caller props v userId
                    Hone Hn Hown Hprop Htruthy Hv).
  assert (Hafter : db after = unshared (id caller) (t_id t) userId (db w)).
  { subst after request. cbv beta. now rewrite Hrun. }
  assert (Hone' : only_task (db after) t).
  { unfold only_task. rewrite Hafter. exact Hone. }
  assert (Hrun' := unshare_by_owner B after t taskId caller props v userId
                     Hone' Hn Hown Hprop Htruthy Hv).
  subst request. cbv beta in *. rewrite Hrun'. rewrite Hrun. cbn [fst snd db].
  rewrite Hafter. cbn [unshared task_shares tasks profiles comments attachments].
  split; [reflexivity |].
  split.
  { intros s. rewrite filter_In, negb_true_iff, andb_false_iff.
    split; intros [Hin Hs]; (split; [assumption |]).
    - intros [H1 H2]. destruct Hs as [Hs | Hs]; [congruence |].
      apply String.eqb_neq in Hs. contradiction.
    - destruct (is_share (t_id t) userId s) eqn:E; [| now left]. right.
      apply String.eqb_neq. intros H. apply Hs. now split. }
  split; [reflexivity |]. split; [reflexivity |]. split; [reflexivity |].
  split; [reflexivity |].
  split.
  { intros Hnone. destruct (db w) as [ps ts ss cs ats]. unfold unshared. simpl in *. f_equal.
    apply filter_all. intros s Hs.
    destruct (is_share (t_id t) userId s) eqn:E; [| reflexivity].
    assert (existsb (is_share (t_id t) userId) ss = true)
      by (apply existsb_exists; now exists s).
    congruence. }
  split.
  { split; [reflexivity |]. unfold unshared. simpl. f_equal. apply filter_idem. }
  intros Hg.
  assert (Hleft : filter (is_share (t_id t) userId)
                    (filter (fun s => negb (is_share (t_id t) userId s
                                            && String.eqb (s_shared_by_user_id s) (id caller)))
                            (task_shares (db w))) = []).
  { apply filter_none. intros s Hs. apply filter_In in Hs. destruct Hs as [Hin Hs].
    rewrite (unshared_all (db w) t (id caller) userId s Hg
               (only_task_stored _ _ Hone) Hown Hin) in Hs.
    now apply negb_true_iff in Hs. }
  split; [exact Hleft |].
  intros former Hformer Hother.
  apply (GET_refused B after former taskId t); [exact Hone' | exact Hn | |].
  - rewrite Hown, Hformer. auto.
  - intros (s & Hs & Hid & Hu). rewrite Hafter in Hs. simpl in Hs.
    assert (Hf : In s (filter (is_share (t_id t) userId)
                         (filter (fun s => negb (is_share (t_id t) userId s
                                                 && String.eqb (s_shared_by_user_id s)
                                                      (id caller)))
                                 (task_shares (db w))))).
    { apply filter_In. split; [exact Hs |]. unfold is_share.
      now rewrite Hid, Hu, Hformer, !String.eqb_refl. }
    rewrite Hleft in Hf. exact Hf.
Qed.

(** Bob can fetch Alice's task until she removes his share; a request
    that names him by something that is no identifier fails and changes
    nothing. *)
Lemma unshare_removes_access_witness :
  fst (TaskRoute.GET Sample.backend (authenticated Sample.bob) Sample.milk_id Sample.world)
  = json (task_detail_body
            (Some {| td_task := Sample.milk; td_profile := Some Sample.alice_ref;
                     td_comments := []; td_attachments := [];
                     td_task_shares := [(Sample.milk_for_bob, Some Sample.bob_ref)] |}))
         200
  /\ fst (UnshareRoute.DELETE Sample.backend (authenticated Sample.alice) Sample.milk_id
            (Sample.body_of [("sharedUserId", JS.Str Sample.bob_id)]) Sample.world)
     = json (message_body "Task unshared successfully") 200
  /\ fst (TaskRoute.GET Sample.backend (authenticated Sample.bob) Sample.milk_id
            (snd (UnshareRoute.DELETE Sample.backend (authenticated Sample.alice)
                    Sample.milk_id
                    (Sample.body_of [("sharedUserId", JS.Str Sample.bob_id)])
                    Sample.world)))
     = json (error_body "Forbidden") 403
  /\ UnshareRoute.DELETE Sample.backend (authenticated Sample.alice) Sample.milk_id
       (Sample.body_of [("sharedUserId", JS.Str "bob")]) Sample.world
     = (json (error_body "Failed to unshare task") 500,
        {| db := Sample.store;
           trace := [issued "tasks" Select; issued "task_shares" Delete] |}).
Proof.
  destruct (unshare_removes_access Sample.backend Sample.world Sample.milk Sample.milk_id
              Sample.alice [("sharedUserId", JS.Str Sample.bob_id)] (JS.Str Sample.bob_id)
              eq_refl eq_refl eq_refl eq_refl eq_refl) as (_ & Hgood).
  destruct (Hgood Sample.bob_id eq_refl) as (Hok & _ & _ & _ & _ & _ & _ & _ & Hgiven).
  assert (Hg : given_by_owner Sample.store).
  { intros s t [<- | []] [<- | []] _. reflexivity. }
  destruct (Hgiven Hg) as [_ Hget].
  split; [reflexivity |]. split; [exact Hok |].
  split; [apply (Hget Sample.bob); [reflexivity | simpl; discriminate] |].
  destruct (unshare_removes_access Sample.backend Sample.world Sample.milk Sample.milk_id
              Sample.alice [("sharedUserId", JS.Str "bob")] (JS.Str "bob")
              eq_refl eq_refl eq_refl eq_refl eq_refl) as (Hbad & _).
  destruct (Hbad eq_refl) as [_ _]. reflexivity.
Defined.

(** X10.  Sharing and then unsharing is a round trip: after the share
    by the owner, who has a profile, of a task with a user who had none
    is answered 201, the owner's request to remove that user's share,
    naming the user by the identifier of the profile, is answered 200
    and the store is again exactly what it was before the share. *)
Theorem share_then_unshare_restores_store :
  forall (B : Backend) (w : World) (t : Task) (taskId : string) (caller : User)
         (props : list (string * JS.value)) (userEmail : JS.value)
         (targetUser : ProfileRef) (fresh : string),
    let shared :=
      snd (ShareRoute.POST B (authenticated caller) taskId (Some (JS.Obj props)) fresh w) in
    let undo :=
      UnshareRoute.DELETE B (authenticated caller) taskId
        (Some (JS.Obj [("sharedUserId", JS.Str (pr_id targetUser))])) shared in
    only_task (db w) t ->
    names B taskId t ->
    t_user_id t = id caller ->
    has_account (db w) caller ->
    JS.lookup "userEmail" props = Some userEmail ->
    JS.truthy (Some userEmail) = true ->
    select_profile_by_email (db w) userEmail = ok targetUser ->
    pr_id targetUser <> id caller ->
    pr_id targetUser <> "" ->
    uuid_in B (pr_id targetUser) = Some (pr_id targetUser) ->
    existsb (is_share (t_id t) (pr_id targetUser)) (task_shares (db w)) = false ->
    existsb (fun s => String.eqb (s_id s) fresh) (task_shares (db w)) = false ->
    db shared <> db w
    /\ fst undo = json (message_body "Task unshared successfully") 200
    /\ db (snd undo) = db w.
Proof.
  intros B w t taskId caller props userEmail targetUser fresh shared undo
    Hone Hn Hown Hacc Hprop Htruthy Hfound Hother Hname Hread Hnew Hfresh.
  subst undo shared.
  rewrite (share_accepted B w t taskId caller props userEmail targetUser fresh
             Hone Hn Hown Hacc Hprop Htruthy Hfound Hother Hnew Hfresh).
  cbn [snd].
  match goal with |- db ?w' <> _ /\ _ => set (shared := w') end.
  assert (Hone' : only_task (db shared) t) by exact Hone.
  assert (Htr : JS.truthy (Some (JS.Str (pr_id targetUser))) = true).
  { simpl. apply negb_true_iff. now apply String.eqb_neq. }
  rewrite (unshare_by_owner B shared t taskId caller
             [("sharedUserId", JS.Str (pr_id targetUser))] (JS.Str (pr_id targetUser))
             (pr_id targetUser) Hone' Hn Hown eq_refl Htr Hread).
  cbn [fst snd db]. split; [| split; [reflexivity |]].
  - subst shared. simpl. intros E.
    apply (f_equal (fun d => length (task_shares d))) in E. simpl in E.
    rewrite length_app in E. simpl in E. lia.
  - subst shared. unfold unshared. simpl.
    destruct (db w) as [ps ts ss cs ats]. simpl in *. f_equal.
    rewrite filter_app. simpl. unfold is_share at 2. simpl.
    rewrite !String.eqb_refl. simpl. rewrite app_nil_r.
    apply filter_all. intros s Hs.
    destruct (is_share (t_id t) (pr_id targetUser) s) eqn:E; [| reflexivity].
    assert (existsb (is_share (t_id t) (pr_id targetUser)) ss = true)
      by (apply existsb_exists; now exists s).
    congruence.
Qed.

Lemma share_then_unshare_restores_store_witness :
  db (snd (UnshareRoute.DELETE Sample.backend (authenticated Sample.alice) Sample.milk_id
             (Sample.body_of [("sharedUserId", JS.Str Sample.carol_id)])
             (snd (ShareRoute.POST Sample.backend (authenticated Sample.alice)
                     Sample.milk_id
                     (Sample.body_of [("userEmail", JS.Str "carol@example.com")])
                     Sample.next_share_id Sample.world))))
  = Sample.store.
Proof.
  destruct (share_then_unshare_restores_store Sample.backend Sample.world Sample.milk
              Sample.milk_id Sample.alice
              [("userEmail", JS.Str "carol@example.com")] (JS.Str "carol@example.com")
              {| pr_id := Sample.carol_id; pr_full_name := Some "Carol";
                 pr_email := "carol@example.com" |} Sample.next_share_id
              eq_refl eq_refl eq_refl eq_refl eq_refl eq_refl eq_refl
              ltac:(simpl; discriminate) ltac:(simpl; discriminate) eq_refl eq_refl eq_refl)
    as (_ & _ & Hback).
  exact Hback.
Defined.
(* ================================================================== *)
(** ** The task list *)
(* ================================================================== *)

Section OrderFacts.

Variable created_at : string -> Z.

Lemma insert_desc_perm (t : Task) (l : list Task) :
  Permutation (insert_desc created_at t l) (t :: l).
Proof.
  induction l as [| x l IH]; simpl; [apply Permutation_refl |].
  destruct (Z.leb (created_at (t_id x)) (created_at (t_id t))); [apply Permutation_refl |].
  eapply Permutation_trans; [apply perm_skip; exact IH | apply perm_swap].
Qed.

Lemma order_desc_perm (l : list Task) : Permutation (order_desc created_at l) l.
Proof.
  induction l as [| x l IH]; simpl; [constructor |].
  eapply Permutation_trans; [apply insert_desc_perm | now apply perm_skip].
Qed.

Lemma insert_desc_sorted (t : Task) (l : list Task) :
  StronglySorted (newest_first created_at) l -> StronglySorted (newest_first created_at) (insert_desc created_at t l).
Proof.
  induction l as [| x l IH]; simpl; intros Hs.
  - constructor; [constructor | constructor].
  - inversion Hs as [| ? ? Hrest Hall]; subst.
    destruct (Z.leb (created_at (t_id x)) (created_at (t_id t))) eqn:E.
    + apply Z.leb_le in E. constructor; [assumption |].
      constructor; [exact E |].
      eapply Forall_impl; [| exact Hall]. unfold newest_first. intros y Hy. lia.
    + apply Z.leb_gt in E. constructor; [now apply IH |].
      eapply Permutation_Forall; [apply Permutation_sym, insert_desc_perm |].
      constructor; [unfold newest_first; lia | assumption].
Qed.

Lemma order_desc_sorted (l : list Task) : StronglySorted (newest_first created_at) (order_desc created_at l).
Proof.
  induction l as [| x l IH]; simpl; [constructor | now apply insert_desc_sorted].
Qed.

(** Selecting rows commutes with putting them in order. *)
Lemma filter_insert_desc (p : Task -> bool) (t : Task) (l : list Task) :
  StronglySorted (newest_first created_at) l ->
  filter p (insert_desc created_at t l)
  = if p t then insert_desc created_at t (filter p l) else filter p l.
Proof.
  induction l as [| x l IH]; simpl; intros Hs.
  - now destruct (p t).
  - inversion Hs as [| ? ? Hrest Hall]; subst.
    destruct (Z.leb (created_at (t_id x)) (created_at (t_id t))) eqn:E.
    + simpl. destruct (p t) eqn:Et; [| reflexivity].
      destruct (p x) eqn:Ex; simpl; [now rewrite E |].
      assert (Hhead : forall l', Forall (newest_first created_at x) l' ->
                insert_desc created_at t (filter p l') = t :: filter p l').
      { intros l'. induction l' as [| y l' IH']; simpl; intros Hf; [reflexivity |].
        inversion Hf; subst. destruct (p y); [| now apply IH'].
        simpl. apply Z.leb_le in E. unfold newest_first in *.
        replace (Z.leb (created_at (t_id y)) (created_at (t_id t))) with true
          by (symmetry; apply Z.leb_le; lia).
        reflexivity. }
      now rewrite Hhead.
    + simpl. rewrite (IH Hrest).
      destruct (p x) eqn:Ex; destruct (p t) eqn:Et; simpl; rewrite ?E; reflexivity.
Qed.

Lemma filter_order_desc (p : Task -> bool) (l : list Task) :
  filter p (order_desc created_at l) = order_desc created_at (filter p l).
Proof.
  induction l as [| x l IH]; simpl; [reflexivity |].
  rewrite filter_insert_desc by apply order_desc_sorted.
  rewrite IH. now destruct (p x).
Qed.

End OrderFacts.

(** The rows a caller owns pass the select policy of [tasks]. *)
Lemma own_tasks_visible (B : Backend) (caller : User) (d : Db) :
  filter (fun t => String.eqb (t_user_id t) (id caller))
         (visible_tasks (createClient B (authenticated caller)) d)
  = filter (fun t => String.eqb (t_user_id t) (id caller)) (tasks d).
Proof.
  unfold visible_tasks. rewrite filter_swap. apply filter_all.
  intros t Ht. apply filter_In in Ht. destruct Ht as [_ Ht].
  apply String.eqb_eq in Ht. now apply can_select_own_task.
Qed.

(** X11.  For an authenticated caller the task list is answered 200 by
    one select that changes nothing, and it holds exactly the caller's
    own tasks: every listed task is owned by the caller (a task merely
    shared with the caller is not listed), every task the caller owns is
    listed once, the newest comes first, and each one carries its
    owner's profile and the (id, recipient) pairs of those of its shares
    that the caller gave or received, which are all of its shares when
    every share was given by the owner of its task. *)
Theorem task_list_is_own_tasks_newest_first :
  forall (B : Backend) (created_at : string -> Z) (w : World) (caller : User),
    let supabase := createClient B (authenticated caller) in
    exists rows,
      TasksListRoute.GET created_at B (authenticated caller) w
      = ({| TasksListRoute.list_body :=
              TasksListRoute.tasks_body (Some (map (listed supabase (db w)) rows));
            TasksListRoute.list_status := 200 |},
         {| db := db w; trace := trace w ++ [issued "tasks" Select] |})
      /\ Permutation rows
           (filter (fun t => String.eqb (t_user_id t) (id caller)) (tasks (db w)))
      /\ (forall t, In t rows <-> In t (tasks (db w)) /\ t_user_id t = id caller)
      /\ StronglySorted (newest_first created_at) rows
      /\ (forall t, In t rows ->
            lt_profile (listed supabase (db w) t) = profile_of (db w) (id caller)
            /\ lt_task_shares (listed supabase (db w) t)
               = map (fun s => (s_id s, s_shared_with_user_id s))
                     (filter (fun s => String.eqb (s_shared_by_user_id s) (id caller)
                                       || String.eqb (s_shared_with_user_id s) (id caller))
                             (filter (fun s => String.eqb (s_task_id s) (t_id t))
                                     (task_shares (db w))))
            /\ (given_by_owner (db w) ->
                  lt_task_shares (listed supabase (db w) t)
                  = map (fun s => (s_id s, s_shared_with_user_id s))
                        (filter (fun s => String.eqb (s_task_id s) (t_id t))
                                (task_shares (db w))))).
Proof.
  intros B created_at w caller supabase.
  exists (order_desc created_at
            (filter (fun t => String.eqb (t_user_id t) (id caller)) (tasks (db w)))).
  assert (Hin : forall t,
            In t (order_desc created_at
                    (filter (fun t => String.eqb (t_user_id t) (id caller)) (tasks (db w))))
            <-> In t (tasks (db w)) /\ t_user_id t = id caller).
  { intros t. split.
    - intros H. apply (Permutation_in _ (order_desc_perm created_at _)) in H.
      apply filter_In in H. now rewrite String.eqb_eq in H.
    - intros [Hin Hown].
      apply (Permutation_in _ (Permutation_sym (order_desc_perm created_at _))).
      apply filter_In. now rewrite String.eqb_eq. }
  split.
  { unfold TasksListRoute.GET, bind, read, query, require_user, ret. cbn.
    unfold select_own_tasks. fold supabase. subst supabase.
    rewrite own_tasks_visible. reflexivity. }
  split; [apply order_desc_perm |].
  split; [exact Hin |].
  split; [apply order_desc_sorted |].
  intros t Ht. apply Hin in Ht. destruct Ht as [Ht Hown].
  split; [simpl; now rewrite Hown |].
  split; [reflexivity |].
  intros Hg. unfold listed. cbn [lt_task_shares]. subst supabase.
  now rewrite (shares_seen_by_owner B caller (db w) t Hg Ht Hown).
Qed.
(* ================================================================== *)
(** ** Unshare refusals and bodies that cannot be read *)
(* ================================================================== *)

(** X12.  The order in which unshare turns a request down, for an
    authenticated caller and a body that is an object: a missing or
    falsy [sharedUserId] is answered 400 before any query is issued;
    else an identifier that names no task, or a task the caller neither
    owns nor has a share of, is answered 404; else a caller who has a
    share of the task but is not its owner is answered 403.  None of
    them changes the store or issues a delete. *)
Theorem unshare_refusals :
  forall (B : Backend) (w : World) (caller : User) (taskId : string)
         (props : list (string * JS.value)),
    let result :=
      UnshareRoute.DELETE B (authenticated caller) taskId (Some (JS.Obj props)) w in
    let looked_up := {| db := db w; trace := trace w ++ [issued "tasks" Select] |} in
    (JS.truthy (JS.lookup "sharedUserId" props) = false ->
       result = (json (error_body "User ID is required") 400, w))
    /\ (JS.truthy (JS.lookup "sharedUserId" props) = true ->
        names_no_task B (db w) taskId ->
          result = (json (error_body "Task not found") 404, looked_up))
    /\ (JS.truthy (JS.lookup "sharedUserId" props) = true ->
        forall t, only_task (db w) t -> names B taskId t -> t_user_id t <> id caller ->
          ~ shared_with (db w) (t_id t) caller ->
          result = (json (error_body "Task not found") 404, looked_up))
    /\ (JS.truthy (JS.lookup "sharedUserId" props) = true ->
        forall t, only_task (db w) t -> names B taskId t -> t_user_id t <> id caller ->
          shared_with (db w) (t_id t) caller ->
          result = (json (error_body "Only task owner can unshare") 403, looked_up)).
Proof.
  intros B w caller taskId props result looked_up. subst result looked_up.
  unfold UnshareRoute.DELETE, try_catch, bind, read, query, field.
  cbn -[JS.truthy JS.lookup].
  destruct (JS.lookup "sharedUserId" props) as [v0 |].
  2: { simpl. split; [intros _; now destruct w |].
       split; [discriminate |]. split; discriminate. }
  cbn -[JS.truthy].
  split; [| split; [| split]].
  - intros Hf. rewrite Hf. simpl. now destruct w.
  - intros Ht Hno. rewrite Ht. simpl.
    destruct (owner_missing (createClient B (authenticated caller)) (db w) taskId Hno)
      as [e ->].
    reflexivity.
  - intros Ht t Hone Hn Hne Hns. rewrite Ht. simpl.
    rewrite (owner_result (createClient B (authenticated caller)) (db w) taskId t Hn Hone).
    rewrite (cannot_select_foreign_task B caller (db w) t Hne Hns). reflexivity.
  - intros Ht t Hone Hn Hne Hs. rewrite Ht. simpl.
    rewrite (owner_result (createClient B (authenticated caller)) (db w) taskId t Hn Hone).
    replace (can_select_task (createClient B (authenticated caller)) (db w) t) with true
      by (symmetry; apply can_select_task_iff; now right).
    simpl.
    replace (String.eqb (t_user_id t) (id caller)) with false
      by (symmetry; now apply String.eqb_neq).
    reflexivity.
Qed.

(** Carol is told that Alice's task is not found, exactly as for an
    identifier that names nothing; Bob, who has a share of it, is told
    that he is not the owner. *)
Lemma unshare_refusals_witness :
  UnshareRoute.DELETE Sample.backend (authenticated Sample.bob) Sample.milk_id
    (Sample.body_of []) Sample.world
  = (json (error_body "User ID is required") 400, Sample.world)
  /\ UnshareRoute.DELETE Sample.backend (authenticated Sample.bob) Sample.missing_id
       (Sample.body_of [("sharedUserId", JS.Str Sample.bob_id)]) Sample.world
     = (json (error_body "Task not found") 404,
        {| db := Sample.store; trace := [issued "tasks" Select] |})
  /\ UnshareRoute.DELETE Sample.backend (authenticated Sample.carol) Sample.milk_id
       (Sample.body_of [("sharedUserId", JS.Str Sample.bob_id)]) Sample.world
     = (json (error_body "Task not found") 404,
        {| db := Sample.store; trace := [issued "tasks" Select] |})
  /\ UnshareRoute.DELETE Sample.backend (authenticated Sample.bob) Sample.milk_id
       (Sample.body_of [("sharedUserId", JS.Str Sample.bob_id)]) Sample.world
     = (json (error_body "Only task owner can unshare") 403,
        {| db := Sample.store; trace := [issued "tasks" Select] |}).
Proof.
  split; [| split; [| split]].
  - destruct (unshare_refusals Sample.backend Sample.world Sample.bob Sample.milk_id [])
      as (H & _).
    exact (H eq_refl).
  - destruct (unshare_refusals Sample.backend Sample.world Sample.bob Sample.missing_id
                [("sharedUserId", JS.Str Sample.bob_id)]) as (_ & H & _).
    apply H; [reflexivity |]. intros key Hk. vm_compute in Hk. inversion Hk; subst key.
    intros t [<- | []]. simpl. discriminate.
  - destruct (unshare_refusals Sample.backend Sample.world Sample.carol Sample.milk_id
                [("sharedUserId", JS.Str Sample.bob_id)]) as (_ & _ & H & _).
    apply (H eq_refl Sample.milk); [reflexivity | reflexivity | simpl; discriminate |].
    intros (s & [<- | []] & _ & Hu). simpl in Hu. discriminate.
  - destruct (unshare_refusals Sample.backend Sample.world Sample.bob Sample.milk_id
                [("sharedUserId", JS.Str Sample.bob_id)]) as (_ & _ & _ & H).
    apply (H eq_refl Sample.milk); [reflexivity | reflexivity | simpl; discriminate |].
    exists Sample.milk_for_bob. simpl. repeat split. now left.
Defined.

(** X13.  A body the handler cannot read never leads to a write.  For
    an authenticated caller, a body that is not JSON or is JSON null is
    answered 500 by create, share and unshare before any query is
    issued, and by the owner's update after the ownership lookup only.
    The same answer, with the store unchanged and no insert or update
    issued, is given to a create whose title is a truthy value that is
    not a string, and to an owner's update whose title is present but
    not a string or whose description is present but neither null nor a
    string. *)
Theorem unreadable_body_is_500 :
  forall (B : Backend) (w : World) (caller : User) (t : Task) (taskId fresh : string),
    let oops := json (error_body "Internal server error") 500 in
    only_task (db w) t ->
    names B taskId t ->
    t_user_id t = id caller ->
    (forall raw, unreadable raw ->
       TasksRoute.POST B (authenticated caller) raw fresh w = (oops, w)
       /\ ShareRoute.POST B (authenticated caller) taskId raw fresh w = (oops, w)
       /\ UnshareRoute.DELETE B (authenticated caller) taskId raw w = (oops, w)
       /\ TaskRoute.PATCH B (authenticated caller) taskId raw w
          = (oops, {| db := db w; trace := trace w ++ [issued "tasks" Select] |}))
    /\ (forall props v,
          JS.lookup "title" props = Some v -> JS.truthy (Some v) = true ->
          (forall s, v <> JS.Str s) ->
          TasksRoute.POST B (authenticated caller) (Some (JS.Obj props)) fresh w = (oops, w))
    /\ (forall props,
          (exists v, JS.lookup "title" props = Some v /\ forall s, v <> JS.Str s)
          \/ (exists v, JS.lookup "description" props = Some v /\ v <> JS.Null
                        /\ forall s, v <> JS.Str s) ->
          TaskRoute.PATCH B (authenticated caller) taskId (Some (JS.Obj props)) w
          = (oops, {| db := db w; trace := trace w ++ [issued "tasks" Select] |})).
Proof.
  intros B w caller t taskId fresh oops Hone Hn Hown. subst oops.
  assert (Howner : TaskRoute.not_owner
                     (data (select_task_owner (createClient B (authenticated caller))
                              (db w) taskId)) caller
                   = false).
  { rewrite (owner_result_own B caller (db w) taskId t Hn Hone Hown).
    unfold TaskRoute.not_owner. simpl. now rewrite String.eqb_refl. }
  split; [| split].
  - intros raw [-> | ->].
    + unfold TasksRoute.POST, ShareRoute.POST, UnshareRoute.DELETE, TaskRoute.PATCH,
        try_catch, bind, read, query. simpl. rewrite Howner. simpl.
      destruct w; repeat split.
    + unfold TasksRoute.POST, ShareRoute.POST, UnshareRoute.DELETE, TaskRoute.PATCH,
        try_catch, bind, read, query. simpl. rewrite Howner. simpl.
      destruct w; repeat split.
  - intros props v Hprop Htruthy Hnot.
    unfold TasksRoute.POST, try_catch, bind, field, or_throw.
    cbn -[JS.truthy JS.lookup TasksRoute.title_missing].
    assert (Hm : TasksRoute.title_missing (JS.lookup "title" props) = None).
    { rewrite Hprop. unfold TasksRoute.title_missing. rewrite Htruthy.
      destruct v; try reflexivity. now destruct (Hnot s). }
    rewrite Hm. simpl. now destruct w.
  - intros props Hbad.
    apply (updateData_throws_iff _ _ (JS.lookup "status" props)
             (JS.lookup "priority" props) (JS.lookup "due_date" props)
             (JS.lookup "category" props)) in Hbad.
    unfold TaskRoute.PATCH, try_catch, bind, read, query, field, or_throw. simpl.
    rewrite Howner. simpl. rewrite Hbad. reflexivity.
Qed.

Lemma unreadable_body_is_500_witness :
  TasksRoute.POST Sample.backend (authenticated Sample.alice) None Sample.bread_id Sample.world
  = (json (error_body "Internal server error") 500, Sample.world)
  /\ TasksRoute.POST Sample.backend (authenticated Sample.alice)
       (Sample.body_of [("title", JS.Num 7)]) Sample.bread_id Sample.world
     = (json (error_body "Internal server error") 500, Sample.world)
  /\ TaskRoute.PATCH Sample.backend (authenticated Sample.alice) Sample.milk_id
       (Sample.body_of [("description", JS.Bool false)]) Sample.world
     = (json (error_body "Internal server error") 500,
        {| db := Sample.store; trace := [issued "tasks" Select] |}).
Proof.
  destruct (unreadable_body_is_500 Sample.backend Sample.world Sample.alice Sample.milk
              Sample.milk_id Sample.bread_id eq_refl eq_refl eq_refl) as (Hraw & Htitle & Hupd).
  split; [| split].
  - destruct (Hraw None) as (H & _); [now left | exact H].
  - apply (Htitle _ (JS.Num 7)); [reflexivity | reflexivity |].
    intros s; discriminate.
  - apply Hupd. right. exists (JS.Bool false).
    split; [reflexivity |]. split; [discriminate |]. intros s; discriminate.
Defined.

(* ================================================================== *)
(** ** Redirects of the gatekeeper *)
(* ================================================================== *)

Lemma searchParams_set_others (name value : string) (params : list (string * string))
    (k v : string) :
  k <> name ->
  (In (k, v) (Middleware.searchParams_set name value params) <-> In (k, v) params).
Proof.
  intros Hk. induction params as [| [k' v'] rest IH]; simpl.
  - split; [intros [H | []]; inversion H; congruence | intros []].
  - destruct (String.eqb k' name) eqn:E; simpl.
    + apply String.eqb_eq in E. subst k'. split.
      * intros [H | H]; [inversion H; congruence |].
        apply filter_In in H. right. tauto.
      * intros [H | H]; [inversion H; congruence |].
        right. apply filter_In. split; [assumption |]. simpl.
        apply negb_true_iff. now apply String.eqb_neq.
    + rewrite IH. tauto.
Qed.

(** X14.  A redirect of the gatekeeper never loops and loses nothing:
    whenever a request is redirected, the target is /login for a
    visitor and / for a signed-in caller, the same caller asking for the
    target passes through, and the target carries every query parameter
    of the request other than [redirectedFrom]. *)
Theorem redirects_do_not_loop :
  forall (user : option User) (nextUrl target : Middleware.URL),
    Middleware.middleware user nextUrl = Middleware.Redirect target ->
    Middleware.middleware user target = Middleware.Next
    /\ (user = None /\ Middleware.pathname target = "/login"
        \/ user <> None /\ Middleware.pathname target = "/")
    /\ (forall k v, k <> "redirectedFrom" ->
          (In (k, v) (Middleware.searchParams target)
           <-> In (k, v) (Middleware.searchParams nextUrl))).
Proof.
  intros user nextUrl target. unfold Middleware.middleware at 1.
  destruct user as [u |]; simpl.
  - destruct (String.eqb (Middleware.pathname nextUrl) "/login"
              || String.eqb (Middleware.pathname nextUrl) "/signup"); [| discriminate].
    intros H. inversion H; subst target; clear H. simpl.
    split; [reflexivity |]. split; [right; split; [discriminate | reflexivity] |].
    intros k v _. tauto.
  - destruct (Middleware.isPublicRoute (Middleware.pathname nextUrl)); [discriminate |].
    simpl. intros H. inversion H; subst target; clear H. simpl.
    split; [reflexivity |]. split; [left; split; reflexivity |].
    intros k v Hk. now apply searchParams_set_others.
Qed.

Lemma redirects_do_not_loop_witness :
  Middleware.middleware None
    {| Middleware.pathname := "/login";
       Middleware.searchParams := [("tab", "mine"); ("redirectedFrom", "/tasks")] |}
  = Middleware.Next.
Proof.
  exact (proj1 (redirects_do_not_loop None
           {| Middleware.pathname := "/tasks"; Middleware.searchParams := [("tab", "mine")] |}
           {| Middleware.pathname := "/login";
              Middleware.searchParams := [("tab", "mine"); ("redirectedFrom", "/tasks")] |}
           eq_refl)).
Defined.

(* ================================================================== *)
(** ** The task list component *)
(* ================================================================== *)

Import TaskListView.




(** One row per identifier: a stored row is the only one under its
    identifier. *)
Lemma only_task_of_distinct (d : Db) (t : Task) :
  NoDup (map t_id (tasks d)) -> In t (tasks d) -> only_task d t.
Proof.
  unfold only_task. induction (tasks d) as [| x rows IH]; simpl; [contradiction |].
  intros Hnd Hin. inversion Hnd as [| ? ? Hnot Hrest]; subst.
  destruct Hin as [-> | Hin].
  - unfold has_id at 1. rewrite String.eqb_refl. f_equal.
    apply filter_none. intros y Hy. destruct (has_id (t_id t) y) eqn:E; [| reflexivity].
    apply has_id_true in E. exfalso. apply Hnot. rewrite <- E. now apply in_map.
  - destruct (has_id (t_id t) x) eqn:E.
    + apply has_id_true in E. exfalso. apply Hnot. rewrite E. now apply in_map.
    + now apply IH.
Qed.

Section ListFacts.

Variable B : Backend.
Variable created_at : string -> Z.

Lemma fetchTasks_reloads (caller : User) (s : State) (w : World) :
  fetchTasks B created_at caller s w
  = (setLoading false (setTasks (reloaded B created_at (db w) caller) (setLoading true s)),
     {| db := db w; trace := trace w ++ [issued "tasks" Select] |}).
Proof.
  unfold fetchTasks, TasksListRoute.GET, reloaded, select_own_tasks, bind, read, query,
    require_user, client_of. simpl. unfold listed_tasks. simpl.
  rewrite own_tasks_visible, map_map. reflexivity.
Qed.

Lemma reloaded_in (d : Db) (caller : User) (e : Entry) :
  In e (reloaded B created_at d caller) ->
  exists t, e = of_listed (listed (client_of B caller) d t)
            /\ In t (tasks d) /\ t_user_id t = id caller.
Proof.
  unfold reloaded. intros Hin. apply in_map_iff in Hin. destruct Hin as (t & <- & Hin).
  exists t. split; [reflexivity |].
  apply (Permutation_in _ (order_desc_perm created_at _)) in Hin.
  apply filter_In in Hin. destruct Hin as [Hin Hown]. split; [assumption |].
  now apply String.eqb_eq.
Qed.

Lemma find_listed (taskId : string) (l : list Entry) :
  In taskId (map (fun e => t_id (e_task e)) l) ->
  exists e, find (entry_has_id taskId) l = Some e /\ In e l /\ t_id (e_task e) = taskId.
Proof.
  induction l as [| x l IH]; simpl; [contradiction |].
  unfold entry_has_id at 1. destruct (String.eqb (t_id (e_task x)) taskId) eqn:E.
  - intros _. exists x. apply String.eqb_eq in E. auto.
  - intros [H | H]; [apply String.eqb_neq in E; contradiction |].
    destruct (IH H) as (e & Hf & Hin & Hid). exists e. auto.
Qed.

(** A map that keeps what a filter looks at commutes with it. *)
Lemma filter_through_map {X Y : Type} (p : X -> bool) (q : Y -> bool) (f : X -> Y)
    (l : list X) :
  (forall x, q (f x) = p x) -> filter q (map f l) = map f (filter p l).
Proof.
  intros H. induction l as [| x l IH]; simpl; [reflexivity |].
  rewrite H. destruct (p x); simpl; now rewrite IH.
Qed.

Lemma listed_after_delete (supabase : Client) (d : Db) (taskId : string) (x : Task) :
  t_id x <> taskId -> listed supabase (without_task taskId d) x = listed supabase d x.
Proof.
  intros Hne. unfold listed, shares_seen, shares_of, profile_of. simpl. f_equal. f_equal.
  f_equal. now apply (filter_other_key s_task_id).
Qed.

Lemma reloaded_after_delete (d : Db) (caller : User) (taskId : string) :
  filter (fun e => negb (entry_has_id taskId e)) (reloaded B created_at d caller)
  = reloaded B created_at (without_task taskId d) caller.
Proof.
  unfold reloaded.
  change (tasks (without_task taskId d))
    with (filter (fun t => negb (has_id taskId t)) (tasks d)).
  rewrite (filter_through_map (fun t => negb (has_id taskId t))) by reflexivity.
  rewrite (filter_swap (fun t => String.eqb (t_user_id t) (id caller))
             (fun t => negb (has_id taskId t)) (tasks d)).
  rewrite <- (filter_order_desc created_at (fun t => negb (has_id taskId t))).
  apply map_ext_in. intros x Hx. apply filter_In in Hx. destruct Hx as [_ Hx].
  rewrite listed_after_delete; [reflexivity |].
  apply negb_true_iff in Hx. intros E. apply has_id_true in E. congruence.
Qed.

End ListFacts.

(** X16.  Deleting a listed task through the confirmation dialog, for
    a signed-in user whose list is up to date, the stored identifiers
    being distinct and in the form the backend prints them: the row
    leaves the store and the list, the dialog closes, no error is set,
    and the list is again the one a reload would show. *)
Theorem confirmed_delete_keeps_list_up_to_date (B : Backend) (created_at : string -> Z)
    (caller : User) (s : State) (w : World) (taskId : string) :
  let after := confirmDeleteTask B caller (handleDeleteTask taskId s) w in
  NoDup (map t_id (tasks (db w))) ->
  canonical_ids B (db w) ->
  up_to_date B created_at caller s w ->
  In taskId (listed_ids s) ->
  up_to_date B created_at caller (fst after) (snd after)
  /\ ~ In taskId (listed_ids (fst after))
  /\ no_task (db (snd after)) taskId
  /\ st_deleteConfirmTask (fst after) = None
  /\ st_deleting (fst after) = false
  /\ st_error (fst after) = st_error s.
Proof.
  intros after Hnd Hcan Hup Hin.
  unfold up_to_date in Hup. rewrite fetchTasks_reloads in Hup. simpl in Hup.
  destruct (find_listed taskId (st_tasks s) Hin) as (e & Hfind & Hine & Hid).
  rewrite <- Hup in Hine. apply reloaded_in in Hine.
  destruct Hine as (t & He & Ht & Hown).
  assert (Htid : t_id t = taskId) by (rewrite <- Hid, He; reflexivity).
  pose proof (only_task_of_distinct _ _ Hnd Ht) as Hone.
  assert (Hafter : after
            = (setDeleting false
                 (setDeleteConfirmTask None
                    (setTasks (filter (fun x => negb (entry_has_id taskId x)) (st_tasks s))
                              (setDeleting true
                                 (setDeleteConfirmTask (Some (e_task e)) s)))),
               {| db := without_task taskId (db w);
                  trace := trace w ++ [issued "tasks" Select; issued "tasks" Delete] |})).
  { subst after. unfold handleDeleteTask. rewrite Hfind.
    unfold confirmDeleteTask. cbn [st_deleteConfirmTask setDeleteConfirmTask].
    rewrite Hid, <- Htid, (DELETE_by_owner B w caller (t_id t) t Hone (Hcan t Ht) Hown).
    reflexivity. }
  rewrite Hafter. cbn [fst snd].
  split.
  { unfold up_to_date. rewrite fetchTasks_reloads. cbn.
    rewrite <- Hup. symmetry. apply reloaded_after_delete. }
  split.
  { unfold listed_ids. cbn. intros Hbad. apply in_map_iff in Hbad.
    destruct Hbad as (x & Hx & Hin'). apply filter_In in Hin'. destruct Hin' as [_ Hneg].
    apply negb_true_iff in Hneg. unfold entry_has_id in Hneg.
    apply String.eqb_neq in Hneg. contradiction. }
  split.
  { cbn. intros x Hx. apply filter_In in Hx. destruct Hx as [_ Hx].
    apply negb_true_iff in Hx. intros E. apply has_id_true in E. congruence. }
  repeat split.
Qed.

Lemma confirmed_delete_keeps_list_up_to_date_witness :
  In Sample.milk_id (listed_ids SampleView.loaded)
  /\ ~ In Sample.milk_id
       (listed_ids
          (fst (confirmDeleteTask Sample.backend Sample.alice
                  (handleDeleteTask Sample.milk_id SampleView.loaded) Sample.world))).
Proof.
  assert (Hin : In Sample.milk_id (listed_ids SampleView.loaded)) by (now left).
  split; [exact Hin |].
  refine (proj1 (proj2 (confirmed_delete_keeps_list_up_to_date Sample.backend
                          SampleView.created_at Sample.alice SampleView.loaded
                          Sample.world Sample.milk_id _ _ _ Hin))).
  - repeat constructor. intros [].
  - intros t [<- | []]. reflexivity.
  - reflexivity.
Defined.
(* ================================================================== *)
(** ** Saving through the form and the toggle button *)
(* ================================================================== *)

Lemma PATCH_by_owner (B : Backend) (w : World) (t : Task) (taskId : string) (caller : User)
    (props : list (string * JS.value)) (u : TaskUpdate) (c : TaskColumns) :
  only_task (db w) t ->
  names B taskId t ->
  t_user_id t = id caller ->
  TaskRoute.updateData_of (JS.lookup "title" props) (JS.lookup "description" props)
    (JS.lookup "status" props) (JS.lookup "priority" props)
    (JS.lookup "due_date" props) (JS.lookup "category" props) = Some u ->
  no_columns u = false ->
  typed_update B u = inr c ->
  TaskRoute.PATCH B (authenticated caller) taskId (Some (JS.Obj props)) w
  = (json (task_body (Some (with_profile (db w) (set_columns c t)))) 200,
     {| db := rewrite_task c (t_id t) (db w);
        trace := trace w ++ [issued "tasks" Select; issued "tasks" Update] |}).
Proof.
  intros Hone Hn Hown Hu Hcols Hc.
  unfold TaskRoute.PATCH, try_catch, bind, read, query, field, or_throw. simpl.
  rewrite (owner_result_own B caller (db w) taskId t Hn Hone Hown).
  unfold TaskRoute.not_owner. simpl. rewrite String.eqb_refl. simpl.
  rewrite Hu. simpl. rewrite title_rejected_never. simpl.
  rewrite (update_task_by_owner B caller (db w) taskId t u c Hn Hone Hown Hcols Hc).
  simpl. rewrite <- app_assoc. reflexivity.
Qed.

Lemma status_round_trip (B : Backend) (s : TaskStatus) :
  as_status B (JS.Str (TaskForm.status_name s)) = Some (Some s).
Proof. destruct s; reflexivity. Qed.

Lemma priority_round_trip (B : Backend) (p : TaskPriority) :
  as_priority B (JS.Str (TaskForm.priority_name p)) = Some (Some p).
Proof. destruct p; reflexivity. Qed.

Lemma or_null_text (B : Backend) (s : string) :
  as_text B (TaskForm.or_null s) = if String.eqb s "" then None else Some s.
Proof. unfold TaskForm.or_null. destruct (String.eqb s ""); reflexivity. Qed.

Lemma or_null_due (B : Backend) (f : TaskForm.Fields) :
  due_accepted B f ->
  as_timestamptz B (TaskForm.or_null (TaskForm.f_dueDate f)) = Some (due_of_form B f).
Proof.
  unfold due_accepted, due_of_form, TaskForm.or_null, as_timestamptz. intros Hd.
  destruct (String.eqb (TaskForm.f_dueDate f) "") eqn:E; [reflexivity |]. simpl.
  destruct Hd as [Hd | Hd]; [apply String.eqb_neq in E; contradiction |].
  now destruct (timestamptz_in B (TaskForm.f_dueDate f)).
Qed.

(** What PATCH makes of the object a form submits. *)
Lemma form_update (B : Backend) (f : TaskForm.Fields) :
  due_accepted B f ->
  exists u,
    TaskRoute.updateData_of
      (JS.lookup "title" (TaskForm.taskData f)) (JS.lookup "description" (TaskForm.taskData f))
      (JS.lookup "status" (TaskForm.taskData f)) (JS.lookup "priority" (TaskForm.taskData f))
      (JS.lookup "due_date" (TaskForm.taskData f)) (JS.lookup "category" (TaskForm.taskData f))
    = Some u
    /\ no_columns u = false
    /\ typed_update B u = inr (columns_of_form B f).
Proof.
  intros Hd. eexists. split; [reflexivity |]. split; [reflexivity |].
  unfold typed_update, typed, columns_of_form.
  cbn -[JS.trim as_status as_priority as_timestamptz as_text due_of_form].
  rewrite status_round_trip, priority_round_trip, or_null_text, (or_null_due B f Hd).
  reflexivity.
Qed.


Section SaveFacts.

Variable B : Backend.
Variable created_at : string -> Z.

Lemma insert_desc_map (f : Task -> Task) (t : Task) (sorted : list Task) :
  (forall x, t_id (f x) = t_id x) ->
  insert_desc created_at (f t) (map f sorted) = map f (insert_desc created_at t sorted).
Proof.
  intros Hf. induction sorted as [| x rest IH]; simpl; [reflexivity |].
  rewrite !Hf. destruct (Z.leb _ _); simpl; [reflexivity |]. now rewrite IH.
Qed.

Lemma order_desc_map (f : Task -> Task) (l : list Task) :
  (forall x, t_id (f x) = t_id x) ->
  order_desc created_at (map f l) = map f (order_desc created_at l).
Proof.
  intros Hf. unfold order_desc. induction l as [| x l IH]; simpl; [reflexivity |].
  rewrite IH. now apply insert_desc_map.
Qed.

(** The list after the entry of a rewritten row was replaced by the
    saved row, against the list a reload shows. *)
Lemma reloaded_after_rewrite (d : Db) (caller : User) (t : Task) (c : TaskColumns) :
  only_task d t ->
  map (fun x => if entry_has_id (t_id t) x then saved_entry (set_columns c t) else x)
      (reloaded B created_at d caller)
  = map (without_shares (t_id t))
        (reloaded B created_at (rewrite_task c (t_id t) d) caller).
Proof.
  intros Hone. unfold reloaded, rewrite_task. cbn [tasks with_tasks].
  set (upd := fun x => if has_id (t_id t) x then set_columns c x else x).
  assert (Hid : forall x, t_id (upd x) = t_id x).
  { intros x. unfold upd. destruct (has_id (t_id t) x); reflexivity. }
  assert (Huser : forall x, String.eqb (t_user_id (upd x)) (id caller)
                            = String.eqb (t_user_id x) (id caller)).
  { intros x. unfold upd. destruct (has_id (t_id t) x); reflexivity. }
  rewrite (filter_through_map (fun x => String.eqb (t_user_id x) (id caller))
             (fun x => String.eqb (t_user_id x) (id caller)) upd _ Huser).
  rewrite (order_desc_map upd _ Hid). rewrite !map_map.
  apply map_ext_in. intros x Hx.
  apply (Permutation_in _ (order_desc_perm created_at _)) in Hx.
  apply filter_In in Hx. destruct Hx as [Hx _].
  unfold without_shares, entry_has_id. cbn [of_listed listed e_task lt_task].
  rewrite Hid. fold (has_id (t_id t) x). unfold upd.
  destruct (has_id (t_id t) x) eqn:E.
  - assert (Hxt : In x (filter (has_id (t_id t)) (tasks d)))
      by (apply filter_In; split; assumption).
    unfold only_task in Hone. rewrite Hone in Hxt. destruct Hxt as [<- | []].
    reflexivity.
  - reflexivity.
Qed.

End SaveFacts.

(** A listed entry of an up-to-date list is a stored row of the caller,
    the only one under its identifier. *)
Lemma listed_entry_stored (B : Backend) (created_at : string -> Z) (caller : User)
    (s : State) (w : World) (e : Entry) :
  NoDup (map t_id (tasks (db w))) ->
  up_to_date B created_at caller s w ->
  In e (st_tasks s) ->
  e = of_listed (listed (client_of B caller) (db w) (e_task e))
  /\ In (e_task e) (tasks (db w))
  /\ only_task (db w) (e_task e)
  /\ t_user_id (e_task e) = id caller
  /\ st_tasks s = reloaded B created_at (db w) caller.
Proof.
  intros Hnd Hup Hin. unfold up_to_date in Hup.
  rewrite fetchTasks_reloads in Hup. simpl in Hup.
  rewrite <- Hup in Hin. apply reloaded_in in Hin. destruct Hin as (t & -> & Ht & Hown).
  cbn [of_listed listed e_task lt_task].
  split; [reflexivity |]. split; [assumption |].
  split; [now apply only_task_of_distinct |].
  split; [assumption | now symmetry].
Qed.

(** X17.  Saving the edit form of a listed task, for a signed-in
    user whose list is up to date, the stored identifiers being in the
    form the backend prints them and the date field empty or a date the
    backend accepts: the request is answered, the row takes the six
    values of the form (title and description trimmed, empty
    description, due date and category stored as null, a due date as
    the timestamp the backend reads it as), the form closes, and the
    list equals the one a reload would show except that the entry of
    the saved task no longer carries its shares.  So that entry is shown
    as not shared, where a reload would show it shared exactly as before
    the edit. *)
Theorem saved_edit_is_listed_without_its_shares (B : Backend) (created_at : string -> Z)
    (caller : User) (s : State) (w : World) (e : Entry) (fields : TaskForm.Fields)
    (fresh : string) :
  let taskId := t_id (e_task e) in
  NoDup (map t_id (tasks (db w))) ->
  canonical_ids B (db w) ->
  due_accepted B fields ->
  up_to_date B created_at caller s w ->
  In e (st_tasks s) ->
  exists s' w',
    step B created_at (Submitted caller fresh fields) (handleEditClick (e_task e) s) w
    = Some (s', w')
    /\ db w' = rewrite_task (columns_of_form B fields) taskId (db w)
    /\ only_task (db w') (set_columns (columns_of_form B fields) (e_task e))
    /\ st_tasks s'
       = map (without_shares taskId) (st_tasks (fst (fetchTasks B created_at caller s' w')))
    /\ st_showForm s' = false
    /\ st_editingTask s' = None
    /\ (forall e', In e' (st_tasks s') -> t_id (e_task e') = taskId -> isShared e' = false)
    /\ (forall e', In e' (st_tasks (fst (fetchTasks B created_at caller s' w'))) ->
          t_id (e_task e') = taskId -> isShared e' = isShared e).
Proof.
  intros taskId Hnd Hcan Hdue Hup Hin. subst taskId.
  destruct (listed_entry_stored _ _ _ _ _ _ Hnd Hup Hin)
    as (He & Hstored & Hone & Hown & Hlist).
  destruct (form_update B fields Hdue) as (u & Hu & Hcols & Hc).
  set (t := e_task e) in *. set (c := columns_of_form B fields) in *.
  eexists. eexists. split.
  { cbn [step]. unfold onSubmit, handleEditClick.
    cbn [st_editingTask setShowForm setEditingTask].
    unfold handleUpdateTask. cbn [st_editingTask setShowForm setEditingTask].
    rewrite (PATCH_by_owner B w t (t_id t) caller _ u c Hone (Hcan t Hstored) Hown
               Hu Hcols Hc).
    reflexivity. }
  cbn [db fst snd]. split; [reflexivity |].
  assert (Hone' : only_task (rewrite_task c (t_id t) (db w)) (set_columns c t)).
  { unfold only_task, rewrite_task. cbn [tasks with_tasks].
    rewrite set_columns_keeps_id.
    rewrite (filter_updated_rows (t_id t) (set_columns c))
      by (intros x; apply set_columns_keeps_id).
    unfold only_task in Hone. now rewrite Hone. }
  split; [exact Hone' |].
  rewrite fetchTasks_reloads.
  cbn [fst db st_tasks setLoading setTasks setShowForm setEditingTask saved_task body json
       tp_task with_profile].
  assert (Hsaved : map (fun x => if entry_has_id (t_id t) x then saved_entry (set_columns c t)
                                 else x) (st_tasks s)
                   = map (without_shares (t_id t))
                       (reloaded B created_at (rewrite_task c (t_id t) (db w)) caller)).
  { rewrite Hlist. now apply reloaded_after_rewrite. }
  split; [exact Hsaved |].
  split; [reflexivity |]. split; [reflexivity |].
  split.
  - intros e' Hin' Hid'. unfold saved_entry in Hsaved.
    rewrite Hsaved in Hin'. apply in_map_iff in Hin'.
    destruct Hin' as (e0 & <- & _). unfold without_shares in *.
    destruct (entry_has_id (t_id t) e0) eqn:E; [reflexivity |].
    unfold entry_has_id in E. apply String.eqb_neq in E. contradiction.
  - intros e' Hin' Hid'. apply reloaded_in in Hin'.
    destruct Hin' as (x & -> & Hx & _). cbn [of_listed listed e_task lt_task] in Hid'.
    assert (Hxt : In x (filter (has_id (t_id (set_columns c t)))
                          (tasks (rewrite_task c (t_id t) (db w)))))
      by (apply filter_In; split; [assumption | now apply has_id_true]).
    unfold only_task in Hone'. rewrite Hone' in Hxt. destruct Hxt as [<- | []].
    rewrite He. reflexivity.
Qed.

Lemma saved_edit_is_listed_without_its_shares_witness :
  In (of_listed (listed (client_of Sample.backend Sample.alice) Sample.store Sample.milk))
     (st_tasks SampleView.loaded)
  /\ exists s' w',
       step Sample.backend SampleView.created_at
         (Submitted Sample.alice Sample.bread_id SampleView.bread)
         (handleEditClick Sample.milk SampleView.loaded) Sample.world
       = Some (s', w')
       /\ st_tasks s'
          = [saved_entry
               (set_columns (columns_of_form Sample.backend SampleView.bread) Sample.milk)]
       /\ st_tasks (fst (fetchTasks Sample.backend SampleView.created_at Sample.alice s' w'))
          = [of_listed
               (listed (client_of Sample.backend Sample.alice) Sample.store
                  (set_columns (columns_of_form Sample.backend SampleView.bread)
                     Sample.milk))].
Proof.
  assert (Hin : In (of_listed (listed (client_of Sample.backend Sample.alice) Sample.store
                                 Sample.milk))
                  (st_tasks SampleView.loaded)) by (now left).
  split; [exact Hin |].
  destruct (saved_edit_is_listed_without_its_shares Sample.backend SampleView.created_at
              Sample.alice SampleView.loaded Sample.world
              (of_listed (listed (client_of Sample.backend Sample.alice) Sample.store
                            Sample.milk))
              SampleView.bread Sample.bread_id)
    as (s' & w' & Hstep & _);
    [repeat constructor; intros [] | intros t [<- | []]; reflexivity | now left
     | reflexivity | exact Hin |].
  exists s', w'. split; [exact Hstep |].
  cbn in Hstep. inversion Hstep; subst; clear Hstep. split; reflexivity.
Defined.












(* ================================================================== *)
(** ** Creating through the form *)
(* ================================================================== *)

Lemma trim_nonempty (s : string) : JS.trim s <> "" -> s <> "".
Proof. intros H E. subst. apply H. reflexivity. Qed.

Lemma or_else_or_null (s : string) :
  JS.or_else (Some (TaskForm.or_null s)) JS.Null = TaskForm.or_null s.
Proof.
  unfold TaskForm.or_null. destruct (String.eqb s "") eqn:E; simpl; [reflexivity |].
  now rewrite E.
Qed.

Lemma or_else_status (s : TaskStatus) :
  JS.or_else (Some (JS.Str (TaskForm.status_name s))) (JS.Str "todo")
  = JS.Str (TaskForm.status_name s).
Proof. destruct s; reflexivity. Qed.

Lemma or_else_priority (p : TaskPriority) :
  JS.or_else (Some (JS.Str (TaskForm.priority_name p))) (JS.Str "medium")
  = JS.Str (TaskForm.priority_name p).
Proof. destruct p; reflexivity. Qed.

(** What the insert makes of the payload of a form. *)
Lemma insert_form_row (B : Backend) (d : Db) (caller : User) (fresh : string)
    (f : TaskForm.Fields) :
  has_account d caller ->
  due_accepted B f ->
  existsb (has_id fresh) (tasks d) = false ->
  insert_task (createClient B (authenticated caller)) d fresh
    {| i_user_id := id caller;
       i_title := JS.trim (TaskForm.f_title f);
       i_description := if String.eqb (JS.trim (TaskForm.f_description f)) "" then None
                        else Some (JS.trim (TaskForm.f_description f));
       i_status := JS.Str (TaskForm.status_name (TaskForm.f_status f));
       i_priority := JS.Str (TaskForm.priority_name (TaskForm.f_priority f));
       i_due_date := TaskForm.or_null (TaskForm.f_dueDate f);
       i_category := TaskForm.or_null (TaskForm.f_category f) |}
  = (ok (with_profile d (row_of_form B caller fresh f)),
     with_tasks d (tasks d ++ [row_of_form B caller fresh f])).
Proof.
  intros Hacc Hdue Hfresh. unfold insert_task.
  cbn [i_user_id i_title i_description i_status i_priority i_due_date i_category
       backend createClient].
  rewrite (or_null_due B f Hdue), status_round_trip, priority_round_trip, or_null_text.
  unfold can_insert_task. rewrite is_uid_caller, String.eqb_refl.
  unfold has_account in Hacc. rewrite Hacc, Hfresh. reflexivity.
Qed.

(** What POST makes of the object a form with a title submits. *)
Lemma POST_by_form (B : Backend) (w : World) (caller : User) (fresh : string)
    (f : TaskForm.Fields) :
  has_account (db w) caller ->
  due_accepted B f ->
  JS.trim (TaskForm.f_title f) <> "" ->
  existsb (has_id fresh) (tasks (db w)) = false ->
  TasksRoute.POST B (authenticated caller) (Some (JS.Obj (TaskForm.taskData f))) fresh w
  = (json (task_body (Some (with_profile (db w) (row_of_form B caller fresh f)))) 201,
     {| db := with_tasks (db w) (tasks (db w) ++ [row_of_form B caller fresh f]);
        trace := trace w ++ [issued "tasks" Insert] |}).
Proof.
  intros Hacc Hdue Htitle Hfresh.
  pose proof (trim_nonempty _ Htitle) as Hne.
  apply String.eqb_neq in Htitle. apply String.eqb_neq in Hne.
  unfold TasksRoute.POST, try_catch, bind, query, field, or_throw, request_json,
    require_user, return_if, ret, respond.
  cbn -[JS.trim insert_task TaskForm.or_null TaskForm.status_name TaskForm.priority_name
        JS.or_else].
  rewrite Hne. cbn -[JS.trim insert_task TaskForm.or_null TaskForm.status_name
                     TaskForm.priority_name JS.or_else].
  rewrite Htitle. cbn -[JS.trim insert_task TaskForm.or_null TaskForm.status_name
                        TaskForm.priority_name JS.or_else].
  rewrite !or_else_or_null, or_else_status, or_else_priority.
  rewrite (insert_form_row B (db w) caller fresh f Hacc Hdue Hfresh). reflexivity.
Qed.

(** A form whose title is blank is turned down before anything is
    written. *)
Lemma POST_blank_form (B : Backend) (w : World) (caller : User) (fresh : string)
    (f : TaskForm.Fields) :
  JS.trim (TaskForm.f_title f) = "" ->
  TasksRoute.POST B (authenticated caller) (Some (JS.Obj (TaskForm.taskData f))) fresh w
  = (json (error_body "Title is required") 400, w).
Proof.
  intros Htitle.
  unfold TasksRoute.POST, try_catch, bind, query, field, or_throw, request_json,
    require_user, return_if, ret, respond.
  cbn -[JS.trim insert_task TaskForm.or_null TaskForm.status_name TaskForm.priority_name].
  destruct (String.eqb (TaskForm.f_title f) ""); cbn -[JS.trim]; [reflexivity |].
  rewrite Htitle. reflexivity.
Qed.

Section CreateFacts.

Variable B : Backend.
Variable created_at : string -> Z.

Lemma order_desc_newest (l : list Task) (row : Task) :
  (forall x, In x l -> (created_at (t_id x) < created_at (t_id row))%Z) ->
  order_desc created_at (l ++ [row]) = row :: order_desc created_at l.
Proof.
  unfold order_desc. induction l as [| x l IH]; intros Hnew; [reflexivity |].
  cbn [app fold_right]. rewrite IH by (intros y Hy; apply Hnew; now right).
  cbn [insert_desc].
  assert (Hx : Z.leb (created_at (t_id row)) (created_at (t_id x)) = false).
  { apply Z.leb_gt. apply Hnew. now left. }
  now rewrite Hx.
Qed.

Lemma reloaded_after_create (d : Db) (caller : User) (row : Task) :
  t_user_id row = id caller ->
  newest created_at d (t_id row) ->
  saved_entry row :: reloaded B created_at d caller
  = map (without_shares (t_id row))
        (reloaded B created_at (with_tasks d (tasks d ++ [row])) caller).
Proof.
  intros Hown Hnew. unfold reloaded. cbn [tasks with_tasks].
  rewrite filter_app. cbn [filter]. rewrite Hown, String.eqb_refl.
  rewrite order_desc_newest.
  2:{ intros x Hx. apply filter_In in Hx. apply Hnew. tauto. }
  cbn [map]. f_equal.
  - unfold without_shares, entry_has_id. cbn [of_listed listed e_task lt_task].
    now rewrite String.eqb_refl.
  - rewrite map_map. apply map_ext_in. intros x Hx.
    apply (Permutation_in _ (order_desc_perm created_at _)) in Hx.
    apply filter_In in Hx. destruct Hx as [Hx _].
    unfold without_shares, entry_has_id. cbn [of_listed listed e_task lt_task].
    destruct (String.eqb (t_id x) (t_id row)) eqn:E; [| reflexivity].
    apply String.eqb_eq in E. specialize (Hnew x Hx). rewrite E in Hnew.
    exfalso. exact (Z.lt_irrefl _ Hnew).
Qed.

End CreateFacts.

(** X20.  Submitting the form with no task being edited, by a signed-in
    user who has a profile and whose list is up to date, the date field
    empty or a date the backend accepts.  A title that is blank once
    trimmed is turned down: nothing is stored and the list and the form
    stay as they are.  Otherwise one row is appended for the caller:
    title and description trimmed, an empty description, due date or
    category stored as null, a due date as the timestamp the backend
    reads it as, status and priority as chosen in the form, not
    completed; the form closes and the new task heads the list, which,
    when the row is newer than every stored one, is the list a reload
    would show (the new entry without share information). *)
Theorem form_creates_the_row_it_shows (B : Backend) (created_at : string -> Z)
    (caller : User) (s : State) (w : World) (fields : TaskForm.Fields) (fresh : string) :
  let row := row_of_form B caller fresh fields in
  st_editingTask s = None ->
  has_account (db w) caller ->
  due_accepted B fields ->
  up_to_date B created_at caller s w ->
  newest created_at (db w) fresh ->
  (JS.trim (TaskForm.f_title fields) = "" ->
     step B created_at (Submitted caller fresh fields) s w = Some (s, w))
  /\ (JS.trim (TaskForm.f_title fields) <> "" ->
        exists s' w',
          step B created_at (Submitted caller fresh fields) s w = Some (s', w')
          /\ db w' = with_tasks (db w) (tasks (db w) ++ [row])
          /\ st_tasks s' = saved_entry row :: st_tasks s
          /\ st_showForm s' = false
          /\ st_tasks s'
             = map (without_shares fresh)
                   (st_tasks (fst (fetchTasks B created_at caller s' w')))).
Proof.
  intros row Hnone Hacc Hdue Hup Hnew.
  split.
  - intros Hblank. cbn [step]. unfold onSubmit. rewrite Hnone.
    unfold handleCreateTask. rewrite (POST_blank_form _ _ _ _ _ Hblank). reflexivity.
  - intros Htitle.
    assert (Hfresh : existsb (has_id fresh) (tasks (db w)) = false).
    { destruct (existsb (has_id fresh) (tasks (db w))) eqn:E; [| reflexivity].
      apply existsb_exists in E. destruct E as (x & Hx & Hid).
      apply has_id_true in Hid. specialize (Hnew x Hx). rewrite Hid in Hnew.
      exfalso. exact (Z.lt_irrefl _ Hnew). }
    eexists. eexists. split.
    { cbn [step]. unfold onSubmit. rewrite Hnone. unfold handleCreateTask.
      rewrite (POST_by_form _ _ _ _ _ Hacc Hdue Htitle Hfresh). reflexivity. }
    cbn [db fst snd]. split; [reflexivity |]. split; [reflexivity |].
    split; [reflexivity |].
    rewrite fetchTasks_reloads.
    cbn [fst db st_tasks setLoading setTasks setShowForm saved_task body json tp_task
         with_profile].
    unfold up_to_date in Hup. rewrite fetchTasks_reloads in Hup. simpl in Hup.
    rewrite <- Hup. fold row.
    exact (reloaded_after_create B created_at (db w) caller row eq_refl Hnew).
Qed.

Lemma form_creates_the_row_it_shows_witness :
  newest SampleView.created_at Sample.store Sample.bread_id
  /\ exists s' w',
       step Sample.backend SampleView.created_at
         (Submitted Sample.alice Sample.bread_id SampleView.bread)
         SampleView.loaded Sample.world = Some (s', w')
       /\ map t_title (tasks (db w')) = ["Buy milk"; "Buy bread"]
       /\ map (fun e => t_title (e_task e)) (st_tasks s') = ["Buy bread"; "Buy milk"].
Proof.
  assert (Hnew : newest SampleView.created_at Sample.store Sample.bread_id).
  { intros t [<- | []]. reflexivity. }
  split; [exact Hnew |].
  destruct (form_creates_the_row_it_shows Sample.backend SampleView.created_at Sample.alice
              SampleView.loaded Sample.world SampleView.bread Sample.bread_id
              eq_refl eq_refl (or_introl eq_refl) eq_refl Hnew) as [_ Hmade].
  destruct Hmade as (s' & w' & Hstep & Hdb & Hlist & _); [discriminate |].
  exists s', w'. split; [exact Hstep |]. rewrite Hdb, Hlist. split; reflexivity.
Defined.
(* ================================================================== *)
(** ** What the component can and cannot reach *)
(* ================================================================== *)

Lemma single_without_error {A : Type} (rows : list A) :
  error (single rows) = None -> exists r, data (single rows) = Some r.
Proof.
  destruct rows as [| r [| r' rows]]; simpl; try discriminate. intros _. now exists r.
Qed.

Lemma update_without_error (supabase : Client) (d : Db) (u : TaskUpdate) (taskId : string) :
  error (fst (update_task supabase d u taskId)) = None ->
  exists r, data (fst (update_task supabase d u taskId)) = Some r.
Proof.
  unfold update_task.
  destruct (uuid_in (backend supabase) taskId) as [key |]; [| discriminate].
  destruct (no_columns u); [discriminate |].
  destruct (typed_update (backend supabase) u) as [e | c]; [discriminate |].
  cbv zeta.
  destruct (filter _ (tasks d)) as [| t [| t' rows]]; simpl; try discriminate.
  eauto.
Qed.

Lemma insert_without_error (supabase : Client) (d : Db) (fresh : string)
    (payload : TaskInsert) :
  error (fst (insert_task supabase d fresh payload)) = None ->
  exists r, data (fst (insert_task supabase d fresh payload)) = Some r.
Proof.
  destruct (insert_task_cases supabase d fresh payload)
    as [[e ->] | (st & pr & due & -> & _)]; simpl; [discriminate | eauto].
Qed.

(** An answer of PATCH in the 200s carries the task. *)
Lemma PATCH_ok_has_task (B : Backend) (auth : AuthResponse) (taskId : string)
    (raw : option JS.value) (w : World) :
  response_ok (status (fst (TaskRoute.PATCH B auth taskId raw w))) = true ->
  exists e, saved_task (fst (TaskRoute.PATCH B auth taskId raw w)) = Some e.
Proof.
  unfold TaskRoute.PATCH, try_catch, bind, require_user, read, query, return_if,
    request_json, field, or_throw, respond, ret, throw.
  destruct (user auth) as [caller |]; [destruct (authError auth) |]; simpl;
    try discriminate.
  destruct (TaskRoute.not_owner _ _); simpl; try discriminate.
  destruct raw as [body |]; simpl; try discriminate.
  destruct (JS.destructure body "title"); simpl; try discriminate.
  destruct (JS.destructure body "description"); simpl; try discriminate.
  destruct (JS.destructure body "status"); simpl; try discriminate.
  destruct (JS.destructure body "priority"); simpl; try discriminate.
  destruct (JS.destructure body "due_date"); simpl; try discriminate.
  destruct (JS.destructure body "category"); simpl; try discriminate.
  destruct (TaskRoute.updateData_of _ _ _ _ _ _) as [u |]; simpl; try discriminate.
  rewrite title_rejected_never. simpl.
  match goal with
  | |- context [update_task ?c ?d ?u ?i] =>
      pose proof (update_without_error c d u i) as Hrow;
      destruct (update_task c d u i) as [res d']
  end.
  cbn [fst snd] in *. destruct (error res); simpl; try discriminate.
  destruct (Hrow eq_refl) as (r & ->).
  intros _. unfold saved_task. simpl. eauto.
Qed.

(** An answer of POST in the 200s carries the task. *)
Lemma POST_ok_has_task (B : Backend) (auth : AuthResponse) (raw : option JS.value)
    (fresh : string) (w : World) :
  response_ok (status (fst (TasksRoute.POST B auth raw fresh w))) = true ->
  exists e, saved_task (fst (TasksRoute.POST B auth raw fresh w)) = Some e.
Proof.
  unfold TasksRoute.POST, try_catch, bind, require_user, read, query, return_if,
    request_json, field, or_throw, respond, ret, throw.
  destruct (user auth) as [caller |]; [destruct (authError auth) |]; simpl;
    try discriminate.
  destruct raw as [body |]; simpl; try discriminate.
  destruct (JS.destructure body "title"); simpl; try discriminate.
  destruct (JS.destructure body "description"); simpl; try discriminate.
  destruct (JS.destructure body "status"); simpl; try discriminate.
  destruct (JS.destructure body "priority"); simpl; try discriminate.
  destruct (JS.destructure body "due_date"); simpl; try discriminate.
  destruct (JS.destructure body "category"); simpl; try discriminate.
  destruct (TasksRoute.title_missing _) as [[|] |]; simpl; try discriminate.
  destruct (TasksRoute.taskData_of _ _ _ _ _ _ _) as [payload |]; simpl; try discriminate.
  match goal with
  | |- context [insert_task ?c ?d ?f ?i] =>
      pose proof (insert_without_error c d f i) as Hrow;
      destruct (insert_task c d f i) as [res d']
  end.
  cbn [fst snd] in *. destruct (error res); simpl; try discriminate.
  destruct (Hrow eq_refl) as (r & ->).
  intros _. unfold saved_task. simpl. eauto.
Qed.

Section Reachability.

Variable B : Backend.
Variable created_at : string -> Z.

Lemma step_defined (e : Event) (s : State) (w : World) :
  exists s' w', step B created_at e s w = Some (s', w').
Proof.
  destruct e; cbn [step]; try (now eauto).
  - unfold fetchTasks. destruct (TasksListRoute.GET _ _ _ _). eauto.
  - unfold fetchTasks. destruct (TasksListRoute.GET _ _ _ _). eauto.
  - unfold onSubmit. destruct (st_editingTask s) as [editing |] eqn:Ee.
    + unfold handleUpdateTask. rewrite Ee.
      pose proof (PATCH_ok_has_task B (authenticated caller) (t_id editing)
                    (Some (JS.Obj (TaskForm.taskData fields))) w) as Hok.
      destruct (TaskRoute.PATCH _ _ _ _ _) as [r w1]. cbn [fst] in Hok.
      destruct (response_ok (status r)); [| eauto].
      destruct (Hok eq_refl) as (x & ->). cbn [option_map]. eauto.
    + unfold handleCreateTask.
      pose proof (POST_ok_has_task B (authenticated caller) (Some (JS.Obj (TaskForm.taskData fields))) fresh w)
        as Hok.
      destruct (TasksRoute.POST _ _ _ _ _) as [r w1]. cbn [fst] in Hok.
      destruct (response_ok (status r)); [| eauto].
      destruct (Hok eq_refl) as (x & ->). cbn [option_map]. eauto.
  - unfold handleToggleStatus.
    match goal with
    | |- context [TaskRoute.PATCH B ?a ?i ?b ?w0] =>
        pose proof (PATCH_ok_has_task B a i b w0) as Hok;
        destruct (TaskRoute.PATCH B a i b w0) as [r w1]
    end.
    cbn [fst] in Hok. destruct (response_ok (status r)); [| eauto].
    destruct (Hok eq_refl) as (x & ->). cbn [option_map]. eauto.
  - unfold confirmDeleteTask. destruct (st_deleteConfirmTask s); [| eauto].
    destruct (TaskRoute.DELETE _ _ _ _). eauto.
  - unfold handleShareClose, fetchTasks. destruct (TasksListRoute.GET _ _ _ _). eauto.
Qed.

(** A step leaves the error message alone or sets one of two
    messages. *)
Lemma step_error (e : Event) (s s' : State) (w w' : World) :
  step B created_at e s w = Some (s', w') ->
  st_error s' = st_error s
  \/ st_error s' = "Failed to fetch tasks"
  \/ st_error s' = "Failed to delete task".
Proof.
  destruct e; cbn [step].
  - unfold fetchTasks. destruct (TasksListRoute.GET _ _ _ _) as [r w1].
    destruct (response_ok _); intros H; inversion H; subst; cbn; auto.
  - unfold fetchTasks. destruct (TasksListRoute.GET _ _ _ _) as [r w1].
    destruct (response_ok _); intros H; inversion H; subst; cbn; auto.
  - intros H; inversion H; subst; cbn; auto.
  - intros H; inversion H; subst; cbn; auto.
  - unfold onSubmit, handleUpdateTask, handleCreateTask.
    destruct (st_editingTask s) as [editing |].
    + destruct (TaskRoute.PATCH _ _ _ _ _) as [r w1].
      destruct (response_ok _); [destruct (saved_task r) |]; cbn;
        intros H; inversion H; subst; cbn; auto.
    + destruct (TasksRoute.POST _ _ _ _ _) as [r w1].
      destruct (response_ok _); [destruct (saved_task r) |]; cbn;
        intros H; inversion H; subst; cbn; auto.
  - intros H; inversion H; subst; cbn; auto.
  - unfold handleToggleStatus. destruct (TaskRoute.PATCH _ _ _ _ _) as [r w1].
    destruct (response_ok _); [destruct (saved_task r) |]; cbn;
      intros H; inversion H; subst; cbn; auto.
  - intros H; inversion H; subst; cbn; auto.
  - unfold handleDeleteTask. destruct (find _ _); intros H; inversion H; subst; cbn; auto.
  - unfold confirmDeleteTask. destruct (st_deleteConfirmTask s).
    + destruct (TaskRoute.DELETE _ _ _ _) as [r w1].
      destruct (response_ok _); intros H; inversion H; subst; cbn; auto.
    + intros H; inversion H; subst; auto.
  - intros H; inversion H; subst; cbn; auto.
  - intros H; inversion H; subst; cbn; auto.
  - unfold handleShareClose, fetchTasks. destruct (TasksListRoute.GET _ _ _ _) as [r w1].
    destruct (response_ok _); intros H; inversion H; subst; cbn; auto.
Qed.

End Reachability.

(** X21.  The list component reads [data.task] out of every create and
    update answer whose status is in the 200s without testing it.  Such
    an answer of the two handlers always carries the task, for every
    request and every store; so whatever the signed-in user does, no
    handler of the component puts a missing task into the list: every
    sequence of events runs to a state. *)
Theorem component_always_finds_the_saved_task (B : Backend) (created_at : string -> Z) :
  (forall auth taskId raw w,
      response_ok (status (fst (TaskRoute.PATCH B auth taskId raw w))) = true ->
      exists e, saved_task (fst (TaskRoute.PATCH B auth taskId raw w)) = Some e)
  /\ (forall auth raw fresh w,
        response_ok (status (fst (TasksRoute.POST B auth raw fresh w))) = true ->
        exists e, saved_task (fst (TasksRoute.POST B auth raw fresh w)) = Some e)
  /\ (forall events s w, exists s' w', run B created_at events s w = Some (s', w')).
Proof.
  split; [exact (PATCH_ok_has_task B) |]. split; [exact (POST_ok_has_task B) |].
  induction events as [| e events IH]; intros s w; cbn [run]; [eauto |].
  destruct (step_defined B created_at e s w) as (s1 & w1 & ->). apply IH.
Qed.

Lemma component_always_finds_the_saved_task_witness :
  response_ok
    (status (fst (TaskRoute.PATCH Sample.backend (authenticated Sample.alice) Sample.milk_id
                    (Sample.body_of Sample.complete_and_clear) Sample.world))) = true
  /\ exists e,
       saved_task (fst (TaskRoute.PATCH Sample.backend (authenticated Sample.alice) Sample.milk_id
                          (Sample.body_of Sample.complete_and_clear) Sample.world))
       = Some e.
Proof.
  split; [reflexivity |].
  exact (proj1 (component_always_finds_the_saved_task Sample.backend SampleView.created_at)
           (authenticated Sample.alice) Sample.milk_id (Sample.body_of Sample.complete_and_clear)
           Sample.world eq_refl).
Defined.

(** X22.  Once the list component holds an error message it keeps one:
    no handler clears it, the "Try Again" button included, so from then
    on the component renders the spinner or the error panel and never
    the page with the list, even after a fetch that succeeded. *)
Theorem error_panel_is_permanent (B : Backend) (created_at : string -> Z)
    (events : list Event)
    (s s' : State) (w w' : World) :
  st_error s <> "" ->
  run B created_at events s w = Some (s', w') ->
  st_error s' <> "" /\ rendered s' <> Page.
Proof.
  assert (Hview : forall x, st_error x <> "" -> rendered x <> Page).
  { intros x Hx. unfold rendered. destruct (st_loading x); [discriminate |].
    apply String.eqb_neq in Hx. rewrite Hx. discriminate. }
  revert s w. induction events as [| e events IH]; intros s w Herr; cbn [run].
  - intros H; inversion H; subst. auto.
  - destruct (step B created_at e s w) as [[s1 w1] |] eqn:Es; [| discriminate].
    apply IH. destruct (step_error B created_at _ _ _ _ _ Es) as [-> | [-> | ->]];
      [assumption | discriminate | discriminate].
Qed.

Lemma error_panel_is_permanent_witness :
  st_error SampleView.refused <> ""
  /\ exists s' w',
       run Sample.backend SampleView.created_at [TryAgainClicked Sample.alice]
         SampleView.refused SampleView.elsewhere = Some (s', w')
       /\ st_tasks s' = []
       /\ st_loading s' = false
       /\ rendered s' <> Page.
Proof.
  assert (Herr : st_error SampleView.refused <> "") by discriminate.
  split; [exact Herr |].
  eexists. eexists. split; [reflexivity |].
  split; [reflexivity |]. split; [reflexivity |].
  exact (proj2 (error_panel_is_permanent Sample.backend SampleView.created_at
                  [TryAgainClicked Sample.alice]
                  SampleView.refused _ SampleView.elsewhere _ Herr eq_refl)).
Defined.

(* ================================================================== *)
(** ** The share dialog *)
(* ================================================================== *)

(** Under a unique key, the rows that carry the key of a stored row are
    that row alone. *)
Lemma filter_by_unique_email (rows : list Profile) (p : Profile) :
  NoDup (map p_email rows) -> In p rows ->
  filter (fun x => String.eqb (p_email x) (p_email p)) rows = [p].
Proof.
  induction rows as [| x rows IH]; simpl; [contradiction |].
  intros Hnd Hin. inversion Hnd as [| ? ? Hnot Hrest]; subst.
  destruct Hin as [-> | Hin].
  - rewrite String.eqb_refl. f_equal.
    apply filter_none. intros y Hy. apply String.eqb_neq. intros E.
    apply Hnot. rewrite <- E. now apply in_map.
  - destruct (String.eqb (p_email x) (p_email p)) eqn:E.
    + apply String.eqb_eq in E. exfalso. apply Hnot. rewrite E. now apply in_map.
    + now apply IH.
Qed.

Lemma profile_by_email (d : Db) (p : Profile) :
  NoDup (map p_email (profiles d)) -> In p (profiles d) ->
  select_profile_by_email d (JS.Str (p_email p)) = ok (profile_ref p).
Proof.
  intros Hnd Hin. unfold select_profile_by_email.
  rewrite (filter_ext _ (fun x => String.eqb (p_email x) (p_email p)))
    by (intros x; reflexivity).
  now rewrite (filter_by_unique_email _ _ Hnd Hin).
Qed.

(** One share per (task, user) pair: the shares of a pair are none or
    one. *)
Lemma at_most_one_share (shares : list TaskShare) (taskId userId : string) :
  NoDup (map share_key shares) ->
  filter (is_share taskId userId) shares = []
  \/ exists s, filter (is_share taskId userId) shares = [s].
Proof.
  induction shares as [| x shares IH]; simpl; [now left |].
  intros Hnd. inversion Hnd as [| ? ? Hnot Hrest]; subst.
  destruct (is_share taskId userId x) eqn:E.
  - right. exists x. f_equal. apply filter_none. intros y Hy.
    destruct (is_share taskId userId y) eqn:Ey; [| reflexivity].
    exfalso. apply Hnot. apply in_map_iff. exists y. split; [| assumption].
    unfold is_share in E, Ey. apply andb_true_iff in E, Ey.
    destruct E as [E1 E2], Ey as [Ey1 Ey2].
    apply String.eqb_eq in E1, E2, Ey1, Ey2. unfold share_key. congruence.
  - now apply IH.
Qed.

Lemma share_exists_iff (shares : list TaskShare) (taskId userId : string) :
  existsb (is_share taskId userId) shares = false
  <-> filter (is_share taskId userId) shares = [].
Proof.
  induction shares as [| x shares IH]; simpl; [tauto |].
  destruct (is_share taskId userId x); simpl; [split; discriminate | exact IH].
Qed.

(** The owner's request for a user the task is already shared with. *)
Lemma share_again (B : Backend) (w : World) (t : Task) (caller : User) (userEmail : string)
    (targetUser : ProfileRef) (fresh : string) (s : TaskShare) :
  only_task (db w) t ->
  names B (t_id t) t ->
  t_user_id t = id caller ->
  userEmail <> "" ->
  select_profile_by_email (db w) (JS.Str userEmail) = ok targetUser ->
  pr_id targetUser <> id caller ->
  filter (is_share (t_id t) (pr_id targetUser)) (task_shares (db w)) = [s] ->
  s_shared_by_user_id s = id caller ->
  ShareRoute.POST B (authenticated caller) (t_id t)
    (Some (JS.Obj [("userEmail", JS.Str userEmail)])) fresh w
  = (json (error_body "Task already shared with this user") 400,
     {| db := db w;
        trace := trace w ++ [issued "tasks" Select; issued "profiles" Select;
                             issued "task_shares" Select] |}).
Proof.
  intros Hone Hn Hown Hne Hfound Hother Hs Hby.
  unfold ShareRoute.POST, try_catch, bind, read, query, field. simpl.
  apply String.eqb_neq in Hne. rewrite Hne. simpl.
  rewrite (owner_result_own B caller (db w) (t_id t) t Hn Hone Hown). simpl.
  rewrite String.eqb_refl. simpl.
  rewrite Hfound. simpl.
  replace (String.eqb (pr_id targetUser) (id caller)) with false
    by (symmetry; now apply String.eqb_neq).
  simpl.
  rewrite (select_share_some (createClient B (authenticated caller)) (db w) (t_id t)
             (t_id t) (pr_id targetUser) s Hn Hs)
    by (apply can_select_share_iff; now left).
  simpl. repeat rewrite <- app_assoc. reflexivity.
Qed.

Lemma detail_fetch_keeps_store (B : Backend) (auth : AuthResponse) (taskId : string)
    (w : World) :
  db (snd (TaskRoute.GET B auth taskId w)) = db w.
Proof.
  unfold TaskRoute.GET, try_catch, bind, require_user.
  destruct (user auth) as [caller |]; [destruct (authError auth) |]; simpl;
    try reflexivity.
  destruct (canAccessTask_reads (createClient B auth) taskId (id caller) w) as (b & ->).
  destruct b; simpl; [| reflexivity].
  unfold read, query. simpl.
  destruct (error (select_task_detail _ (db w) taskId)); reflexivity.
Qed.

(** Fetching the shared users touches nothing but [sharedUsers]. *)
Lemma fetchSharedUsers_frame (B : Backend) (caller : User) (task : Task)
    (s : ShareModal.State) (w : World) :
  let s' := fst (ShareModal.fetchSharedUsers B caller task s w) in
  ShareModal.m_searchQuery s' = ShareModal.m_searchQuery s
  /\ ShareModal.m_searchResults s' = ShareModal.m_searchResults s
  /\ ShareModal.m_loading s' = ShareModal.m_loading s
  /\ ShareModal.m_error s' = ShareModal.m_error s
  /\ db (snd (ShareModal.fetchSharedUsers B caller task s w)) = db w.
Proof.
  unfold ShareModal.fetchSharedUsers.
  pose proof (detail_fetch_keeps_store B (authenticated caller) (t_id task) w) as Hdb.
  destruct (TaskRoute.GET B (authenticated caller) (t_id task) w) as [r w1].
  cbn [fst snd] in *.
  destruct (response_ok (status r)); [| tauto].
  destruct (body r) as [| | | [dt |] | |]; try tauto.
  destruct (ShareModal.shared_users _); cbn; tauto.
Qed.

(** The users the dialog offers are profiles of the store other than
    the caller's; searching writes nothing. *)
Lemma search_effect_offers (ilike : string -> string -> bool) (caller : User)
    (s : ShareModal.State) (w : World) :
  let searched := ShareModal.search_effect ilike caller s w in
  db (snd searched) = db w
  /\ ShareModal.m_error (fst searched) = ShareModal.m_error s
  /\ (forall u, In u (ShareModal.m_searchResults (fst searched)) ->
        exists p, In p (profiles (db w)) /\ u = profile_ref p /\ p_id p <> id caller).
Proof.
  unfold ShareModal.search_effect.
  destruct (String.eqb (JS.trim (ShareModal.m_searchQuery s)) "") eqn:Eq; cbn [negb].
  { cbn. repeat split. intros u []. }
  unfold ShareModal.searchUsers, SearchRoute.GET, try_catch, bind, require_user,
    return_if, read, query, SearchRoute.no_query.
  rewrite Eq.
  assert (Hne : String.eqb (ShareModal.m_searchQuery s) "" = false).
  { apply String.eqb_neq. apply trim_nonempty. now apply String.eqb_neq. }
  rewrite Hne. cbn -[firstn String.append].
  split; [reflexivity |]. split; [reflexivity |].
  intros u Hu. apply search_results_sound in Hu.
  destruct Hu as (p & Hp & -> & _ & Hother). eauto.
Qed.

(** X23.  Clicking a user the share dialog offers, for the signed-in
    owner of the task, who has a profile, every share having been given
    by the owner of its task: the user is never the owner; if the task
    is already shared with that user the request is refused, the dialog
    shows "Task already shared with this user", the parent is not
    notified and nothing is stored; otherwise exactly one share of the
    task with that user is appended, the dialog shows no error and
    clears the search, and the parent, notified, closes the dialog and
    reloads its list, in which the task is shown as shared. *)
Theorem offered_user_is_shared_with (B : Backend) (ilike : string -> string -> bool)
    (created_at : string -> Z) (caller : User) (t : Task) (s : ShareModal.State)
    (p : State) (w : World) (u : ProfileRef) (fresh : string) :
  let searched := ShareModal.search_effect ilike caller s w in
  let result :=
    ShareModal.handleShare B State (handleShareClose B created_at caller) caller fresh t
      (pr_email u) (fst searched) p (snd searched) in
  let dialog := fst (fst result) in
  let parent := snd (fst result) in
  directory (db w) ->
  NoDup (map share_key (task_shares (db w))) ->
  given_by_owner (db w) ->
  only_task (db w) t ->
  names B (t_id t) t ->
  t_user_id t = id caller ->
  has_account (db w) caller ->
  existsb (fun sh => String.eqb (s_id sh) fresh) (task_shares (db w)) = false ->
  In u (ShareModal.m_searchResults (fst searched)) ->
  pr_id u <> id caller
  /\ (existsb (is_share (t_id t) (pr_id u)) (task_shares (db w)) = true ->
        ShareModal.m_error dialog = "Task already shared with this user"
        /\ ShareModal.m_loading dialog = false
        /\ parent = p
        /\ db (snd result) = db w)
  /\ (existsb (is_share (t_id t) (pr_id u)) (task_shares (db w)) = false ->
        task_shares (db (snd result))
        = task_shares (db w)
          ++ [{| s_id := fresh; s_task_id := t_id t; s_shared_with_user_id := pr_id u;
                 s_shared_by_user_id := id caller; s_permission := Some view |}]
        /\ tasks (db (snd result)) = tasks (db w)
        /\ ShareModal.m_error dialog = ""
        /\ ShareModal.m_loading dialog = false
        /\ ShareModal.m_searchQuery dialog = ""
        /\ ShareModal.m_searchResults dialog = []
        /\ st_shareModalTask parent = None
        /\ (forall e, In e (st_tasks parent) -> t_id (e_task e) = t_id t ->
              isShared e = true)
        /\ In (t_id t) (listed_ids parent)).
Proof.
  intros searched result dialog parent Hdir Hpairs Hgiven Hone Hn Hown Hacc Hfresh Hin.
  destruct (search_effect_offers ilike caller s w) as (Hdb & _ & Hoffer).
  fold searched in Hdb, Hoffer.
  destruct (Hoffer u Hin) as (pf & Hpf & Hu & Hother).
  destruct Hdir as [_ Hemails Hnamed].
  assert (Hmail : pr_email u <> "") by (rewrite Hu; apply Hnamed; assumption).
  assert (Hfound : select_profile_by_email (db w) (JS.Str (pr_email u)) = ok u).
  { rewrite Hu. exact (profile_by_email (db w) pf Hemails Hpf). }
  assert (Hnot : pr_id u <> id caller) by (rewrite Hu; exact Hother).
  assert (Hint : In t (tasks (db w))) by now apply only_task_stored.
  split; [exact Hnot |].
  subst dialog parent result. unfold ShareModal.handleShare.
  destruct (snd searched) as [d0 tr0] eqn:Ew. cbn [db] in Hdb. subst d0.
  split.
  - intros Hex.
    destruct (at_most_one_share (task_shares (db w)) (t_id t) (pr_id u) Hpairs)
      as [Hnil | (sh & Hsh)].
    { apply share_exists_iff in Hnil. congruence. }
    assert (Hby : s_shared_by_user_id sh = id caller).
    { assert (Hshin : In sh (filter (is_share (t_id t) (pr_id u)) (task_shares (db w))))
        by (rewrite Hsh; now left).
      apply filter_In in Hshin. destruct Hshin as [Hshin Hkey].
      unfold is_share in Hkey. apply andb_true_iff in Hkey. destruct Hkey as [Hkey _].
      apply String.eqb_eq in Hkey.
      rewrite (Hgiven sh t Hshin Hint (eq_sym Hkey)). exact Hown. }
    rewrite (share_again B {| db := db w; trace := tr0 |} t caller (pr_email u) u fresh sh
               Hone Hn Hown Hmail Hfound Hnot Hsh Hby).
    cbn. auto.
  - intros Hex.
    assert (Htruthy : JS.truthy (Some (JS.Str (pr_email u))) = true).
    { simpl. apply negb_true_iff. now apply String.eqb_neq. }
    rewrite (share_accepted B {| db := db w; trace := tr0 |} t (t_id t) caller
               [("userEmail", JS.Str (pr_email u))] (JS.Str (pr_email u)) u fresh
               Hone Hn Hown Hacc eq_refl Htruthy Hfound Hnot Hex Hfresh).
    cbn [status json fst snd]. change (response_ok 201) with true. cbn iota.
    match goal with
    | |- context [ShareModal.fetchSharedUsers B ?a ?k ?s0 ?w0] =>
        destruct (fetchSharedUsers_frame B a k s0 w0) as (Hq & Hr & Hl & He & Hd);
        destruct (ShareModal.fetchSharedUsers B a k s0 w0) as [s1 w1]
    end.
    cbn [fst snd db] in Hq, Hr, Hl, He, Hd.
    unfold handleShareClose. rewrite fetchTasks_reloads.
    cbn [fst snd db]. rewrite Hd. cbn [task_shares tasks].
    split; [reflexivity |]. split; [reflexivity |].
    split; [exact He |]. split; [reflexivity |]. split; [exact Hq |]. split; [exact Hr |].
    split; [reflexivity |].
    split.
    + intros e He' Hid. cbn [st_tasks setLoading setTasks] in He'.
      apply reloaded_in in He'. destruct He' as (x & -> & Hx & _).
      cbn [of_listed listed e_task lt_task tasks] in Hid, Hx.
      unfold isShared. cbn [of_listed listed e_task_shares lt_task_shares].
      rewrite length_map. unfold shares_seen, shares_of. cbn [task_shares].
      rewrite !filter_app, length_app. cbn [filter s_task_id].
      rewrite Hid, String.eqb_refl. cbn [filter].
      unfold client_of.
      replace (can_select_share (createClient B (authenticated caller))
                 {| s_id := fresh; s_task_id := t_id t; s_shared_with_user_id := pr_id u;
                    s_shared_by_user_id := id caller; s_permission := Some view |})
        with true by (symmetry; apply can_select_share_iff; now left).
      cbn [length]. apply Nat.ltb_lt. lia.
    + unfold listed_ids. cbn [st_tasks setLoading setTasks].
      apply in_map_iff.
      match goal with
      | |- context [reloaded B created_at ?D _] =>
          exists (of_listed (listed (client_of B caller) D t))
      end.
      split; [reflexivity |].
      unfold reloaded. apply in_map_iff. exists t. split; [reflexivity |].
      apply (Permutation_in _ (Permutation_sym (order_desc_perm created_at _))).
      apply filter_In. cbn [tasks]. split; [exact Hint |].
      rewrite Hown. apply String.eqb_refl.
Qed.

Lemma sample_directory : directory Sample.store.
Proof.
  split.
  - repeat constructor; simpl; intuition discriminate.
  - repeat constructor; simpl; intuition discriminate.
  - intros p [<- | [<- | [<- | []]]]; discriminate.
Qed.

Lemma sample_given_by_owner : given_by_owner Sample.store.
Proof. intros sh t [<- | []] [<- | []] _. reflexivity. Qed.

Lemma offered_user_is_shared_with_witness :
  In SampleDialog.carol_ref
     (ShareModal.m_searchResults
        (fst (ShareModal.search_effect Sample.ilike Sample.alice
                SampleDialog.searching Sample.world)))
  /\ map s_shared_with_user_id
       (task_shares
          (db (snd (ShareModal.handleShare Sample.backend State
                      (handleShareClose Sample.backend SampleView.created_at Sample.alice)
                      Sample.alice Sample.next_share_id Sample.milk "carol@example.com"
                      (fst (ShareModal.search_effect Sample.ilike
                              Sample.alice
                              SampleDialog.searching Sample.world))
                      SampleView.loaded
                      (snd (ShareModal.search_effect Sample.ilike
                              Sample.alice
                              SampleDialog.searching Sample.world))))))
     = [Sample.bob_id; Sample.carol_id].
Proof.
  assert (Hin : In SampleDialog.carol_ref
                  (ShareModal.m_searchResults
                     (fst (ShareModal.search_effect Sample.ilike
                             Sample.alice
                             SampleDialog.searching Sample.world))))
    by (vm_compute; auto).
  split; [exact Hin |].
  assert (Hpairs : NoDup (map share_key (task_shares Sample.store)))
    by (repeat constructor; intros []).
  destruct (offered_user_is_shared_with Sample.backend Sample.ilike SampleView.created_at
              Sample.alice Sample.milk SampleDialog.searching SampleView.loaded
              Sample.world SampleDialog.carol_ref Sample.next_share_id sample_directory
              Hpairs sample_given_by_owner eq_refl eq_refl eq_refl eq_refl eq_refl Hin)
    as (_ & _ & Hnew).
  destruct (Hnew eq_refl) as (Hshares & _).
  change (pr_email SampleDialog.carol_ref) with "carol@example.com" in Hshares.
  rewrite Hshares. reflexivity.
Defined.

(* ------------------------------------------------------------------ *)

Lemma profile_of_id (d : Db) (uid : string) (pr : ProfileRef) :
  profile_of d uid = Some pr -> pr_id pr = uid.
Proof.
  unfold profile_of. destruct (find _ _) as [p |] eqn:E; simpl; [| discriminate].
  intros H. inversion H; subst. apply find_some in E. destruct E as [_ E].
  now apply String.eqb_eq.
Qed.

(** The entries [fetchSharedUsers] makes of shares that all have their
    profile: one per share, under the identifier of its user. *)
Lemma shared_users_of (d : Db) :
  exists g : TaskShare -> ShareModal.SharedUser,
    (forall sh, ShareModal.su_id (g sh) = s_shared_with_user_id sh)
    /\ forall l,
         (forall sh, In sh l -> profile_of d (s_shared_with_user_id sh) <> None) ->
         ShareModal.shared_users
           (map (fun sh => (sh, profile_of d (s_shared_with_user_id sh))) l)
         = Some (map g l).
Proof.
  exists (fun sh =>
            {| ShareModal.su_id := s_shared_with_user_id sh;
               ShareModal.su_email :=
                 match profile_of d (s_shared_with_user_id sh) with
                 | Some pr => pr_email pr
                 | None => ""
                 end;
               ShareModal.su_full_name :=
                 match profile_of d (s_shared_with_user_id sh) with
                 | Some pr => pr_full_name pr
                 | None => None
                 end;
               ShareModal.su_share_id := s_id sh |}).
  split; [reflexivity |].
  induction l as [| sh l IH]; intros Hall; [reflexivity |].
  cbn [map ShareModal.shared_users].
  destruct (profile_of d (s_shared_with_user_id sh)) as [pr |] eqn:E.
  - rewrite IH by (intros y Hy; apply Hall; now right). cbn [option_map].
    rewrite (profile_of_id _ _ _ E). reflexivity.
  - exfalso. apply (Hall sh); [now left | exact E].
Qed.

Lemma fetchSharedUsers_by_owner (B : Backend) (caller : User) (t : Task)
    (s : ShareModal.State) (w : World) :
  given_by_owner (db w) ->
  only_task (db w) t ->
  names B (t_id t) t ->
  t_user_id t = id caller ->
  fst (ShareModal.fetchSharedUsers B caller t s w)
  = match ShareModal.shared_users
            (map (fun sh => (sh, profile_of (db w) (s_shared_with_user_id sh)))
                 (shares_of (db w) (t_id t))) with
    | Some users => ShareModal.setSharedUsers users s
    | None => s
    end.
Proof.
  intros Hg Hone Hn Hown. unfold ShareModal.fetchSharedUsers.
  pose proof (GET_granted B w caller (t_id t) t Hone Hn (or_introl Hown)) as Hget.
  destruct (TaskRoute.GET B (authenticated caller) (t_id t) w) as [r w1].
  cbn [fst] in *. rewrite Hget. cbn [status json body detail td_task_shares].
  rewrite (shares_seen_by_owner B caller (db w) t Hg (only_task_stored _ _ Hone) Hown).
  reflexivity.
Qed.

Lemma given_by_owner_unshared (giver key userId : string) (d : Db) :
  given_by_owner d -> given_by_owner (unshared giver key userId d).
Proof.
  intros Hg sh t Hsh Ht Hid. cbn [unshared task_shares tasks] in Hsh, Ht.
  apply filter_In in Hsh. destruct Hsh as [Hsh _]. now apply Hg.
Qed.

(** X24.  The "People with access" list of the share dialog, for the
    signed-in owner of the task, when every share was given by the
    owner of its task and every share of the task names a user with a
    profile: opening the dialog lists exactly the users the task is
    shared with, one entry per share.  Removing a user whose identifier
    is in the form the backend prints, as those of the listed users are,
    once confirmed, deletes the shares of the task with that user and
    nothing else, the entry leaves the list, no error is shown, and the
    parent, notified, closes the dialog; declining the confirmation
    changes nothing. *)
Theorem listed_user_can_be_removed (B : Backend) (created_at : string -> Z) (caller : User)
    (t : Task) (s : ShareModal.State) (p : State) (w : World) (x : ShareModal.SharedUser) :
  let opened := ShareModal.fetchSharedUsers B caller t s w in
  let remove confirmed :=
    ShareModal.handleUnshare B State (handleShareClose B created_at caller) caller
      confirmed t (ShareModal.su_id x) (fst opened) p (snd opened) in
  let dialog := fst (fst (remove true)) in
  let parent := snd (fst (remove true)) in
  given_by_owner (db w) ->
  only_task (db w) t ->
  names B (t_id t) t ->
  t_user_id t = id caller ->
  shares_have_profiles (db w) (t_id t) ->
  ShareModal.su_id x <> "" ->
  uuid_in B (ShareModal.su_id x) = Some (ShareModal.su_id x) ->
  map ShareModal.su_id (ShareModal.m_sharedUsers (fst opened))
  = map s_shared_with_user_id (shares_of (db w) (t_id t))
  /\ remove false = (fst opened, p, snd opened)
  /\ task_shares (db (snd (remove true)))
     = filter (fun sh => negb (is_share (t_id t) (ShareModal.su_id x) sh))
              (task_shares (db w))
  /\ tasks (db (snd (remove true))) = tasks (db w)
  /\ ShareModal.m_sharedUsers dialog
     = filter (fun y => negb (String.eqb (ShareModal.su_id y) (ShareModal.su_id x)))
              (ShareModal.m_sharedUsers (fst opened))
  /\ ~ In (ShareModal.su_id x) (map ShareModal.su_id (ShareModal.m_sharedUsers dialog))
  /\ ShareModal.m_error dialog = ""
  /\ ShareModal.m_loading dialog = false
  /\ st_shareModalTask parent = None.
Proof.
  intros opened remove dialog parent Hg Hone Hn Hown Hprof Hid Hread.
  destruct (shared_users_of (db w)) as (g & Hg' & Husers).
  assert (Hopened : fst opened
                    = ShareModal.setSharedUsers (map g (shares_of (db w) (t_id t))) s).
  { subst opened. rewrite (fetchSharedUsers_by_owner B _ _ _ _ Hg Hone Hn Hown).
    now rewrite (Husers _ Hprof). }
  destruct (fetchSharedUsers_frame B caller t s w) as (_ & _ & _ & _ & Hdb).
  fold opened in Hdb.
  split.
  { rewrite Hopened. cbn [ShareModal.m_sharedUsers ShareModal.setSharedUsers].
    rewrite map_map. apply map_ext. exact Hg'. }
  split; [reflexivity |].
  assert (Htruthy : JS.truthy (Some (JS.Str (ShareModal.su_id x))) = true).
  { simpl. apply negb_true_iff. now apply String.eqb_neq. }
  destruct (snd opened) as [d0 tr0] eqn:Ew. cbn [db] in Hdb. subst d0.
  pose proof (unshare_by_owner B {| db := db w; trace := tr0 |} t (t_id t) caller
                [("sharedUserId", JS.Str (ShareModal.su_id x))]
                (JS.Str (ShareModal.su_id x)) (ShareModal.su_id x)
                Hone Hn Hown eq_refl Htruthy Hread) as Hdel.
  cbn [db trace] in Hdel.
  set (d' := unshared (id caller) (t_id t) (ShareModal.su_id x) (db w)) in *.
  assert (Hone' : only_task d' t) by exact Hone.
  assert (Hg1 : given_by_owner d') by now apply given_by_owner_unshared.
  assert (Hgone : task_shares d'
                  = filter (fun sh => negb (is_share (t_id t) (ShareModal.su_id x) sh))
                           (task_shares (db w))).
  { unfold d', unshared. cbn [task_shares]. apply filter_ext_in. intros sh Hsh.
    now rewrite (unshared_all (db w) t (id caller) (ShareModal.su_id x) sh Hg
                   (only_task_stored _ _ Hone) Hown Hsh). }
  assert (Hshares' : shares_of d' (t_id t)
                     = filter (fun sh => negb (String.eqb (s_shared_with_user_id sh)
                                                          (ShareModal.su_id x)))
                              (shares_of (db w) (t_id t))).
  { unfold shares_of. rewrite Hgone.
    rewrite filter_swap. apply filter_ext_in. intros sh Hsh.
    apply filter_In in Hsh. destruct Hsh as [_ Hsh].
    unfold is_share. rewrite Hsh. reflexivity. }
  assert (Hprof' : forall sh, In sh (shares_of d' (t_id t)) ->
                     profile_of (db w) (s_shared_with_user_id sh) <> None).
  { intros sh Hsh. rewrite Hshares' in Hsh. apply filter_In in Hsh.
    apply Hprof. tauto. }
  subst dialog parent remove. cbn beta.
  unfold ShareModal.handleUnshare. cbn [negb]. rewrite Hdel.
  cbn [status json fst]. change (response_ok 200) with true. cbn iota.
  match goal with
  | |- context [ShareModal.fetchSharedUsers B ?a ?k ?s0 ?w0] =>
      pose proof (fetchSharedUsers_by_owner B caller k s0 w0 Hg1 Hone' Hn Hown) as Hagain;
      destruct (fetchSharedUsers_frame B a k s0 w0) as (_ & _ & _ & He & Hd);
      destruct (ShareModal.fetchSharedUsers B a k s0 w0) as [s1 w1]
  end.
  cbn [fst snd db] in Hagain, He, Hd.
  change (profile_of d') with (profile_of (db w)) in Hagain.
  rewrite (Husers _ Hprof') in Hagain.
  unfold handleShareClose. rewrite fetchTasks_reloads.
  cbn [fst snd db]. rewrite Hd.
  assert (Hlist : ShareModal.m_sharedUsers s1
                  = filter (fun y => negb (String.eqb (ShareModal.su_id y)
                                                      (ShareModal.su_id x)))
                           (ShareModal.m_sharedUsers (fst opened))).
  { rewrite Hagain, Hopened, Hshares'.
    cbn [ShareModal.m_sharedUsers ShareModal.setSharedUsers].
    symmetry. apply filter_through_map. intros sh. now rewrite Hg'. }
  split; [exact Hgone |].
  split; [reflexivity |].
  split; [exact Hlist |].
  split.
  { cbn [ShareModal.m_sharedUsers ShareModal.setLoading]. rewrite Hlist.
    intros Hbad. apply in_map_iff in Hbad. destruct Hbad as (y & Hy & Hin).
    apply filter_In in Hin. destruct Hin as [_ Hneg]. apply negb_true_iff in Hneg.
    apply String.eqb_neq in Hneg. contradiction. }
  split; [exact He |]. split; reflexivity.
Qed.

Lemma listed_user_can_be_removed_witness :
  shares_have_profiles Sample.store Sample.milk_id
  /\ ShareModal.m_sharedUsers
       (fst (ShareModal.fetchSharedUsers Sample.backend Sample.alice Sample.milk
               ShareModal.initial Sample.world))
     = [SampleDialog.bob_listed]
  /\ task_shares
       (db (snd (ShareModal.handleUnshare Sample.backend State
                   (handleShareClose Sample.backend SampleView.created_at Sample.alice)
                   Sample.alice true Sample.milk Sample.bob_id
                   (fst (ShareModal.fetchSharedUsers Sample.backend Sample.alice
                           Sample.milk ShareModal.initial Sample.world))
                   SampleView.loaded
                   (snd (ShareModal.fetchSharedUsers Sample.backend Sample.alice
                           Sample.milk ShareModal.initial Sample.world)))))
     = [].
Proof.
  assert (Hprof : shares_have_profiles Sample.store Sample.milk_id).
  { intros sh [<- | []]. discriminate. }
  split; [exact Hprof |]. split; [reflexivity |].
  destruct (listed_user_can_be_removed Sample.backend SampleView.created_at Sample.alice
              Sample.milk ShareModal.initial SampleView.loaded Sample.world
              SampleDialog.bob_listed sample_given_by_owner eq_refl eq_refl eq_refl Hprof)
    as (_ & _ & Hshares & _); [discriminate | reflexivity |].
  exact Hshares.
Defined.
(* ================================================================== *)
(** ** The components and the gatekeeper *)
(* ================================================================== *)

(** X25.  Every request the list component and the share dialog send
    goes to a path the gatekeeper passes on when a user is signed in,
    whatever the query string.  When nobody is signed in the gatekeeper
    redirects each of them to [/login] with the path recorded under
    [redirectedFrom], so that the handler is not reached. *)
Theorem component_requests_pass_the_gatekeeper (taskId path : string)
    (params : list (string * string)) :
  In path (fetched_paths taskId) ->
  (forall caller : User,
      Middleware.middleware (Some caller)
        {| Middleware.pathname := path; Middleware.searchParams := params |}
      = Middleware.Next)
  /\ Middleware.middleware None
       {| Middleware.pathname := path; Middleware.searchParams := params |}
     = Middleware.Redirect
         {| Middleware.pathname := "/login";
            Middleware.searchParams :=
              Middleware.searchParams_set "redirectedFrom" path params |}.
Proof.
  intros [<- | [<- | [<- | [<- | []]]]]; split; try (intros caller); reflexivity.
Qed.

Lemma component_requests_pass_the_gatekeeper_witness :
  In ("/api/tasks/" ++ Sample.milk_id ++ "/share")%string (fetched_paths Sample.milk_id)
  /\ Middleware.middleware (Some Sample.alice)
       {| Middleware.pathname := ("/api/tasks/" ++ Sample.milk_id ++ "/share")%string;
          Middleware.searchParams := [] |}
     = Middleware.Next.
Proof.
  assert (Hin : In ("/api/tasks/" ++ Sample.milk_id ++ "/share")%string
                  (fetched_paths Sample.milk_id))
    by (right; right; left; reflexivity).
  split; [exact Hin |].
  exact (proj1 (component_requests_pass_the_gatekeeper Sample.milk_id
                  ("/api/tasks/" ++ Sample.milk_id ++ "/share")%string [] Hin)
           Sample.alice).
Defined.

(** X26.  A list that is up to date holds tasks of the signed-in user
    only: every item is rendered as owned, and a task of somebody else
    is not in the list even when it is shared with the user, who can
    nevertheless fetch it by its identifier.  The task so fetched comes
    with those of its shares that the user gave or received, and no
    others: when every share was given by the owner of its task, with
    the shares of the task with the user. *)
Theorem list_holds_own_tasks_only (B : Backend) (created_at : string -> Z) (caller : User)
    (s : State) (w : World) :
  up_to_date B created_at caller s w ->
  (forall e, In e (st_tasks s) -> isOwner (id caller) e = true)
  /\ (forall t taskId,
        only_task (db w) t -> names B taskId t -> t_user_id t <> id caller ->
        shared_with (db w) (t_id t) caller ->
        let fetched := detail (client_of B caller) (db w) t in
        ~ In (t_id t) (listed_ids s)
        /\ fst (TaskRoute.GET B (authenticated caller) taskId w)
           = json (task_detail_body (Some fetched)) 200
        /\ td_task fetched = t
        /\ (forall sh pr,
              In (sh, pr) (td_task_shares fetched)
              <-> In sh (task_shares (db w)) /\ s_task_id sh = t_id t
                  /\ pr = profile_of (db w) (s_shared_with_user_id sh)
                  /\ (s_shared_by_user_id sh = id caller
                      \/ s_shared_with_user_id sh = id caller))
        /\ (given_by_owner (db w) ->
              td_task_shares fetched
              = map (fun sh => (sh, profile_of (db w) (s_shared_with_user_id sh)))
                    (filter (fun sh => String.eqb (s_shared_with_user_id sh) (id caller))
                            (shares_of (db w) (t_id t))))).
Proof.
  intros Hup. unfold up_to_date in Hup. rewrite fetchTasks_reloads in Hup.
  simpl in Hup. rewrite <- Hup. split.
  - intros e He. apply reloaded_in in He. destruct He as (t & -> & _ & Hown).
    unfold isOwner. cbn [of_listed listed e_task lt_task]. rewrite Hown.
    apply String.eqb_refl.
  - intros t taskId Hone Hn Hother Hshared fetched. split; [| split; [| split; [| split]]].
    + unfold listed_ids. rewrite <- Hup. intros Hin. apply in_map_iff in Hin.
      destruct Hin as (e & Hid & He). apply reloaded_in in He.
      destruct He as (x & -> & Hx & Hown).
      cbn [of_listed listed e_task lt_task] in Hid.
      assert (Hxt : In x (filter (has_id (t_id t)) (tasks (db w))))
        by (apply filter_In; split; [assumption | now apply has_id_true]).
      unfold only_task in Hone. rewrite Hone in Hxt. destruct Hxt as [<- | []].
      contradiction.
    + apply GET_granted; [assumption | assumption | now right].
    + reflexivity.
    + intros sh pr. subst fetched. cbn [detail td_task_shares].
      unfold shares_seen, shares_of, client_of. rewrite in_map_iff. split.
      * intros (sh' & E & Hin). inversion E; subst; clear E.
        apply filter_In in Hin. destruct Hin as [Hin Hsee].
        apply filter_In in Hin. destruct Hin as [Hin Hkey].
        apply String.eqb_eq in Hkey. apply can_select_share_iff in Hsee. auto.
      * intros (Hin & Hkey & -> & Hsee). exists sh. split; [reflexivity |].
        apply filter_In. split; [| now apply can_select_share_iff].
        apply filter_In. split; [assumption | now apply String.eqb_eq].
    + intros Hg. subst fetched. cbn [detail td_task_shares]. unfold client_of.
      now rewrite (shares_seen_by_other B caller (db w) t Hg (only_task_stored _ _ Hone)
                     Hother).
Qed.

Lemma list_holds_own_tasks_only_witness :
  up_to_date Sample.backend SampleView.created_at Sample.bob
    (fst (fetchTasks Sample.backend SampleView.created_at Sample.bob initial Sample.world))
    Sample.world
  /\ ~ In Sample.milk_id
       (listed_ids (fst (fetchTasks Sample.backend SampleView.created_at Sample.bob initial
                           Sample.world)))
  /\ status (fst (TaskRoute.GET Sample.backend (authenticated Sample.bob) Sample.milk_id
                    Sample.world)) = 200%Z.
Proof.
  assert (Hup : up_to_date Sample.backend SampleView.created_at Sample.bob
                  (fst (fetchTasks Sample.backend SampleView.created_at Sample.bob initial
                          Sample.world))
                  Sample.world) by reflexivity.
  split; [exact Hup |].
  destruct (list_holds_own_tasks_only Sample.backend SampleView.created_at Sample.bob _
              Sample.world Hup)
    as [_ Hother].
  destruct (Hother Sample.milk Sample.milk_id eq_refl eq_refl) as (Hnot & Hget & _).
  - discriminate.
  - exists Sample.milk_for_bob. split; [now left | split; reflexivity].
  - split; [exact Hnot |]. exact (f_equal status Hget).
Defined.
